(** * Bench lifecycle and reconciliation (frappe_manager/site_manager/site.py)

    A shallow embedding of the [Bench] class.  The methods of [Bench] are
    written in a small state-and-exception monad over a [World] that holds
    the attributes of the bench object, the observable state of its
    collaborators (compose projects, certificate backend, file system,
    database service) and the chronological log of every call that leaves
    the class.  Collaborators live outside this file of the repository; the
    way they answer and the way they fail is supplied by a [Runtime]. *)

From Stdlib Require Import String Ascii List Bool Arith ZArith Lia.
From Stdlib Require Import DecimalString.
Import ListNotations.
Local Open Scope string_scope.

Set Implicit Arguments.

(** ** Python helpers *)

(** [s.endswith(suffix)] *)
Definition endswith (s suffix : string) : bool :=
  let n := String.length s in
  let k := String.length suffix in
  (k <=? n)%nat && String.eqb (substring (n - k) k s) suffix.

(** [c.lower()] on one character, ASCII range *)
Definition lower_ascii (c : ascii) : ascii :=
  let n := nat_of_ascii c in
  if ((65 <=? n) && (n <=? 90))%nat then ascii_of_nat (n + 32) else c.

(** [s.lower()] *)
Fixpoint lower (s : string) : string :=
  match s with
  | EmptyString => EmptyString
  | String c r => String (lower_ascii c) (lower r)
  end.

(** [needle in haystack] on strings *)
Definition contains (needle haystack : string) : bool :=
  match index 0 needle haystack with
  | Some _ => true
  | None => false
  end.

(** [str(n)] for a Python integer *)
Definition str_of_int (n : Z) : string := NilZero.string_of_int (Z.to_int n).

(** [key in d] and [d[key]] for a dict kept as an association list *)
Fixpoint dict_get {A : Type} (key : string) (d : list (string * A)) : option A :=
  match d with
  | [] => None
  | (k, v) :: r => if String.eqb k key then Some v else dict_get key r
  end.

Definition dict_has {A : Type} (key : string) (d : list (string * A)) : bool :=
  match dict_get key d with Some _ => true | None => false end.

(** the line feed of a Python string literal *)
Definition nl : string := String (ascii_of_nat 10) EmptyString.

(** U+1F914 in UTF-8, the first character of the removal prompt *)
Definition thinking_face : string :=
  String (ascii_of_nat 240) (String (ascii_of_nat 159)
    (String (ascii_of_nat 164) (String (ascii_of_nat 148) EmptyString))).

(** iterating a dict yields its keys *)
Definition dict_iter {A : Type} (d : list (string * A)) : list string := map fst d.

(** [d[key] = value] on a dict kept as an association list: the value is
    replaced where the key is, a new key goes to the end *)
Fixpoint dict_set {A : Type} (key : string) (value : A) (d : list (string * A))
  : list (string * A) :=
  match d with
  | [] => [(key, value)]
  | (k, x) :: r =>
      if String.eqb k key then (k, value) :: r else (k, x) :: dict_set key value r
  end.

(** the loop of [common_bench_config_set] over [config.items()], which
    assigns every entry to the dict read from common_site_config.json *)
Definition merged_common_site_config (common_site_config config : list (string * string))
  : list (string * string) :=
  fold_left (fun d entry => dict_set (fst entry) (snd entry) d) config common_site_config.

(** ** Exceptions *)

Inductive Exn : Type :=
| DockerException
| PermissionError
| OSError (msg : string)
| Exception (msg : string)
| BenchException (bench_name msg : string)
| BenchRemoveDirectoryError (bench_name path : string)
| BenchSSLCertificateAlreadyIssued (bench_name : string)
| BenchSSLCertificateNotIssued (bench_name : string)
| BenchWorkersSupervisorConfigurtionGenerateError (bench_name : string)
| KeyError (key : string)
| Exit (msg : string)
| KeyboardInterrupt.

(** ** Data model *)

(** The three compose projects of a bench: [self.compose_project],
    [self.workers.compose_project], [self.admin_tools.compose_project]. *)
Inductive Group : Type := Primary | Workers | AdminTools.

Record PerGroup (A : Type) : Type := mkPerGroup {
  of_primary : A;
  of_workers : A;
  of_admin_tools : A
}.

Definition pg_get {A} (g : Group) (p : PerGroup A) : A :=
  match g with
  | Primary => of_primary p
  | Workers => of_workers p
  | AdminTools => of_admin_tools p
  end.

Definition pg_set {A} (g : Group) (a : A) (p : PerGroup A) : PerGroup A :=
  match g with
  | Primary => mkPerGroup a (of_workers p) (of_admin_tools p)
  | Workers => mkPerGroup (of_primary p) a (of_admin_tools p)
  | AdminTools => mkPerGroup (of_primary p) (of_workers p) a
  end.

Inductive FMBenchEnvType : Type := dev | prod.

(** Modelled from the spec: the enumeration [SUPPORTED_SSL_TYPES] is declared
    outside site.py; the data model gives an SSL descriptor the two types
    none and externally issued, which site.py names [none] and [le]. *)
Module SUPPORTED_SSL_TYPES.
Inductive t : Type := le | none.
End SUPPORTED_SSL_TYPES.

Record SSLCertificate : Type := mkSSLCertificate {
  domain : string;
  ssl_type : SUPPORTED_SSL_TYPES.t
}.

Record BenchConfig : Type := mkBenchConfig {
  environment_type : FMBenchEnvType;
  admin_pass : string;
  ssl : SSLCertificate;
  admin_tools : bool
}.

Definition with_ssl (c : SSLCertificate) (b : BenchConfig) : BenchConfig :=
  mkBenchConfig (environment_type b) (admin_pass b) c (admin_tools b).

(** ** Calls that leave the class *)

Inductive Action : Type :=
(* ComposeProject *)
| StartService (g : Group) (force_recreate : option bool)
| StopService (g : Group) (services : option (list string))
| DownService (g : Group) (remove_ophans volumes : bool)
| ComposeExec (service command : string) (user workdir : option string) (stream : bool)
| ComposeLogs (services : list string) (follow stream : bool)
| DockerRun (image entrypoint command volume : string) (stream : bool)
| HostRunCp (image source destination : string)
(* ComposeFile of the primary project *)
| SetAllEnvs
| SetAllLabels
| SetUser (container uid gid : string)
| SetNetworkAlias (service network : string) (aliases : list string)
| SetContainerNames (prefix : string)
| SetSecretFilePath (secret path : string)
| SetVersion (version : string)
| SetTopNetworksName (network prefix : string)
| RemoveSecretsFromContainer (service : string)
| RemoveRootSecretsCompose
| WriteToFile
(* BenchWorkers and AdminTools *)
| WorkersGenerateCompose
| AdminToolsGenerateCompose (db_host : string)
| AdminToolsEnable (force_recreate_container : option bool)
| AdminToolsDisable
(* SSLCertificateManager *)
| SetCertificate (certificate : SSLCertificate)
| GenerateCertificate
| RemoveCertificate
| RenewCertificate
(* BenchConfig *)
| ExportToToml
(* BackupManager *)
| Backup (src : string)
| RestoreBackup (src : string) (force : bool)
(* database manager of the shared services *)
| RemoveDb (db_name : string)
| RemoveUser (db_user : string) (remove_all_host : bool)
(* file system, time, terminal *)
| Mkdir (path : string)
| Rmtree (path : string)
| WriteCommonSiteConfig (entries : list (string * string))
| Sleep (interval : Z)
| LiveLines (stop_string : option string)
| PromptAsk (prompt : string) (choices : list string) (default : option string)
| InfoTable.

Inductive Event : Type :=
| ECall (a : Action) (raised : option Exn)
| change_head (msg : string)
| print (msg : string)
| warning (msg : string)
| error (msg : string)
| rich_start (msg : string)
| rich_stop
| update_live
| builtin_print (msg : string)
| stdout_print (msg : string)
| logger_info (msg : string)
| logger_error (msg : string).

(** ** The world *)

Record World : Type := mkWorld {
  (* attributes of the bench object *)
  bench_config : BenchConfig;
  (* bench config file as last exported *)
  saved_config : option BenchConfig;
  (* SSLCertificateManager: its certificate and what the backend holds *)
  manager_certificate : SSLCertificate;
  certificate_issued : bool;
  (* compose projects *)
  compose_file_exists : PerGroup bool;
  compose_running : PerGroup bool;
  services_running_status : PerGroup (list (string * string));
  all_images : list (string * (string * string));
  (* file system *)
  path_exists : bool;
  common_site_config_exists : bool;
  supervisor_config_exists : bool;
  config_dir : list (string * bool);
  (* BackupManager('workers', ...) of the latest backup run *)
  backups : list string;
  (* database service *)
  bench_db_info : list (string * string);
  db_exists : bool;
  db_user_exists : bool;
  (* everything that happened, oldest first *)
  log : list Event
}.

Definition set_bench_config (v : BenchConfig) (w : World) : World :=
  mkWorld v (saved_config w) (manager_certificate w) (certificate_issued w)
    (compose_file_exists w) (compose_running w) (services_running_status w)
    (all_images w) (path_exists w) (common_site_config_exists w)
    (supervisor_config_exists w) (config_dir w) (backups w) (bench_db_info w)
    (db_exists w) (db_user_exists w) (log w).

Definition set_saved_config (v : option BenchConfig) (w : World) : World :=
  mkWorld (bench_config w) v (manager_certificate w) (certificate_issued w)
    (compose_file_exists w) (compose_running w) (services_running_status w)
    (all_images w) (path_exists w) (common_site_config_exists w)
    (supervisor_config_exists w) (config_dir w) (backups w) (bench_db_info w)
    (db_exists w) (db_user_exists w) (log w).

Definition set_manager_certificate (v : SSLCertificate) (w : World) : World :=
  mkWorld (bench_config w) (saved_config w) v (certificate_issued w)
    (compose_file_exists w) (compose_running w) (services_running_status w)
    (all_images w) (path_exists w) (common_site_config_exists w)
    (supervisor_config_exists w) (config_dir w) (backups w) (bench_db_info w)
    (db_exists w) (db_user_exists w) (log w).

Definition set_certificate_issued (v : bool) (w : World) : World :=
  mkWorld (bench_config w) (saved_config w) (manager_certificate w) v
    (compose_file_exists w) (compose_running w) (services_running_status w)
    (all_images w) (path_exists w) (common_site_config_exists w)
    (supervisor_config_exists w) (config_dir w) (backups w) (bench_db_info w)
    (db_exists w) (db_user_exists w) (log w).

Definition set_compose_file_exists (v : PerGroup bool) (w : World) : World :=
  mkWorld (bench_config w) (saved_config w) (manager_certificate w)
    (certificate_issued w) v (compose_running w) (services_running_status w)
    (all_images w) (path_exists w) (common_site_config_exists w)
    (supervisor_config_exists w) (config_dir w) (backups w) (bench_db_info w)
    (db_exists w) (db_user_exists w) (log w).

Definition set_compose_running (v : PerGroup bool) (w : World) : World :=
  mkWorld (bench_config w) (saved_config w) (manager_certificate w)
    (certificate_issued w) (compose_file_exists w) v (services_running_status w)
    (all_images w) (path_exists w) (common_site_config_exists w)
    (supervisor_config_exists w) (config_dir w) (backups w) (bench_db_info w)
    (db_exists w) (db_user_exists w) (log w).

Definition set_path_exists (v : bool) (w : World) : World :=
  mkWorld (bench_config w) (saved_config w) (manager_certificate w)
    (certificate_issued w) (compose_file_exists w) (compose_running w)
    (services_running_status w) (all_images w) v (common_site_config_exists w)
    (supervisor_config_exists w) (config_dir w) (backups w) (bench_db_info w)
    (db_exists w) (db_user_exists w) (log w).

Definition set_backups (v : list string) (w : World) : World :=
  mkWorld (bench_config w) (saved_config w) (manager_certificate w)
    (certificate_issued w) (compose_file_exists w) (compose_running w)
    (services_running_status w) (all_images w) (path_exists w)
    (common_site_config_exists w) (supervisor_config_exists w) (config_dir w)
    v (bench_db_info w) (db_exists w) (db_user_exists w) (log w).

Definition set_db_exists (v : bool) (w : World) : World :=
  mkWorld (bench_config w) (saved_config w) (manager_certificate w)
    (certificate_issued w) (compose_file_exists w) (compose_running w)
    (services_running_status w) (all_images w) (path_exists w)
    (common_site_config_exists w) (supervisor_config_exists w) (config_dir w)
    (backups w) (bench_db_info w) v (db_user_exists w) (log w).

Definition set_db_user_exists (v : bool) (w : World) : World :=
  mkWorld (bench_config w) (saved_config w) (manager_certificate w)
    (certificate_issued w) (compose_file_exists w) (compose_running w)
    (services_running_status w) (all_images w) (path_exists w)
    (common_site_config_exists w) (supervisor_config_exists w) (config_dir w)
    (backups w) (bench_db_info w) (db_exists w) v (log w).

Definition set_log (v : list Event) (w : World) : World :=
  mkWorld (bench_config w) (saved_config w) (manager_certificate w)
    (certificate_issued w) (compose_file_exists w) (compose_running w)
    (services_running_status w) (all_images w) (path_exists w)
    (common_site_config_exists w) (supervisor_config_exists w) (config_dir w)
    (backups w) (bench_db_info w) (db_exists w) (db_user_exists w) v.

(** The world with the log left out: what the bench and its collaborators
    hold. *)
Definition state_of (w : World) : World := set_log [] w.

(** ** The bench object and its surroundings *)

(** [bench_config.export_to_compose_inputs()]: a dict whose keys
    "environment", "labels" and "user" may each be missing. *)
Record ComposeInputs : Type := mkComposeInputs {
  inputs_environment : bool;
  inputs_labels : bool;
  inputs_user : option (list (string * (string * string)))
}.

(** Attributes of [self] that no method assigns, and the values of helper
    functions that depend on them only. *)
Record Bench : Type := mkBench {
  name : string;
  path : string;
  quiet : bool;
  (* services.database_manager.database_server_info *)
  db_host : string;
  db_port : string;
  db_secret_path : string;
  (* workers.supervisor_config_path *)
  supervisor_config_path : string;
  (* get_container_name_prefix(self.name), get_current_fm_version() *)
  container_name_prefix : string;
  fm_version : string;
  (* CLI_DIR / "logs" / "fm.log" *)
  log_path : string;
  (* yml["services"][...]["image"] of the primary compose file *)
  frappe_image_yml : string;
  nginx_image_yml : string;
  compose_inputs : ComposeInputs
}.

(** What the collaborators answer.  Every oracle sees the whole world,
    log included, so an answer may change from one call to the next. *)
Record Runtime : Type := mkRuntime {
  (* the exception a call raises, if it raises *)
  fault : Action -> World -> option Exn;
  (* [result.stdout] of a command run without streaming *)
  exec_stdout : string -> World -> list string;
  (* [workers.is_expected_worker_same_as_template()] *)
  is_expected_worker_same_as_template : World -> bool;
  (* the choice typed at [richprint.prompt_ask] *)
  prompt_answer : World -> string;
  (* (source, line) pairs of the followed frappe log, lines decoded *)
  frappe_logs : World -> list (string * string);
  (* [p.exists()] for a path the world keeps no field for *)
  exists_at : string -> World -> bool;
  (* what [admin_tools.enable(...)] returns *)
  enable_restart_required : World -> bool;
  (* [str(e)] and [capture_and_format_exception()] *)
  str_exn : Exn -> string;
  format_exception : Exn -> string;
  (* whether the exception [richprint.exit] leaves with derives from
     [Exception] *)
  exit_is_exception : bool;
  (* what [json.load] reads from common_site_config.json *)
  common_site_config_json : World -> list (string * string)
}.

(** ** The monad: state that survives an exception *)

Inductive Result (A : Type) : Type :=
| Ok (a : A)
| Raise (e : Exn).
Arguments Ok {A} a.
Arguments Raise {A} e.

Definition M (A : Type) : Type := World -> Result A * World.

Definition ret {A} (a : A) : M A := fun w => (Ok a, w).

Definition bind {A B} (m : M A) (k : A -> M B) : M B :=
  fun w =>
    match m w with
    | (Ok a, w1) => k a w1
    | (Raise e, w1) => (Raise e, w1)
    end.

Definition raise {A} (e : Exn) : M A := fun w => (Raise e, w).

(** [try: body except <class>: handler] *)
Definition try_except {A} (body : M A) (catches : Exn -> bool) (handler : Exn -> M A) : M A :=
  fun w =>
    match body w with
    | (Ok a, w1) => (Ok a, w1)
    | (Raise e, w1) => if catches e then handler e w1 else (Raise e, w1)
    end.

Declare Scope bench_scope.
Delimit Scope bench_scope with bench.
Notation "x <- c ;; k" := (bind c (fun x => k))
  (at level 100, c at next level, right associativity) : bench_scope.
Notation "c ;; k" := (bind c (fun _ => k))
  (at level 100, right associativity) : bench_scope.
Local Open Scope bench_scope.

Definition pass : M unit := ret tt.

Definition gets {A} (f : World -> A) : M A := fun w => (Ok (f w), w).

Definition modify (f : World -> World) : M unit := fun w => (Ok tt, f w).

(** the world with one more event at the end of its log *)
Definition record (e : Event) (w : World) : World := set_log (log w ++ [e]) w.

Definition emit (e : Event) : M unit := modify (record e).

(** [for x in xs: body x] *)
Fixpoint for_each {A} (xs : list A) (body : A -> M unit) : M unit :=
  match xs with
  | [] => pass
  | x :: r => body x ;; for_each r body
  end.

(** The events a computation adds to the log. *)
Definition events_of {A} (m : M A) (w : World) : list Event :=
  skipn (List.length (log w)) (log (snd (m w))).

(** Modelled from the spec: what a call that returns normally does to the
    observable state of the collaborators, which are defined outside
    site.py (external interfaces: start, stop and tear-down of a group,
    issue and revoke of the certificate backend, snapshot of the backup
    utility, persisting the configuration). *)
Definition effect (a : Action) (w : World) : World :=
  match a with
  | StartService g _ => set_compose_running (pg_set g true (compose_running w)) w
  | StopService g _ => set_compose_running (pg_set g false (compose_running w)) w
  | DownService g _ _ => set_compose_running (pg_set g false (compose_running w)) w
  | AdminToolsEnable _ => set_compose_running (pg_set AdminTools true (compose_running w)) w
  | AdminToolsDisable => set_compose_running (pg_set AdminTools false (compose_running w)) w
  | WriteToFile => set_compose_file_exists (pg_set Primary true (compose_file_exists w)) w
  | WorkersGenerateCompose =>
      set_compose_file_exists (pg_set Workers true (compose_file_exists w)) w
  | AdminToolsGenerateCompose _ =>
      set_compose_file_exists (pg_set AdminTools true (compose_file_exists w)) w
  | SetCertificate c => set_manager_certificate c w
  | GenerateCertificate =>
      match ssl_type (manager_certificate w) with
      | SUPPORTED_SSL_TYPES.le => set_certificate_issued true w
      | SUPPORTED_SSL_TYPES.none => w
      end
  | RemoveCertificate => set_certificate_issued false w
  | ExportToToml => set_saved_config (Some (bench_config w)) w
  | Backup src => set_backups (backups w ++ [src]) w
  | RemoveDb _ => set_db_exists false w
  | RemoveUser _ _ => set_db_user_exists false w
  | Mkdir _ => set_path_exists true w
  | Rmtree _ => set_path_exists false w
  | _ => w
  end.

Section BenchMethods.

Variable self : Bench.
Variable rt : Runtime.

(** [except Exception]: everything but what derives from [BaseException]
    only. *)
Definition is_Exception (e : Exn) : bool :=
  match e with
  | KeyboardInterrupt => false
  | Exit _ => exit_is_exception rt
  | _ => true
  end.

Definition is_DockerException (e : Exn) : bool :=
  match e with DockerException => true | _ => false end.

Definition is_PermissionError (e : Exn) : bool :=
  match e with PermissionError => true | _ => false end.

(** A call on a collaborator: it is logged with its outcome; when the
    runtime makes it raise, the state is left as it was. *)
Definition call (a : Action) : M unit :=
  fun w =>
    match fault rt a w with
    | Some e => (Raise e, record (ECall a (Some e)) w)
    | None => (Ok tt, effect a (record (ECall a None) w))
    end.

(** A call that hands back what the runtime answers at this point. *)
Definition call_with {A} (a : Action) (answer : World -> A) : M A :=
  fun w =>
    match call a w with
    | (Ok _, w1) => (Ok (answer w), w1)
    | (Raise e, w1) => (Raise e, w1)
    end.

(** [richprint.exit(msg)] *)
Definition richprint_exit {A} (msg : string) : M A := raise (Exit msg).

(** [<group>.compose_file_manager.exists()] and [<group>.running]: read
    off the world; the two queries are taken to answer without raising *)
Definition exists_ (g : Group) : M bool := gets (fun w => pg_get g (compose_file_exists w)).
Definition running (g : Group) : M bool := gets (fun w => pg_get g (compose_running w)).

(** Modelled from the spec: [get_services_running_status()] is defined
    outside site.py; the execution runtime interface gives it as a mapping
    from service to status. *)
Definition get_services_running_status (g : Group) : M (list (string * string)) :=
  gets (fun w => pg_get g (services_running_status w)).

Definition save_bench_config : M unit :=
  emit (change_head "Saving bench config changes") ;;
  call ExportToToml ;;
  emit (print "Saved bench config.").

(** ** Reconciliation *)

Definition ensure_workers_running_if_available : M unit :=
  e <- exists_ Workers ;;
  if e then
    r <- running Workers ;;
    if negb r then
      p <- running Primary ;;
      if p then call (StartService Workers None) else pass
    else pass
  else pass.

Definition ensure_admin_tools_running_if_available : M unit :=
  e <- exists_ AdminTools ;;
  if e then
    a <- gets (fun w => admin_tools (bench_config w)) ;;
    if a then
      r <- running AdminTools ;;
      if negb r then
        p <- running Primary ;;
        if p then call (AdminToolsEnable None) else pass
      else pass
    else
      running_services <- get_services_running_status AdminTools ;;
      let atleast_one_service_running :=
        fold_left (fun acc service => if String.eqb service "running" then true else acc)
                  (dict_iter running_services) false in
      if atleast_one_service_running then call AdminToolsDisable else pass
  else pass.

(** ** Certificates *)

Definition create_certificate : M unit :=
  call GenerateCertificate ;;
  save_bench_config.

(** Modelled from the spec: [certificate_manager.has_certificate()] is
    defined outside site.py; it reports whether the certificate backend
    holds a certificate for the bench. *)
Definition has_certificate : M bool := gets certificate_issued.

Definition remove_certificate : M unit :=
  call RemoveCertificate ;;
  modify (fun w => set_bench_config
            (with_ssl (mkSSLCertificate (name self) SUPPORTED_SSL_TYPES.none) (bench_config w)) w) ;;
  save_bench_config.

Definition update_certificate (certificate : SSLCertificate) : M unit :=
  match ssl_type certificate with
  | SUPPORTED_SSL_TYPES.le =>
      h <- has_certificate ;;
      if h then raise (BenchSSLCertificateAlreadyIssued (name self))
      else
        call (SetCertificate certificate) ;;
        modify (fun w => set_bench_config (with_ssl certificate (bench_config w)) w) ;;
        create_certificate
  | SUPPORTED_SSL_TYPES.none =>
      h <- has_certificate ;;
      if h then remove_certificate
      else raise (BenchSSLCertificateNotIssued (name self))
  end.

(** ** Readiness *)

Definition frappe_logs_sentinel : string := "INFO supervisord started with pid".

(** the loop of [frappe_logs_till_start] when the bench is verbose *)
Fixpoint frappe_logs_loop (output : list (string * string)) : M unit :=
  match output with
  | [] => pass
  | (source, line) :: rest =>
      if negb (String.eqb source "exit_code") then
        if contains (lower "Updating files:") (lower line) then frappe_logs_loop rest
        else if contains (lower "[==") (lower line) then
          emit (builtin_print line) ;; frappe_logs_loop rest
        else
          emit (stdout_print line) ;;
          if contains (lower frappe_logs_sentinel) (lower line) then pass
          else frappe_logs_loop rest
      else frappe_logs_loop rest
  end.

Definition frappe_logs_till_start : M unit :=
  output <- call_with (ComposeLogs ["frappe"] true true) (frappe_logs rt) ;;
  if quiet self then call (LiveLines (Some frappe_logs_sentinel))
  else frappe_logs_loop output.

Definition check_command (retry : Z) : M string :=
  env <- gets (fun w => environment_type (bench_config w)) ;;
  let url := "http://localhost" in
  let headers :=
    match env with
    | prod => "-H 'Host: " ++ name self ++ "'"
    | dev => ""
    end in
  ret ("curl -I --max-time " ++ str_of_int retry ++ " --connect-timeout " ++ str_of_int retry
       ++ " " ++ headers ++ " " ++ url).

(** one round of the [for _ in range(retry)] loop; [true] stands for the
    [return True] taken inside it *)
Definition probe_once (command : string) (interval : Z) : M bool :=
  try_except
    (stdout <- call_with (ComposeExec "frappe" command None None false) (exec_stdout rt command) ;;
     ret (existsb (contains "HTTP/1.1 200 OK") stdout))
    is_Exception
    (fun _ => call (Sleep interval) ;; ret false).

Fixpoint probe_loop (rounds : nat) (command : string) (interval : Z) : M bool :=
  match rounds with
  | O => ret false
  | S k =>
      found <- probe_once command interval ;;
      if found then ret true else probe_loop k command interval
  end.

Definition is_bench_created (retry interval : Z) : M bool :=
  command <- check_command retry ;;
  probe_loop (Z.to_nat retry) command interval.

(** ** Worker configuration *)

Definition backup_workers_supervisor_conf : M (list string) :=
  modify (set_backups []) ;;
  call (Backup (supervisor_config_path self)) ;;
  e <- gets supervisor_config_exists ;;
  (if e then
     files <- gets config_dir ;;
     for_each files (fun entry =>
       let '(file_path_abs, is_file) := entry in
       if negb is_file then pass
       else if endswith file_path_abs ".fm.supervisor.conf" then call (Backup file_path_abs)
       else pass)
   else pass) ;;
  gets backups.

Definition bench_setup_supervisor_command : string :=
  "bench setup supervisor --skip-redis --skip-supervisord --yes --user frappe".

Definition generate_split_config_command : string :=
  "/scripts/divide-supervisor-conf.py config/supervisor.conf".

Definition regenerate_workers_supervisor_conf : M bool :=
  emit (change_head "Regenerating supervisor.conf.") ;;
  _ <- backup_workers_supervisor_conf ;;
  try_except
    (call (ComposeExec "frappe" bench_setup_supervisor_command
             (Some "frappe") (Some "/workspace/frappe-bench") true) ;;
     call (LiveLines None) ;;
     call (ComposeExec "frappe" generate_split_config_command
             (Some "frappe") (Some "/workspace/frappe-bench") true) ;;
     call (LiveLines None) ;;
     ret true)
    is_DockerException
    (fun _ =>
       emit (print "Rolling back to previous workers configuration.") ;;
       raise (BenchWorkersSupervisorConfigurtionGenerateError (name self))).

Definition sync_workers_compose (force_recreate : bool) : M unit :=
  _ <- regenerate_workers_supervisor_conf ;;
  are_workers_not_changed <- gets (is_expected_worker_same_as_template rt) ;;
  if are_workers_not_changed then
    emit (print "Workers configuration remains unchanged.")
  else
    call WorkersGenerateCompose ;;
    call (StartService Workers (Some force_recreate)).

Definition backup_restore_workers_supervisor (backup_manager : list string) : M unit :=
  emit (print "Rolling back to previous workers configuration.") ;;
  for_each backup_manager (fun backup => call (RestoreBackup backup true)).

(** ** Compose descriptor and directories *)

Definition generate_compose (inputs : ComposeInputs) : M unit :=
  (if inputs_environment inputs then call SetAllEnvs else pass) ;;
  (if inputs_labels inputs then call SetAllLabels else pass) ;;
  (match inputs_user inputs with
   | Some user =>
       for_each user (fun entry =>
         let '(container_name, (uid, gid)) := entry in
         call (SetUser container_name uid gid))
   | None => pass
   end) ;;
  call (SetNetworkAlias "nginx" "site-network" [name self]) ;;
  call (SetContainerNames (container_name_prefix self)) ;;
  call (SetSecretFilePath "db_root_password" (db_secret_path self)) ;;
  call (SetVersion (fm_version self)) ;;
  call (SetTopNetworksName "site-network" (container_name_prefix self)) ;;
  call WriteToFile.

Definition common_bench_config_set (config : list (string * string)) : M unit :=
  e <- gets common_site_config_exists ;;
  if negb e then raise (BenchException (name self) "common_site_config.json not found.")
  else
    common_site_config <- gets (common_site_config_json rt) ;;
    let common_site_config := merged_common_site_config common_site_config config in
    call (WriteCommonSiteConfig common_site_config).

Definition sync_bench_common_site_config (services_db_host services_db_port : string) : M unit :=
  let container_prefix := container_name_prefix self in
  common_bench_config_set
    [("socketio_port", "80");
     ("db_host", services_db_host);
     ("db_port", services_db_port);
     ("redis_cache", "redis://" ++ container_prefix ++ "-redis-cache:6379");
     ("redis_queue", "redis://" ++ container_prefix ++ "-redis-queue:6379");
     ("redis_socketio", "redis://" ++ container_prefix ++ "-redis-cache:6379")].

Definition create_compose_dirs : M bool :=
  emit (change_head "Creating required directories") ;;
  let workspace_path := path self ++ "/workspace" in
  call (HostRunCp (frappe_image_yml self) "/workspace" workspace_path) ;;
  let configs_path := path self ++ "/configs" in
  call (Mkdir configs_path) ;;
  let nginx_dir := configs_path ++ "/nginx" in
  call (Mkdir nginx_dir) ;;
  for_each ["conf"] (fun directory =>
    let new_dir := nginx_dir ++ "/" ++ directory in
    e <- gets (exists_at rt new_dir) ;;
    if negb e then call (HostRunCp (nginx_image_yml self) "/etc/nginx" new_dir) else pass) ;;
  for_each ["logs"; "cache"; "run"; "html"] (fun directory =>
    call (Mkdir (nginx_dir ++ "/" ++ directory))) ;;
  emit (print "Created all required directories.") ;;
  ret true.

(** ** Start *)

Definition start (force : bool) : M unit :=
  sync_bench_common_site_config (db_host self) (db_port self) ;;
  emit (change_head "Starting bench services") ;;
  call (StartService Primary (Some force)) ;;
  emit (print "Started bench services.") ;;
  e <- exists_ Workers ;;
  (if e then
     emit (change_head "Starting bench workers services") ;;
     call (StartService Workers (Some force)) ;;
     emit (print "Started bench workers services.")
   else pass) ;;
  e <- exists_ AdminTools ;;
  (if e then
     emit (change_head "Starting bench admin tools services") ;;
     call (StartService AdminTools (Some force)) ;;
     emit (print "Started bench admin tools services.")
   else pass) ;;
  emit (change_head "Starting frappe server") ;;
  frappe_logs_till_start ;;
  emit (print "Started frappe server.") ;;
  sync_workers_compose false.

(** ** Secrets *)

Definition remove_attached_secrets : M unit :=
  emit (change_head "Removing bench attached secrets") ;;
  r <- running Primary ;;
  (if r then
     call (StopService Primary (Some ["frappe"])) ;;
     e <- exists_ Workers ;;
     if e then call (StopService Workers None) else pass
   else pass) ;;
  call (RemoveSecretsFromContainer "frappe") ;;
  call RemoveRootSecretsCompose ;;
  call WriteToFile ;;
  (if r then
     start false ;;
     emit (change_head "Waiting till bench server has created.") ;;
     frappe_logs_till_start ;;
     emit (print "Bench server has created.")
   else pass) ;;
  emit (print "Removed bench attached secrets.").

(** ** Teardown *)

(** lines 459 to 478 of [remove_containers_and_dirs]: the containers *)
Definition remove_containers : M unit :=
  e <- exists_ Primary ;;
  (if e then
     emit (change_head "Removing bench containers.") ;;
     call (DownService Primary true true) ;;
     emit (print "Removed bench containers.")
   else emit (warning "Bench compose file not found. Skipping containers removal.")) ;;
  e <- exists_ Workers ;;
  (if e then
     emit (change_head "Removing bench workers containers.") ;;
     call (DownService Workers true true) ;;
     emit (print "Removed bench workers containers.")
   else emit (warning "Bench workers compose file not found. Skipping containers removal.")) ;;
  e <- exists_ AdminTools ;;
  (if e then
     emit (change_head "Removing bench admin tools containers.") ;;
     call (DownService AdminTools true true) ;;
     emit (print "Removed bench admin tools containers.")
   else emit (warning "Bench admin tools compose file not found. Skipping containers removal.")).

(** lines 480 to 500 of [remove_containers_and_dirs]: the directory *)
Definition remove_dirs : M unit :=
  emit (change_head "Removing all bench files and directories.") ;;
  try_except
    (call (Rmtree (path self)))
    is_PermissionError
    (fun _ =>
       try_except
         (images <- gets all_images ;;
          match dict_get "frappe" images with
          | Some (image_name, image_tag) =>
              let frappe_image := image_name ++ ":" ++ image_tag in
              call (DockerRun frappe_image "/bin/sh" "-c 'chown -R frappe:frappe .'"
                      (path self ++ "/workspace:/workspace") false) ;;
              call (Rmtree (path self))
          | None => pass
          end)
         is_Exception
         (fun _ => raise (BenchRemoveDirectoryError (name self) (path self)))) ;;
  emit (print "Removed all bench files and directories.").

Definition remove_containers_and_dirs : M unit :=
  remove_containers ;;
  remove_dirs.

(** ** Information, database, removal *)

Definition dict_index (key : string) (d : list (string * string)) : M string :=
  match dict_get key d with
  | Some v => ret v
  | None => raise (KeyError key)
  end.

(** [info]: the look-ups that can raise are kept; building and printing
    the table is one call. *)
Definition info : M unit :=
  emit (change_head "Getting bench info") ;;
  bench_db_info <- gets bench_db_info ;;
  _ <- dict_index "name" bench_db_info ;;
  _ <- dict_index "password" bench_db_info ;;
  call InfoTable.

Definition remove_database_and_user : M unit :=
  bench_db_info <- gets bench_db_info ;;
  emit (change_head "Removing bench db and db users") ;;
  if dict_has "name" bench_db_info then
    db_name <- dict_index "name" bench_db_info ;;
    db_user <- dict_index "user" bench_db_info ;;
    d <- gets db_exists ;;
    (if negb d then
       emit (warning ("Bench db [blue]" ++ db_name ++ "[/blue] not found. Skipping..."))
     else
       call (RemoveDb db_name) ;;
       emit (print ("Removed bench db [blue]" ++ db_name ++ "[/blue]."))) ;;
    u <- gets db_user_exists ;;
    (if negb u then
       emit (warning ("Bench db user [blue]" ++ db_user ++ "[/blue] not found. Skipping..."))
     else
       call (RemoveUser db_user true) ;;
       emit (print ("Removed bench db users [blue]" ++ db_user ++ "[/blue].")))
  else pass.

Definition remove_bench (default_choice : bool) : M bool :=
  let prompt := thinking_face ++ " Do you want to remove [bold][green]'" ++ name self
                ++ "'[/bold][/green]" in
  let choices := ["yes"; "no"] in
  let default := if default_choice then Some "no" else None in
  continue_remove <- call_with (PromptAsk prompt choices default) (prompt_answer rt) ;;
  if String.eqb continue_remove "no" then ret false
  else
    emit (rich_start "Removing bench") ;;
    try_except remove_certificate is_Exception
      (fun e => emit (warning (str_exn rt e))) ;;
    remove_database_and_user ;;
    remove_containers_and_dirs ;;
    ret true.

(** ** Admin tools *)

Definition sync_admin_tools_compose : M bool :=
  call (AdminToolsGenerateCompose (db_host self)) ;;
  restart_required <- call_with (AdminToolsEnable (Some true)) (enable_restart_required rt) ;;
  ret restart_required.

Definition restart_frappe_server : M unit :=
  emit (change_head "Restarting frappe server") ;;
  let restart_command := "supervisorctl -c /opt/user/supervisord.conf restart all" in
  try_except
    (call (ComposeExec "frappe" restart_command None None false))
    is_DockerException
    (fun e =>
       emit (builtin_print (str_exn rt e)) ;;
       raise (BenchException "frappe" "Faild to restart frappe server.")) ;;
  emit (print "Restarted frappe server.").

(** ** Creation *)

(** the body of the [try] of [create] up to and including the status check *)
Definition create_until_checked (is_template_bench : bool) : M unit :=
  emit (change_head "Creating Bench Directory") ;;
  call (Mkdir (path self)) ;;
  emit (change_head "Generating bench compose") ;;
  generate_compose (compose_inputs self) ;;
  _ <- create_compose_dirs ;;
  (if is_template_bench then
     remove_attached_secrets ;;
     richprint_exit ("Created template bench: " ++ name self)
   else pass) ;;
  emit (change_head "Starting bench services") ;;
  call (StartService Primary (Some true)) ;;
  emit (print "Started bench services.") ;;
  emit (change_head "Creating bench and bench site.") ;;
  frappe_logs_till_start ;;
  emit (print "Bench and bench site created.") ;;
  emit (change_head "Configuring bench workers.") ;;
  sync_workers_compose true ;;
  emit (change_head "Configuring bench workers.") ;;
  emit update_live ;;
  emit (change_head "Commencing site status check on bench site.") ;;
  created <- is_bench_created 60 1 ;;
  if negb created then raise (Exception "Bench site is inactive or unresponsive.")
  else pass.

(** the rest of the body of the [try] of [create] *)
Definition create_after_checked : M unit :=
  emit (print "Bench site is active and responding.") ;;
  remove_attached_secrets ;;
  emit (logger_info (name self ++ ": Bench site is active and responding.")) ;;
  create_certificate ;;
  emit (change_head "Configuring bench admin tools.") ;;
  a <- gets (fun w => admin_tools (bench_config w)) ;;
  (if a then
     _ <- sync_admin_tools_compose ;;
     restart_frappe_server
   else pass) ;;
  emit (print "Cofigured bench admin tools.") ;;
  info ;;
  save_bench_config ;;
  if negb (contains ".localhost" (name self)) then
    emit (print "Please note that You will have to add a host entry to your system's hosts file to access the bench locally.")
  else pass.

(** the [except Exception as e] of [create] *)
Definition create_failed (e : Exn) : M unit :=
  emit rich_stop ;;
  emit (error ("[red][bold]Error Occured : " ++ str_exn rt e ++ "[/bold][/red]")) ;;
  let exception_traceback_str := format_exception rt e in
  emit (logger_error (name self ++ ": NOT WORKING" ++ nl ++ " Exception: "
                      ++ exception_traceback_str)) ;;
  emit (error ("There has been some error creating/starting the bench." ++ nl
               ++ ":mag: Please check the logs at " ++ log_path self)) ;;
  x <- gets path_exists ;;
  if x then
    remove_status <- remove_bench false ;;
    if negb remove_status then info else pass
  else pass.

Definition create (is_template_bench : bool) : M unit :=
  try_except
    (create_until_checked is_template_bench ;; create_after_checked)
    is_Exception
    create_failed.

(** ** Construction *)

(** the two checks at the end of [__init__] *)
Definition init_checks (workers_check admin_tools_check : bool) : M unit :=
  (if workers_check then ensure_workers_running_if_available else pass) ;;
  (if admin_tools_check then ensure_admin_tools_running_if_available else pass).

End BenchMethods.

Arguments is_Exception rt e : clear implicits.

(** ** Sample benches, runtimes and worlds *)

Definition shop : Bench :=
  mkBench "shop.localhost" "/benches/shop.localhost" true
    "global-db" "3306" "/services/mariadb/root_password"
    "/benches/shop.localhost/workspace/frappe-bench/config/supervisor.conf"
    "shop" "0.13.0" "/fm/logs/fm.log"
    "frappe-manager-frappe:v0.13.0" "frappe-manager-nginx:v0.13.0"
    (mkComposeInputs true true (Some [("frappe", ("1000", "1000"))])).

(** a runtime in which no call raises, the probe sees a 200, the workers
    are unchanged and the prompt is answered "no" *)
Definition calm : Runtime :=
  mkRuntime (fun _ _ => None) (fun _ _ => ["HTTP/1.1 200 OK"]) (fun _ => true)
    (fun _ => "no") (fun _ => []) (fun _ _ => false) (fun _ => false)
    (fun _ => "error") (fun _ => "traceback") false
    (fun _ => [("developer_mode", "1"); ("db_host", "mariadb")]).

(** a runtime in which every command run the way the readiness probe runs
    it raises, and nothing else does *)
Definition unreachable : Runtime :=
  mkRuntime
    (fun a _ => match a with
                | ComposeExec _ _ None None false => Some DockerException
                | _ => None
                end)
    (fun _ _ => []) (fun _ => true)
    (fun _ => "no") (fun _ => []) (fun _ _ => false) (fun _ => false)
    (fun _ => "error") (fun _ => "traceback") false
    (fun _ => [("developer_mode", "1"); ("db_host", "mariadb")]).

Definition shop_config : BenchConfig :=
  mkBenchConfig dev "admin" (mkSSLCertificate "shop.localhost" SUPPORTED_SSL_TYPES.none) false.

(** a bench whose three descriptors exist, primary group up, the others
    down, no certificate *)
Definition shop_world : World :=
  mkWorld shop_config None (mkSSLCertificate "shop.localhost" SUPPORTED_SSL_TYPES.none) false
    (mkPerGroup true true true) (mkPerGroup true false false)
    (mkPerGroup [("frappe", "running"); ("nginx", "running")] [] [])
    [("frappe", ("frappe-manager-frappe", "v0.13.0")); ("nginx", ("frappe-manager-nginx", "v0.13.0"))]
    true true true
    [("/benches/shop.localhost/workspace/frappe-bench/config/supervisor.conf", true);
     ("/benches/shop.localhost/workspace/frappe-bench/config/frappe-bench-frappe-web.workers.fm.supervisor.conf", true)]
    []
    [("name", "shop_db"); ("user", "shop_db"); ("password", "secret")]
    true true [].

(** admin tools switched off in the configuration while both of their
    services are up *)
Definition admin_tools_drifted : World :=
  mkWorld shop_config None (mkSSLCertificate "shop.localhost" SUPPORTED_SSL_TYPES.none) false
    (mkPerGroup true true true) (mkPerGroup true false true)
    (mkPerGroup [] [] [("mailhog", "running"); ("adminer", "running")])
    [] true true true [] [] [] true true [].

(** a runtime in which every recursive delete raises [PermissionError] *)
Definition locked : Runtime :=
  mkRuntime
    (fun a _ => match a with Rmtree _ => Some PermissionError | _ => None end)
    (fun _ _ => []) (fun _ => true)
    (fun _ => "no") (fun _ => []) (fun _ _ => false) (fun _ => false)
    (fun _ => "error") (fun _ => "traceback") false
    (fun _ => [("developer_mode", "1"); ("db_host", "mariadb")]).

(** a bench directory whose primary descriptor lists no frappe image *)
Definition imageless : World :=
  mkWorld shop_config None (mkSSLCertificate "shop.localhost" SUPPORTED_SSL_TYPES.none) false
    (mkPerGroup true false false) (mkPerGroup false false false)
    (mkPerGroup [] [] [])
    [("nginx", ("frappe-manager-nginx", "v0.13.0"))]
    true true false [] [] [] false false [].

(** a runtime whose worker comparison answers "changed" until the worker
    descriptor has been generated once, and "unchanged" from then on *)
Definition settling : Runtime :=
  mkRuntime (fun _ _ => None) (fun _ _ => ["HTTP/1.1 200 OK"])
    (fun w => existsb (fun e => match e with
                                | ECall WorkersGenerateCompose None => true
                                | _ => false
                                end) (log w))
    (fun _ => "no") (fun _ => []) (fun _ _ => false) (fun _ => false)
    (fun _ => "error") (fun _ => "traceback") false
    (fun _ => [("developer_mode", "1"); ("db_host", "mariadb")]).


(** a configuration directory that holds a generated worker file although
    the supervisor configuration itself is gone *)
Definition orphaned : World :=
  mkWorld shop_config None (mkSSLCertificate "shop.localhost" SUPPORTED_SSL_TYPES.none) false
    (mkPerGroup true true false) (mkPerGroup true true false)
    (mkPerGroup [] [] [])
    [("frappe", ("frappe-manager-frappe", "v0.13.0"))]
    true true false
    [("/benches/shop.localhost/workspace/frappe-bench/config/frappe-bench-frappe-web.workers.fm.supervisor.conf", true)]
    [] [] true true [].

(** a partially created bench: the primary descriptor only *)
Definition primary_only : World :=
  mkWorld shop_config None (mkSSLCertificate "shop.localhost" SUPPORTED_SSL_TYPES.none) false
    (mkPerGroup true false false) (mkPerGroup true false false)
    (mkPerGroup [("frappe", "running")] [] [])
    [("frappe", ("frappe-manager-frappe", "v0.13.0"))]
    true true false [] [] [] true true [].

(** ** Reading a log *)

Definition is_down (e : Event) : bool :=
  match e with ECall (DownService _ _ _) _ => true | _ => false end.

Definition is_warning (e : Event) : bool :=
  match e with warning _ => true | _ => false end.


Definition is_stop (e : Event) : bool :=
  match e with ECall (StopService _ _) _ => true | _ => false end.

Definition is_descriptor_write (e : Event) : bool :=
  match e with ECall WriteToFile _ => true | _ => false end.


Definition is_restore (e : Event) : bool :=
  match e with ECall (RestoreBackup _ _) _ => true | _ => false end.

Definition is_backup (e : Event) : bool :=
  match e with ECall (Backup _) _ => true | _ => false end.

Definition is_exec (e : Event) : bool :=
  match e with ECall (ComposeExec _ _ _ _ _) _ => true | _ => false end.

Definition is_sleep (e : Event) : bool :=
  match e with ECall (Sleep _) _ => true | _ => false end.

Definition count (p : Event -> bool) (l : list Event) : nat := List.length (filter p l).

(** what the teardown of one group adds to the log *)
Definition teardown_events (present : bool) (g : Group) (head done skipped : string)
  : list Event :=
  if present
  then [change_head head; ECall (DownService g true true) None; print done]
  else [warning skipped].

(** the siblings [backup_workers_supervisor_conf] looks for: regular files
    whose absolute path ends in the suffix of a generated worker file *)
Definition generated_siblings (files : list (string * bool)) : list string :=
  map fst (filter (fun entry => snd entry && endswith (fst entry) ".fm.supervisor.conf") files).

(** the world after the snapshots of [paths] were taken, in order *)
Definition snapshot_world (paths : list string) (w : World) : World :=
  fold_left (fun w p => effect (Backup p) (record (ECall (Backup p) None) w)) paths w.

(** what [n] failed probes leave in the log: the attempt, then the delay *)
Definition failed_attempts (command : string) (interval : Z) (errors : list Exn) : list Event :=
  flat_map (fun e => [ECall (ComposeExec "frappe" command None None false) (Some e);
                      ECall (Sleep interval) None]) errors.

(** neither a stop of a group nor a rewrite of the primary descriptor *)
Definition after_rewrite_event (e : Event) : bool :=
  negb (is_stop e) && negb (is_descriptor_write e).

(** the events the regeneration of the supervisor configuration may add *)
Definition regeneration_event (e : Event) : bool :=
  match e with
  | change_head _ => true
  | print _ => true
  | ECall (Backup _) _ => true
  | ECall (ComposeExec _ _ _ _ _) _ => true
  | ECall (LiveLines _) _ => true
  | _ => false
  end.

(** a command run in the frappe service the way the probe runs it *)
Definition is_plain_exec (a : Action) : bool :=
  match a with
  | ComposeExec _ _ None None false => true
  | _ => false
  end.

(** ** Two ways to speak about a computation *)

(** [m] only adds events that satisfy [p], however it ends *)
Definition emits (p : Event -> bool) {A : Type} (m : M A) : Prop :=
  forall w, exists evs, log (snd (m w)) = (log w ++ evs)%list /\ forallb p evs = true.

(** [m] returns normally from every world that satisfies [pre], and [pre]
    still holds afterwards *)
Definition returns (pre : World -> Prop) {A : Type} (m : M A) : Prop :=
  forall w, pre w ->
    exists a w' evs, m w = (Ok a, w') /\ log w' = (log w ++ evs)%list /\ pre w'.

(** [m] raises [exn] from [w], and the last events it added satisfy [tail] *)
Definition raises_after (exn : Exn) (tail : list Event -> Prop) {A : Type} (m : M A)
    (w : World) : Prop :=
  exists w' before evs,
    m w = (Raise exn, w') /\ log w' = (log w ++ before ++ evs)%list /\ tail evs.

(** * More of the class *)

(** [common_site_config_data] of [sync_bench_common_site_config] *)
Definition common_site_config_data (self : Bench) (services_db_host services_db_port : string)
  : list (string * string) :=
  let container_prefix := container_name_prefix self in
  [("socketio_port", "80");
   ("db_host", services_db_host);
   ("db_port", services_db_port);
   ("redis_cache", "redis://" ++ container_prefix ++ "-redis-cache:6379");
   ("redis_queue", "redis://" ++ container_prefix ++ "-redis-queue:6379");
   ("redis_socketio", "redis://" ++ container_prefix ++ "-redis-cache:6379")].

Section MoreBenchMethods.

Variable self : Bench.
Variable rt : Runtime.

Definition stop : M unit :=
  emit (change_head "Stopping bench services") ;;
  call rt (StopService Primary None) ;;
  emit (print "Stopped bench services.") ;;
  e <- exists_ Workers ;;
  (if e then
     emit (change_head "Starting bench workers services") ;;
     call rt (StopService Workers None) ;;
     emit (print "Started bench workers services")
   else pass) ;;
  e <- exists_ AdminTools ;;
  (if e then
     emit (change_head "Stopped bench admin tools services") ;;
     call rt (StopService AdminTools None) ;;
     emit (print "Stopped bench admin tools services.")
   else pass).

End MoreBenchMethods.

(** ** Reading more of a log *)

(** what [stop] adds to the log for a group other than the primary one *)
Definition stop_events (present : bool) (g : Group) (head done : string) : list Event :=
  if present
  then [change_head head; ECall (StopService g None) None; print done]
  else [].

(** what [remove_database_and_user] adds to the log after its heading *)
Definition database_events (db_name db_user : string) (db user : bool) : list Event :=
  (if db
   then [ECall (RemoveDb db_name) None;
         print ("Removed bench db [blue]" ++ db_name ++ "[/blue].")]
   else [warning ("Bench db [blue]" ++ db_name ++ "[/blue] not found. Skipping...")])
  ++ (if user
      then [ECall (RemoveUser db_user true) None;
            print ("Removed bench db users [blue]" ++ db_user ++ "[/blue].")]
      else [warning ("Bench db user [blue]" ++ db_user ++ "[/blue] not found. Skipping...")]).

Definition is_removal (e : Event) : bool :=
  match e with
  | ECall (RemoveDb _) _ => true
  | ECall (RemoveUser _ _) _ => true
  | _ => false
  end.

(** a start of the worker group or of the admin-tools group *)
Definition is_side_start (e : Event) : bool :=
  match e with
  | ECall (StartService Workers _) _ => true
  | ECall (StartService AdminTools _) _ => true
  | _ => false
  end.

(** an event other than a call that raised *)
Definition returned (e : Event) : bool :=
  match e with
  | ECall _ (Some _) => false
  | _ => true
  end.

(** an event [create] may add before its status check is over: nothing
    that concerns the certificate, the admin tools, the saved configuration
    or the information table *)
Definition before_check_event (e : Event) : bool :=
  match e with
  | ECall (SetCertificate _) _ => false
  | ECall GenerateCertificate _ => false
  | ECall RemoveCertificate _ => false
  | ECall RenewCertificate _ => false
  | ECall (AdminToolsGenerateCompose _) _ => false
  | ECall (AdminToolsEnable _) _ => false
  | ECall AdminToolsDisable _ => false
  | ECall ExportToToml _ => false
  | ECall InfoTable _ => false
  | ECall (PromptAsk _ _ _) _ => false
  | _ => true
  end.

(** the log of a computation that writes the primary descriptor last: some
    events without a write, then nothing, or the one write after calls that
    all returned *)
Definition writes_last {A : Type} (m : M A) : Prop :=
  forall w, exists before tail,
    log (snd (m w)) = (log w ++ before ++ tail)%list
    /\ count is_descriptor_write before = 0
    /\ (tail = []
        \/ exists o, tail = [ECall WriteToFile o] /\ forallb returned before = true).

(** [m] adds events that satisfy [p], and when it returns all of its calls
    returned *)
Definition orderly (p : Event -> bool) {A : Type} (m : M A) : Prop :=
  forall w, exists evs,
    log (snd (m w)) = (log w ++ evs)%list
    /\ forallb p evs = true
    /\ (forall a, fst (m w) = Ok a -> forallb returned evs = true).

(** an event other than generating or enabling the admin tools and other
    than a command run without user, working directory and streaming, which
    is how the frappe server is restarted *)
Definition leaves_admin_tools (e : Event) : bool :=
  match e with
  | ECall (AdminToolsGenerateCompose _) _ => false
  | ECall (AdminToolsEnable _) _ => false
  | ECall a _ => negb (is_plain_exec a)
  | _ => true
  end.

(** [m] leaves what [f] reads as it is, however it ends *)
Definition keeps {B : Type} (f : World -> B) {A : Type} (m : M A) : Prop :=
  forall w, f (snd (m w)) = f w.

(** started where [f] reads [v], [m] only adds events that satisfy [p] *)
Definition emits_from {B : Type} (f : World -> B) (v : B) (p : Event -> bool)
    {A : Type} (m : M A) : Prop :=
  forall w, f w = v ->
    exists evs, log (snd (m w)) = (log w ++ evs)%list /\ forallb p evs = true.


(** how far [create] has come in [w] since it began in [w0]: the site
    configuration, the connection details and the bench configuration are
    those of [w0]; the flags say whether the bench directory is there, the
    primary descriptor is written, the primary group is up and the
    configuration is saved *)
Definition progress (dir file up saved : bool) (w0 w : World) : Prop :=
  common_site_config_exists w = true
  /\ bench_db_info w = bench_db_info w0
  /\ bench_config w = bench_config w0
  /\ (if dir then path_exists w = true else True)
  /\ (if file then pg_get Primary (compose_file_exists w) = true else True)
  /\ (if up then pg_get Primary (compose_running w) = true else True)
  /\ (if saved then saved_config w = Some (bench_config w0) else True).

(** ** More sample runtimes and worlds *)

(** a runtime in which the calls [raising] picks raise, the probe reads no
    output, the workers are unchanged and the prompt is answered [answer] *)
Definition failing (raising : Action -> option Exn) (answer : string) : Runtime :=
  mkRuntime (fun a _ => raising a) (fun _ _ => []) (fun _ => true)
    (fun _ => answer) (fun _ => []) (fun _ _ => false) (fun _ => false)
    (fun _ => "error") (fun _ => "traceback") false
    (fun _ => [("developer_mode", "1"); ("db_host", "mariadb")]).

(** no call raises, the frappe service answers nothing *)
Definition silent : Runtime := failing (fun _ => None) "no".

(** no call raises, the removal is confirmed *)
Definition agreeing : Runtime := failing (fun _ => None) "yes".

(** the removal is confirmed, the certificate backend fails *)
Definition without_backend : Runtime :=
  failing (fun a => match a with
                    | RemoveCertificate => Some (Exception "no certificate backend")
                    | _ => None
                    end) "yes".

(** no directory can be made *)
Definition read_only : Runtime :=
  failing (fun a => match a with
                    | Mkdir _ => Some (OSError "Read-only file system")
                    | _ => None
                    end) "no".

(** every recursive delete raises an error other than [PermissionError] *)
Definition busy : Runtime :=
  failing (fun a => match a with
                    | Rmtree _ => Some (OSError "Device or resource busy")
                    | _ => None
                    end) "no".

(** a command run as a user is interrupted from the keyboard *)
Definition interrupted : Runtime :=
  failing (fun a => match a with
                    | ComposeExec _ _ (Some _) _ _ => Some KeyboardInterrupt
                    | _ => None
                    end) "no".

(** no group can be stopped *)
Definition stuck : Runtime :=
  failing (fun a => match a with
                    | StopService _ _ => Some DockerException
                    | _ => None
                    end) "no".

(** a generated worker file cannot be restored from its backup *)
Definition unrestorable : Runtime :=
  failing (fun a => match a with
                    | RestoreBackup p _ =>
                        if endswith p ".fm.supervisor.conf"
                        then Some (OSError "No space left on device")
                        else None
                    | _ => None
                    end) "no".

(** the shop bench without its common_site_config.json *)
Definition unconfigured : World :=
  mkWorld shop_config None (mkSSLCertificate "shop.localhost" SUPPORTED_SSL_TYPES.none) false
    (mkPerGroup true true true) (mkPerGroup true false false)
    (mkPerGroup [("frappe", "running"); ("nginx", "running")] [] [])
    [("frappe", ("frappe-manager-frappe", "v0.13.0")); ("nginx", ("frappe-manager-nginx", "v0.13.0"))]
    true false true [] []
    [("name", "shop_db"); ("user", "shop_db"); ("password", "secret")]
    true true [].

(** before [create]: nothing of the bench exists *)
Definition blank : World :=
  mkWorld shop_config None (mkSSLCertificate "shop.localhost" SUPPORTED_SSL_TYPES.none) false
    (mkPerGroup false false false) (mkPerGroup false false false)
    (mkPerGroup [] [] [])
    [] false false false [] [] [] false false [].

(** the shop bench with the admin tools switched on in the configuration *)
Definition admin_tools_wanted : World :=
  set_bench_config
    (mkBenchConfig dev "admin" (mkSSLCertificate "shop.localhost" SUPPORTED_SSL_TYPES.none) true)
    shop_world.



(** * Properties *)

Section BenchProperties.

Local Open Scope list_scope.

Variable self : Bench.
Variable rt : Runtime.

(** ** The log only grows *)

Lemma skipn_length_app {A : Type} (l r : list A) : skipn (List.length l) (l ++ r) = r.
Proof. induction l as [| x l IH]; simpl; [reflexivity | exact IH]. Qed.

Lemma log_record (e : Event) (w : World) : log (record e w) = log w ++ [e].
Proof. reflexivity. Qed.

Lemma log_effect (a : Action) (w : World) : log (effect a w) = log w.
Proof.
  destruct a; simpl; try reflexivity.
  destruct (ssl_type (manager_certificate w)); reflexivity.
Qed.

Lemma log_call (a : Action) (w : World) :
  log (snd (call rt a w)) = log w ++ [ECall a (fault rt a w)].
Proof.
  unfold call. destruct (fault rt a w) as [e |]; simpl.
  - reflexivity.
  - rewrite log_effect. reflexivity.
Qed.

Lemma events_of_call (a : Action) (w : World) :
  events_of (call rt a) w = [ECall a (fault rt a w)].
Proof. unfold events_of. rewrite log_call. apply skipn_length_app. Qed.

Lemma events_of_unchanged {A : Type} (m : M A) (w : World) (r : Result A) :
  m w = (r, w) -> events_of m w = [].
Proof.
  intros H. unfold events_of. rewrite H. simpl.
  rewrite <- (app_nil_r (log w)) at 2. apply skipn_length_app.
Qed.

(** ** Stepping through a computation *)

Lemma bind_Ok {A B : Type} (m : M A) (k : A -> M B) (w w1 : World) (a : A) :
  m w = (Ok a, w1) -> bind m k w = k a w1.
Proof. intros H. unfold bind. rewrite H. reflexivity. Qed.

Lemma bind_Raise {A B : Type} (m : M A) (k : A -> M B) (w w1 : World) (e : Exn) :
  m w = (Raise e, w1) -> bind m k w = (Raise e, w1).
Proof. intros H. unfold bind. rewrite H. reflexivity. Qed.

Lemma call_ok (a : Action) (w : World) :
  fault rt a w = None ->
  call rt a w = (Ok tt, effect a (record (ECall a None) w)).
Proof. intros H. unfold call. rewrite H. reflexivity. Qed.

Lemma call_raise (a : Action) (w : World) (e : Exn) :
  fault rt a w = Some e ->
  call rt a w = (Raise e, record (ECall a (Some e)) w).
Proof. intros H. unfold call. rewrite H. reflexivity. Qed.

Lemma events_of_intro {A : Type} (m : M A) (w w' : World) (r : Result A) (evs : list Event) :
  m w = (r, w') -> log w' = log w ++ evs -> events_of m w = evs.
Proof.
  intros H L. unfold events_of. rewrite H. simpl. rewrite L. apply skipn_length_app.
Qed.

Lemma bind_bind {A B C : Type} (m : M A) (k : A -> M B) (k' : B -> M C) (w : World) :
  bind (bind m k) k' w = bind m (fun a => bind (k a) k') w.
Proof. unfold bind. destruct (m w) as [[a | e] w1]; reflexivity. Qed.

Lemma bind_ret {A B : Type} (a : A) (k : A -> M B) (w : World) : bind (ret a) k w = k a w.
Proof. reflexivity. Qed.

Lemma bind_pass {B : Type} (k : unit -> M B) (w : World) : bind pass k w = k tt w.
Proof. reflexivity. Qed.

Lemma bind_raise {A B : Type} (e : Exn) (k : A -> M B) (w : World) :
  bind (raise e) k w = (Raise e, w).
Proof. reflexivity. Qed.

Lemma bind_gets {A B : Type} (f : World -> A) (k : A -> M B) (w : World) :
  bind (gets f) k w = k (f w) w.
Proof. reflexivity. Qed.

Lemma bind_modify {B : Type} (f : World -> World) (k : unit -> M B) (w : World) :
  bind (modify f) k w = k tt (f w).
Proof. reflexivity. Qed.

Lemma bind_emit {B : Type} (e : Event) (k : unit -> M B) (w : World) :
  bind (emit e) k w = k tt (record e w).
Proof. reflexivity. Qed.

Lemma bind_call_ok {B : Type} (a : Action) (k : unit -> M B) (w : World) :
  fault rt a w = None ->
  bind (call rt a) k w = k tt (effect a (record (ECall a None) w)).
Proof. intros H. unfold bind. rewrite call_ok by exact H. reflexivity. Qed.

Lemma bind_call_raise {B : Type} (a : Action) (k : unit -> M B) (w : World) (e : Exn) :
  fault rt a w = Some e ->
  bind (call rt a) k w = (Raise e, record (ECall a (Some e)) w).
Proof. intros H. unfold bind. rewrite call_raise with (e := e) by exact H. reflexivity. Qed.

Lemma emit_apply (e : Event) (w : World) : emit e w = (Ok tt, record e w).
Proof. reflexivity. Qed.

Lemma gets_apply {A : Type} (f : World -> A) (w : World) : gets f w = (Ok (f w), w).
Proof. reflexivity. Qed.

Lemma ret_apply {A : Type} (a : A) (w : World) : ret a w = (Ok a, w).
Proof. reflexivity. Qed.

Lemma pass_apply (w : World) : pass w = (Ok tt, w).
Proof. reflexivity. Qed.

Lemma raise_apply {A : Type} (e : Exn) (w : World) : @raise A e w = (Raise e, w).
Proof. reflexivity. Qed.

(** one pass of straight-line code: binds are re-associated and every
    primitive in head position is run *)
Ltac mstep :=
  first
    [ rewrite bind_bind
    | rewrite bind_ret
    | rewrite bind_pass
    | rewrite bind_raise
    | rewrite bind_gets
    | rewrite bind_modify
    | rewrite bind_emit
    | rewrite emit_apply
    | rewrite gets_apply
    | rewrite ret_apply
    | rewrite pass_apply
    | rewrite raise_apply
    | progress cbv beta iota zeta ].

(** the same when the calls met return normally, which [tac] shows *)
Ltac mrun_by tac :=
  repeat first
    [ mstep
    | rewrite bind_call_ok by tac
    | rewrite call_ok by tac ].

Ltac mrun NF := mrun_by ltac:(apply NF).

(** what a field holds in a world reached by running *)
Ltac fields :=
  repeat first
    [ progress simpl (compose_file_exists _)
    | progress simpl (compose_running _)
    | progress simpl (bench_config _)
    | progress simpl (certificate_issued _)
    | progress simpl (manager_certificate _)
    | progress simpl (services_running_status _)
    | progress simpl (all_images _)
    | progress simpl (path_exists _)
    | progress simpl (common_site_config_exists _)
    | progress simpl (supervisor_config_exists _)
    | progress simpl (config_dir _)
    | progress simpl (backups _)
    | progress simpl (bench_db_info _)
    | progress simpl (db_exists _)
    | progress simpl (db_user_exists _)
    | progress simpl (pg_get _ _) ].

Lemma try_except_Ok {A : Type} (body : M A) (catches : Exn -> bool) (handler : Exn -> M A)
    (w w1 : World) (a : A) :
  body w = (Ok a, w1) -> try_except body catches handler w = (Ok a, w1).
Proof. intros H. unfold try_except. rewrite H. reflexivity. Qed.

Lemma try_except_caught {A : Type} (body : M A) (catches : Exn -> bool)
    (handler : Exn -> M A) (w w1 : World) (e : Exn) :
  body w = (Raise e, w1) -> catches e = true ->
  try_except body catches handler w = handler e w1.
Proof. intros H C. unfold try_except. rewrite H, C. reflexivity. Qed.

Lemma try_except_passed {A : Type} (body : M A) (catches : Exn -> bool)
    (handler : Exn -> M A) (w w1 : World) (e : Exn) :
  body w = (Raise e, w1) -> catches e = false ->
  try_except body catches handler w = (Raise e, w1).
Proof. intros H C. unfold try_except. rewrite H, C. reflexivity. Qed.

(** the log of a world reached by running, as the old log and what was
    added *)
Ltac logs :=
  repeat first [ rewrite log_effect | rewrite log_record | progress simpl (log _) ];
  repeat rewrite <- app_assoc; simpl app.

(** ** Events a computation can add *)

Lemma emits_ret (p : Event -> bool) {A : Type} (a : A) : emits p (ret a).
Proof. intros w. exists []. simpl. rewrite app_nil_r. split; reflexivity. Qed.

Lemma emits_pass (p : Event -> bool) : emits p pass.
Proof. apply emits_ret. Qed.

Lemma emits_raise (p : Event -> bool) {A : Type} (e : Exn) : emits p (@raise A e).
Proof. intros w. exists []. simpl. rewrite app_nil_r. split; reflexivity. Qed.

Lemma emits_gets (p : Event -> bool) {A : Type} (f : World -> A) : emits p (gets f).
Proof. intros w. exists []. simpl. rewrite app_nil_r. split; reflexivity. Qed.

Lemma emits_modify (p : Event -> bool) (f : World -> World) :
  (forall w, log (f w) = log w) -> emits p (modify f).
Proof. intros H w. exists []. simpl. rewrite H, app_nil_r. split; reflexivity. Qed.

Lemma emits_emit (p : Event -> bool) (e : Event) : p e = true -> emits p (emit e).
Proof. intros H w. exists [e]. simpl. rewrite H. split; reflexivity. Qed.

Lemma emits_call (p : Event -> bool) (a : Action) :
  (forall o, p (ECall a o) = true) -> emits p (call rt a).
Proof.
  intros H w. exists [ECall a (fault rt a w)]. rewrite log_call. simpl. rewrite H.
  split; reflexivity.
Qed.

Lemma emits_call_with (p : Event -> bool) {A : Type} (a : Action) (answer : World -> A) :
  (forall o, p (ECall a o) = true) -> emits p (call_with rt a answer).
Proof.
  intros H w. destruct (emits_call p a H w) as (evs & L & F). exists evs.
  split; [| exact F]. rewrite <- L. unfold call_with.
  destruct (call rt a w) as [[u | e] w1]; reflexivity.
Qed.

Lemma emits_bind (p : Event -> bool) {A B : Type} (m : M A) (k : A -> M B) :
  emits p m -> (forall a, emits p (k a)) -> emits p (bind m k).
Proof.
  intros Hm Hk w. destruct (Hm w) as (e1 & L1 & F1). unfold bind.
  destruct (m w) as [[a | e] w1]; simpl in L1.
  - destruct (Hk a w1) as (e2 & L2 & F2). exists (e1 ++ e2).
    rewrite L2, L1, app_assoc, forallb_app, F1, F2. split; reflexivity.
  - exists e1. split; [exact L1 | exact F1].
Qed.

Lemma emits_try_except (p : Event -> bool) {A : Type} (body : M A) (catches : Exn -> bool)
    (handler : Exn -> M A) :
  emits p body -> (forall e, emits p (handler e)) -> emits p (try_except body catches handler).
Proof.
  intros Hb Hh w. destruct (Hb w) as (e1 & L1 & F1). unfold try_except.
  destruct (body w) as [[a | e] w1]; simpl in L1.
  - exists e1. split; [exact L1 | exact F1].
  - destruct (catches e).
    + destruct (Hh e w1) as (e2 & L2 & F2). exists (e1 ++ e2).
      rewrite L2, L1, app_assoc, forallb_app, F1, F2. split; reflexivity.
    + exists e1. split; [exact L1 | exact F1].
Qed.

Lemma emits_for_each (p : Event -> bool) {A : Type} (xs : list A) (body : A -> M unit) :
  (forall x, emits p (body x)) -> emits p (for_each xs body).
Proof.
  intros H. induction xs as [| x xs IH]; simpl.
  - apply emits_pass.
  - apply emits_bind; [apply H | intros _; exact IH].
Qed.

Lemma emits_log (p : Event -> bool) {A : Type} (m : M A) (w : World) :
  emits p m ->
  log (snd (m w)) = log w ++ events_of m w /\ forallb p (events_of m w) = true.
Proof.
  intros H. destruct (H w) as (evs & L & F). unfold events_of.
  rewrite L, skipn_length_app. split; [reflexivity | exact F].
Qed.

Lemma forallb_count_zero (p q : Event -> bool) (l : list Event) :
  (forall e, p e = true -> q e = false) -> forallb p l = true -> count q l = 0.
Proof.
  intros H. unfold count. induction l as [| e l IH]; simpl; [reflexivity |].
  intros F. apply andb_prop in F. destruct F as [Pe Pl].
  rewrite (H e Pe). apply IH. exact Pl.
Qed.

Lemma frappe_logs_loop_emits (p : Event -> bool) (output : list (string * string)) :
  (forall line, p (builtin_print line) = true) ->
  (forall line, p (stdout_print line) = true) ->
  emits p (frappe_logs_loop output).
Proof.
  intros B S. induction output as [| [source line] output IH].
  - apply emits_pass.
  - cbn [frappe_logs_loop].
    repeat match goal with
           | |- emits _ (if ?b then _ else _) => destruct b
           | |- emits _ (bind (emit _) _) =>
               apply emits_bind; [apply emits_emit; first [apply B | apply S] | intros _]
           end; try exact IH; apply emits_pass.
Qed.

(** take a computation apart down to its primitives *)
Ltac emits_parts :=
  repeat first
    [ apply emits_bind; [| intros ? ]
    | apply emits_ret
    | apply emits_pass
    | apply emits_raise
    | apply emits_gets
    | apply emits_emit; reflexivity
    | apply emits_call; intros ?; reflexivity
    | apply emits_call_with; intros ?; reflexivity
    | apply emits_modify; intros ?; reflexivity
    | apply emits_try_except; [| intros ? ]
    | apply emits_for_each; intros ?
    | apply frappe_logs_loop_emits; intros ?; reflexivity
    | match goal with
      | |- emits _ (if ?b then _ else _) => destruct b
      | |- emits _ (match ?x with _ => _ end) => destruct x
      | |- emits _ (let '(_, _) := ?x in _) => destruct x
      end ].

Lemma backup_workers_supervisor_conf_emits :
  emits regeneration_event (backup_workers_supervisor_conf self rt).
Proof. unfold backup_workers_supervisor_conf. emits_parts. Qed.

Lemma regenerate_workers_supervisor_conf_emits :
  emits regeneration_event (regenerate_workers_supervisor_conf self rt).
Proof.
  unfold regenerate_workers_supervisor_conf.
  apply emits_bind; [emits_parts | intros _].
  apply emits_bind; [apply backup_workers_supervisor_conf_emits | intros _].
  emits_parts.
Qed.

(** ** Computations that return *)

Lemma returns_ret (pre : World -> Prop) {A : Type} (a : A) : returns pre (ret a).
Proof.
  intros w H. exists a, w, []. rewrite app_nil_r. repeat split. exact H.
Qed.

Lemma returns_pass (pre : World -> Prop) : returns pre pass.
Proof. apply returns_ret. Qed.

Lemma returns_gets (pre : World -> Prop) {A : Type} (f : World -> A) : returns pre (gets f).
Proof.
  intros w H. exists (f w), w, []. rewrite app_nil_r. repeat split. exact H.
Qed.

Lemma returns_modify (pre : World -> Prop) (f : World -> World) :
  (forall w, log (f w) = log w) -> (forall w, pre w -> pre (f w)) -> returns pre (modify f).
Proof.
  intros L P w H. exists tt, (f w), []. rewrite L, app_nil_r. repeat split. apply P, H.
Qed.

Lemma returns_emit (pre : World -> Prop) (e : Event) :
  (forall w, pre w -> pre (record e w)) -> returns pre (emit e).
Proof.
  intros P w H. exists tt, (record e w), [e]. repeat split. apply P, H.
Qed.

Lemma returns_call (pre : World -> Prop) (a : Action) :
  (forall w, fault rt a w = None) ->
  (forall w, pre w -> pre (effect a (record (ECall a None) w))) ->
  returns pre (call rt a).
Proof.
  intros F P w H. exists tt, (effect a (record (ECall a None) w)), [ECall a None].
  split; [apply call_ok, F |]. split; [rewrite log_effect; reflexivity | apply P, H].
Qed.

Lemma returns_call_with (pre : World -> Prop) {A : Type} (a : Action) (answer : World -> A) :
  (forall w, fault rt a w = None) ->
  (forall w, pre w -> pre (effect a (record (ECall a None) w))) ->
  returns pre (call_with rt a answer).
Proof.
  intros F P w H. exists (answer w), (effect a (record (ECall a None) w)), [ECall a None].
  split; [unfold call_with; rewrite call_ok by apply F; reflexivity |].
  split; [rewrite log_effect; reflexivity | apply P, H].
Qed.

Lemma returns_bind (pre : World -> Prop) {A B : Type} (m : M A) (k : A -> M B) :
  returns pre m -> (forall a, returns pre (k a)) -> returns pre (bind m k).
Proof.
  intros Hm Hk w H. destruct (Hm w H) as (a & w1 & e1 & E1 & L1 & P1).
  destruct (Hk a w1 P1) as (b & w2 & e2 & E2 & L2 & P2).
  exists b, w2, (e1 ++ e2). split; [erewrite bind_Ok by exact E1; exact E2 |].
  split; [rewrite L2, L1, app_assoc; reflexivity | exact P2].
Qed.

Lemma returns_try_except (pre : World -> Prop) {A : Type} (body : M A)
    (catches : Exn -> bool) (handler : Exn -> M A) :
  returns pre body -> returns pre (try_except body catches handler).
Proof.
  intros Hb w H. destruct (Hb w H) as (a & w1 & e1 & E1 & L1 & P1).
  exists a, w1, e1. split; [apply try_except_Ok; exact E1 |]. split; assumption.
Qed.

Lemma returns_for_each (pre : World -> Prop) {A : Type} (xs : list A) (body : A -> M unit) :
  (forall x, returns pre (body x)) -> returns pre (for_each xs body).
Proof.
  intros H. induction xs as [| x xs IH]; simpl.
  - apply returns_pass.
  - apply returns_bind; [apply H | intros _; exact IH].
Qed.

Lemma raises_after_bind (exn : Exn) (tail : list Event -> Prop) {A B : Type}
    (m : M A) (k : A -> M B) (w : World) :
  returns (fun _ => True) m ->
  (forall a w1, raises_after exn tail (k a) w1) ->
  raises_after exn tail (bind m k) w.
Proof.
  intros Hm Hk. destruct (Hm w I) as (a & w1 & e1 & E1 & L1 & _).
  destruct (Hk a w1) as (w2 & before & evs & E2 & L2 & T).
  exists w2, (e1 ++ before), evs.
  split; [erewrite bind_Ok by exact E1; exact E2 |].
  split; [rewrite L2, L1, <- !app_assoc; reflexivity | exact T].
Qed.

(** ** Reconciliation *)

(** C1. Over all eight combinations of worker descriptor present or absent,
    worker group running or not and primary group running or not,
    [ensure_workers_running_if_available] issues the start of the worker
    group exactly when the descriptor exists, the primary group is running
    and the worker group is not; in every other combination it returns
    normally and leaves the world, log included, as it was. *)
Theorem ensure_workers_running_if_available_decision (w : World) :
  let descriptor := pg_get Workers (compose_file_exists w) in
  let primary_up := pg_get Primary (compose_running w) in
  let workers_up := pg_get Workers (compose_running w) in
  ensure_workers_running_if_available rt w =
    (if descriptor && primary_up && negb workers_up
     then call rt (StartService Workers None) w
     else (Ok tt, w))
  /\ events_of (ensure_workers_running_if_available rt) w =
    (if descriptor && primary_up && negb workers_up
     then [ECall (StartService Workers None) (fault rt (StartService Workers None) w)]
     else [])
  /\ ((exists outcome g force,
         In (ECall (StartService g force) outcome)
            (events_of (ensure_workers_running_if_available rt) w))
      <-> descriptor && primary_up && negb workers_up = true).
Proof.
  cbv zeta.
  assert (E : ensure_workers_running_if_available rt w =
              (if pg_get Workers (compose_file_exists w)
                  && pg_get Primary (compose_running w)
                  && negb (pg_get Workers (compose_running w))
               then call rt (StartService Workers None) w
               else (Ok tt, w))).
  { unfold ensure_workers_running_if_available, bind, exists_, running, gets, pass, ret.
    destruct (pg_get Workers (compose_file_exists w)) eqn:D,
             (pg_get Workers (compose_running w)) eqn:R,
             (pg_get Primary (compose_running w)) eqn:P;
      repeat (progress (cbv beta iota delta [negb]; rewrite ?D, ?R, ?P)); reflexivity. }
  assert (V : events_of (ensure_workers_running_if_available rt) w =
              (if pg_get Workers (compose_file_exists w)
                  && pg_get Primary (compose_running w)
                  && negb (pg_get Workers (compose_running w))
               then [ECall (StartService Workers None) (fault rt (StartService Workers None) w)]
               else [])).
  { destruct (pg_get Workers (compose_file_exists w)
              && pg_get Primary (compose_running w)
              && negb (pg_get Workers (compose_running w))) eqn:C.
    - unfold events_of. rewrite E. apply events_of_call.
    - apply events_of_unchanged with (r := Ok tt). exact E. }
  split; [exact E | split; [exact V |]].
  rewrite V.
  destruct (pg_get Workers (compose_file_exists w)
            && pg_get Primary (compose_running w)
            && negb (pg_get Workers (compose_running w))).
  - split; [reflexivity |]. intros _.
    exists (fault rt (StartService Workers None) w), Workers, None. left. reflexivity.
  - split; [| discriminate]. intros (o & g & f & []).
Qed.

Lemma fold_left_flag (l : list string) (acc : bool) :
  fold_left (fun acc service => if String.eqb service "running" then true else acc) l acc
  = acc || existsb (fun service => String.eqb service "running") l.
Proof.
  revert acc. induction l as [| x l IH]; intros acc; simpl.
  - rewrite orb_false_r. reflexivity.
  - rewrite IH. destruct (String.eqb x "running"), acc; reflexivity.
Qed.

(** What one pass of [ensure_admin_tools_running_if_available] does, case by
    case: the enable side is decided by descriptor, flag, running state of
    the admin-tools group and of the primary group; the disable side is
    decided by what iterating the status mapping yields, its service
    names. *)
Lemma ensure_admin_tools_running_if_available_decision (w : World) :
  ensure_admin_tools_running_if_available rt w =
    if pg_get AdminTools (compose_file_exists w) then
      if admin_tools (bench_config w) then
        if negb (pg_get AdminTools (compose_running w)) && pg_get Primary (compose_running w)
        then call rt (AdminToolsEnable None) w
        else (Ok tt, w)
      else
        if existsb (fun service => String.eqb service "running")
                   (map fst (pg_get AdminTools (services_running_status w)))
        then call rt AdminToolsDisable w
        else (Ok tt, w)
    else (Ok tt, w).
Proof.
  unfold ensure_admin_tools_running_if_available, bind, exists_, running,
    get_services_running_status, gets, pass, ret, dict_iter.
  destruct (pg_get AdminTools (compose_file_exists w)) eqn:D; [| reflexivity].
  destruct (admin_tools (bench_config w)) eqn:F.
  - destruct (pg_get AdminTools (compose_running w)) eqn:R,
             (pg_get Primary (compose_running w)) eqn:P;
      repeat (progress (cbv beta iota delta [negb andb]; rewrite ?R, ?P)); reflexivity.
  - rewrite fold_left_flag. cbv beta iota delta [orb].
    destruct (existsb _ _); reflexivity.
Qed.

(** X27. On every world and whatever the runtime does: with the
    admin-tools descriptor present, the flag set, the admin-tools group
    down and the primary group up, the reconciliation pass is exactly one
    enable call. *)
Lemma ensure_admin_tools_enables (w : World) :
  pg_get AdminTools (compose_file_exists w) = true ->
  admin_tools (bench_config w) = true ->
  pg_get AdminTools (compose_running w) = false ->
  pg_get Primary (compose_running w) = true ->
  events_of (ensure_admin_tools_running_if_available rt) w
  = [ECall (AdminToolsEnable None) (fault rt (AdminToolsEnable None) w)].
Proof.
  intros D F R P. unfold events_of.
  rewrite ensure_admin_tools_running_if_available_decision, D, F, R, P.
  apply events_of_call.
Qed.

(** C2, disable side, at the drifted bench: the admin-tools descriptor
    exists, [admin_tools] is false, both admin-tool services report the
    status "running", and the pass returns without a single call, no disable
    among them.  The loop looks at the service names and finds none that is
    called "running". *)
Theorem ensure_admin_tools_leaves_running_services :
  pg_get AdminTools (compose_file_exists admin_tools_drifted) = true
  /\ admin_tools (bench_config admin_tools_drifted) = false
  /\ existsb (fun entry => String.eqb (snd entry) "running")
       (pg_get AdminTools (services_running_status admin_tools_drifted)) = true
  /\ ensure_admin_tools_running_if_available rt admin_tools_drifted
     = (Ok tt, admin_tools_drifted)
  /\ events_of (ensure_admin_tools_running_if_available rt) admin_tools_drifted = [].
Proof. repeat split; reflexivity. Qed.

(** ** Certificates *)

(** C4. The four rows of the certificate table, for a backend whose calls
    return normally.  Asking for an issued certificate while one exists
    raises "already issued" and asking for none while none exists raises
    "not issued", both without a call.  Asking for none while one exists
    revokes it, resets the stored descriptor to none for this bench and
    persists the configuration, after which [has_certificate] answers
    false.  Asking for an issued certificate while none exists sets the
    certificate, issues it and persists the configuration, after which a
    further issued request raises "already issued". *)
Theorem update_certificate_table (certificate : SSLCertificate) (w : World) :
  (forall a w', fault rt a w' = None) ->
  match ssl_type certificate, certificate_issued w with
  | SUPPORTED_SSL_TYPES.le, true =>
      update_certificate self rt certificate w
      = (Raise (BenchSSLCertificateAlreadyIssued (name self)), w)
  | SUPPORTED_SSL_TYPES.none, false =>
      update_certificate self rt certificate w
      = (Raise (BenchSSLCertificateNotIssued (name self)), w)
  | SUPPORTED_SSL_TYPES.none, true =>
      exists w',
        update_certificate self rt certificate w = (Ok tt, w')
        /\ events_of (update_certificate self rt certificate) w
           = [ECall RemoveCertificate None;
              change_head "Saving bench config changes";
              ECall ExportToToml None;
              print "Saved bench config."]
        /\ ssl (bench_config w') = mkSSLCertificate (name self) SUPPORTED_SSL_TYPES.none
        /\ saved_config w' = Some (bench_config w')
        /\ has_certificate w' = (Ok false, w')
  | SUPPORTED_SSL_TYPES.le, false =>
      exists w',
        update_certificate self rt certificate w = (Ok tt, w')
        /\ events_of (update_certificate self rt certificate) w
           = [ECall (SetCertificate certificate) None;
              ECall GenerateCertificate None;
              change_head "Saving bench config changes";
              ECall ExportToToml None;
              print "Saved bench config."]
        /\ ssl (bench_config w') = certificate
        /\ saved_config w' = Some (bench_config w')
        /\ has_certificate w' = (Ok true, w')
        /\ forall again, ssl_type again = SUPPORTED_SSL_TYPES.le ->
             update_certificate self rt again w'
             = (Raise (BenchSSLCertificateAlreadyIssued (name self)), w')
  end.
Proof.
  intros NF.
  destruct (ssl_type certificate) eqn:T, (certificate_issued w) eqn:H.
  - unfold update_certificate, has_certificate, bind, gets. rewrite T, H. reflexivity.
  - evar (W : World).
    assert (E : update_certificate self rt certificate w = (Ok tt, W)).
    { unfold update_certificate, has_certificate, create_certificate, save_bench_config.
      rewrite T. mrun NF. rewrite H. mrun NF. subst W. reflexivity. }
    exists W. split; [exact E |]. split.
    { eapply events_of_intro; [exact E |]. subst W. logs. reflexivity. }
    subst W. simpl. rewrite T. simpl.
    repeat split.
    intros again A. unfold update_certificate, has_certificate. rewrite A. reflexivity.
  - evar (W : World).
    assert (E : update_certificate self rt certificate w = (Ok tt, W)).
    { unfold update_certificate, has_certificate, remove_certificate, save_bench_config.
      rewrite T. mrun NF. rewrite H. mrun NF. subst W. reflexivity. }
    exists W. split; [exact E |]. split.
    { eapply events_of_intro; [exact E |]. subst W. logs. reflexivity. }
    subst W. simpl. repeat split.
  - unfold update_certificate, has_certificate, bind, gets. rewrite T, H. reflexivity.
Qed.

(** ** Removal *)

(** C10. When the removal prompt returns the answer "no", [remove_bench]
    returns [False]; the only thing that happened is the prompt; certificate,
    database and database user, the running state and the descriptors of
    all three groups and the bench directory are as before. *)
Theorem remove_bench_declined (default_choice : bool) (w : World) :
  let prompt := (thinking_face ++ " Do you want to remove [bold][green]'" ++ name self
                 ++ "'[/bold][/green]")%string in
  let ask := PromptAsk prompt ["yes"; "no"] (if default_choice then Some "no" else None) in
  fault rt ask w = None ->
  prompt_answer rt w = "no" ->
  remove_bench self rt default_choice w = (Ok false, record (ECall ask None) w)
  /\ events_of (remove_bench self rt default_choice) w = [ECall ask None]
  /\ state_of (snd (remove_bench self rt default_choice w)) = state_of w.
Proof.
  intros prompt ask F A.
  assert (E : remove_bench self rt default_choice w = (Ok false, record (ECall ask None) w)).
  { unfold remove_bench, call_with. fold prompt. fold ask.
    unfold bind at 1. rewrite call_ok by exact F. rewrite A. reflexivity. }
  split; [exact E |]. split.
  - eapply events_of_intro; [exact E |]. reflexivity.
  - rewrite E. reflexivity.
Qed.

(** ** Teardown *)

(** C7. When the tear-down calls and the recursive delete return normally:
    each of the three groups is torn down, orphans and volumes removed,
    exactly when its descriptor exists, and is skipped with one warning
    otherwise; the container phase and the whole removal return normally.
    The number of tear-down calls is the number of descriptors present and
    the number of warnings the number absent, so a bench with the primary
    descriptor only gets one tear-down call and two warnings. *)
Theorem remove_containers_by_descriptor (w : World) :
  (forall g w', fault rt (DownService g true true) w' = None) ->
  (forall w', fault rt (Rmtree (path self)) w' = None) ->
  let present g := pg_get g (compose_file_exists w) in
  let expected :=
    teardown_events (present Primary) Primary
      "Removing bench containers." "Removed bench containers."
      "Bench compose file not found. Skipping containers removal."
    ++ teardown_events (present Workers) Workers
      "Removing bench workers containers." "Removed bench workers containers."
      "Bench workers compose file not found. Skipping containers removal."
    ++ teardown_events (present AdminTools) AdminTools
      "Removing bench admin tools containers." "Removed bench admin tools containers."
      "Bench admin tools compose file not found. Skipping containers removal." in
  fst (remove_containers rt w) = Ok tt
  /\ events_of (remove_containers rt) w = expected
  /\ (forall g, In (ECall (DownService g true true) None) expected <-> present g = true)
  /\ count is_down expected
     = Nat.b2n (present Primary) + Nat.b2n (present Workers) + Nat.b2n (present AdminTools)
  /\ count is_warning expected
     = Nat.b2n (negb (present Primary)) + Nat.b2n (negb (present Workers))
       + Nat.b2n (negb (present AdminTools))
  /\ fst (remove_containers_and_dirs self rt w) = Ok tt
  /\ events_of (remove_containers_and_dirs self rt) w
     = expected ++ [change_head "Removing all bench files and directories.";
                    ECall (Rmtree (path self)) None;
                    print "Removed all bench files and directories."].
Proof.
  intros ND NR present expected.
  assert (E : exists W, remove_containers rt w = (Ok tt, W) /\ log W = log w ++ expected
              /\ remove_dirs self rt W
                 = (Ok tt, record (print "Removed all bench files and directories.")
                             (effect (Rmtree (path self))
                                (record (ECall (Rmtree (path self)) None)
                                   (record (change_head "Removing all bench files and directories.") W))))).
  { subst expected present. unfold remove_containers, exists_.
    destruct (pg_get Primary (compose_file_exists w)) eqn:P,
             (pg_get Workers (compose_file_exists w)) eqn:Wk,
             (pg_get AdminTools (compose_file_exists w)) eqn:Ad.
    all: simpl in P, Wk, Ad; eexists.
    all: mrun_by ltac:(apply ND); fields; rewrite ?P; mrun_by ltac:(apply ND).
    all: fields; rewrite ?Wk; mrun_by ltac:(apply ND).
    all: fields; rewrite ?Ad; mrun_by ltac:(apply ND).
    all: (split; [reflexivity |]); split; [logs; reflexivity |].
    all: unfold remove_dirs; mrun_by ltac:(apply NR).
    all: erewrite bind_Ok by (apply try_except_Ok; apply call_ok; apply NR).
    all: reflexivity. }
  destruct E as (W & E & L & D).
  assert (E2 : remove_containers_and_dirs self rt w
               = (Ok tt, record (print "Removed all bench files and directories.")
                           (effect (Rmtree (path self))
                              (record (ECall (Rmtree (path self)) None)
                                 (record (change_head "Removing all bench files and directories.") W))))).
  { unfold remove_containers_and_dirs. erewrite bind_Ok by exact E. exact D. }
  split; [rewrite E; reflexivity |].
  split; [eapply events_of_intro; [exact E | exact L] |].
  split.
  { intros g. subst expected present. unfold teardown_events.
    destruct g; destruct (pg_get Primary (compose_file_exists w)),
      (pg_get Workers (compose_file_exists w)),
      (pg_get AdminTools (compose_file_exists w)); simpl; split; intros H;
      try reflexivity; try tauto; try discriminate;
      repeat (destruct H as [H | H]; try discriminate H); try contradiction H. }
  split; [subst expected present; unfold teardown_events;
          destruct (pg_get Primary (compose_file_exists w)),
            (pg_get Workers (compose_file_exists w)),
            (pg_get AdminTools (compose_file_exists w)); reflexivity |].
  split; [subst expected present; unfold teardown_events;
          destruct (pg_get Primary (compose_file_exists w)),
            (pg_get Workers (compose_file_exists w)),
            (pg_get AdminTools (compose_file_exists w)); reflexivity |].
  split; [rewrite E2; reflexivity |].
  eapply events_of_intro; [exact E2 |]. logs. rewrite L. rewrite <- app_assoc. reflexivity.
Qed.

(** run the call in head position both ways: it raises, or it returns *)
Ltac mcall :=
  match goal with
  | |- context [bind (call rt ?a) ?k ?w] =>
      let F := fresh "F" in
      destruct (fault rt a w) eqn:F;
      [ erewrite bind_call_raise by exact F | rewrite bind_call_ok by exact F ]
  | |- context [call rt ?a ?w] =>
      let F := fresh "F" in
      destruct (fault rt a w) eqn:F;
      [ erewrite call_raise by exact F | rewrite call_ok by exact F ]
  end.

(** X26. Whatever the runtime does, the container phase issues a
    tear-down call for a group only when the descriptor of that group
    exists. *)
Lemma remove_containers_only_present (w : World) (g : Group) (ro v : bool) (o : option Exn) :
  In (ECall (DownService g ro v) o) (events_of (remove_containers rt) w) ->
  pg_get g (compose_file_exists w) = true.
Proof.
  unfold events_of, remove_containers, exists_.
  destruct (pg_get Primary (compose_file_exists w)) eqn:P,
           (pg_get Workers (compose_file_exists w)) eqn:Wk,
           (pg_get AdminTools (compose_file_exists w)) eqn:Ad.
  all: simpl in P, Wk, Ad.
  all: repeat first [ mstep | progress fields | rewrite P | rewrite Wk | rewrite Ad | mcall ].
  all: simpl snd; logs; rewrite skipn_length_app; simpl.
  all: intros H; repeat (destruct H as [H | H]; [try discriminate H |]); try contradiction H.
  all: injection H as <- _ _ _; simpl; assumption.
Qed.

(** Whatever the runtime does, a bench without any descriptor is skipped
    three times and the container phase returns normally. *)
Lemma remove_containers_all_absent (w : World) :
  compose_file_exists w = mkPerGroup false false false ->
  remove_containers rt w
  = (Ok tt,
     record (warning "Bench admin tools compose file not found. Skipping containers removal.")
       (record (warning "Bench workers compose file not found. Skipping containers removal.")
          (record (warning "Bench compose file not found. Skipping containers removal.") w))).
Proof.
  intros H. unfold remove_containers, exists_.
  repeat first [ mstep | progress fields | rewrite H | progress simpl ]. reflexivity.
Qed.

(** X24. When the first delete raises [PermissionError] and the primary
    descriptor lists a frappe image, the recovery is one privilege-fix run
    through that image followed by one more delete; an exception from either
    becomes the directory-removal error that names the bench and its path. *)
Lemma remove_dirs_recovers_once (w : World) (image_name image_tag : string) :
  let w0 := record (change_head "Removing all bench files and directories.") w in
  let w1 := record (ECall (Rmtree (path self)) (Some PermissionError)) w0 in
  let fix_run := DockerRun (image_name ++ ":" ++ image_tag)%string "/bin/sh"
                   "-c 'chown -R frappe:frappe .'"
                   (path self ++ "/workspace:/workspace")%string false in
  fault rt (Rmtree (path self)) w0 = Some PermissionError ->
  dict_get "frappe" (all_images w) = Some (image_name, image_tag) ->
  match fault rt fix_run w1 with
  | Some e =>
      is_Exception rt e = true ->
      remove_dirs self rt w
      = (Raise (BenchRemoveDirectoryError (name self) (path self)),
         record (ECall fix_run (Some e)) w1)
  | None =>
      let w2 := effect fix_run (record (ECall fix_run None) w1) in
      match fault rt (Rmtree (path self)) w2 with
      | Some e =>
          is_Exception rt e = true ->
          remove_dirs self rt w
          = (Raise (BenchRemoveDirectoryError (name self) (path self)),
             record (ECall (Rmtree (path self)) (Some e)) w2)
      | None =>
          remove_dirs self rt w
          = (Ok tt,
             record (print "Removed all bench files and directories.")
               (effect (Rmtree (path self)) (record (ECall (Rmtree (path self)) None) w2)))
      end
  end.
Proof.
  intros w0 w1 fix_run F1 I.
  assert (B : call rt (Rmtree (path self)) w0 = (Raise PermissionError, w1))
    by (apply call_raise; exact F1).
  unfold remove_dirs, bind, try_except, gets, pass, raise, emit, modify.
  fold w0. rewrite B. cbv beta iota delta [is_PermissionError].
  change (all_images w1) with (all_images w). rewrite I. fold fix_run.
  destruct (fault rt fix_run w1) as [e |] eqn:F2.
  - intros X. erewrite call_raise by exact F2. rewrite X. reflexivity.
  - rewrite call_ok by exact F2. cbv zeta.
    destruct (fault rt (Rmtree (path self)) (effect fix_run (record (ECall fix_run None) w1)))
      as [e |] eqn:F3.
    + intros X. erewrite call_raise by exact F3. rewrite X. reflexivity.
    + rewrite call_ok by exact F3. reflexivity.
Qed.

(** When the first delete raises [PermissionError] and the primary
    descriptor lists no frappe image, nothing is tried and the removal
    returns normally. *)
Lemma remove_dirs_without_image (w : World) :
  let w0 := record (change_head "Removing all bench files and directories.") w in
  fault rt (Rmtree (path self)) w0 = Some PermissionError ->
  dict_get "frappe" (all_images w) = None ->
  remove_dirs self rt w
  = (Ok tt,
     record (print "Removed all bench files and directories.")
       (record (ECall (Rmtree (path self)) (Some PermissionError)) w0)).
Proof.
  intros w0 F1 I.
  assert (B : call rt (Rmtree (path self)) w0
              = (Raise PermissionError,
                 record (ECall (Rmtree (path self)) (Some PermissionError)) w0))
    by (apply call_raise; exact F1).
  unfold remove_dirs, bind, try_except, gets, pass, raise, emit, modify.
  fold w0. rewrite B. cbv beta iota delta [is_PermissionError].
  change (all_images (record (ECall (Rmtree (path self)) (Some PermissionError)) w0))
    with (all_images w).
  rewrite I. reflexivity.
Qed.

(** C8, at a bench whose directory cannot be deleted and whose primary
    descriptor lists no frappe image: the delete raises [PermissionError],
    no privilege-fix run and no second delete follow, the removal returns
    normally after printing that everything was removed, and the directory
    is still there. *)
Theorem remove_dirs_reports_success_on_locked_directory :
  dict_get "frappe" (all_images imageless) = None
  /\ fst (remove_dirs shop locked imageless) = Ok tt
  /\ events_of (remove_dirs shop locked) imageless
     = [change_head "Removing all bench files and directories.";
        ECall (Rmtree "/benches/shop.localhost") (Some PermissionError);
        print "Removed all bench files and directories."]
  /\ path_exists (snd (remove_dirs shop locked imageless)) = true
  /\ fst (remove_containers_and_dirs shop locked imageless) = Ok tt
  /\ path_exists (snd (remove_containers_and_dirs shop locked imageless)) = true.
Proof. repeat split; reflexivity. Qed.

(** ** Worker configuration *)



Lemma regeneration_event_restores_nothing (e : Event) :
  regeneration_event e = true -> is_restore e = false.
Proof. destruct e as [a o | | | | | | | | | | |]; try reflexivity. destruct a; simpl; congruence. Qed.



(** ** Snapshots before regeneration *)

Lemma snapshot_world_log (paths : list string) (w : World) :
  log (snapshot_world paths w) = log w ++ map (fun p => ECall (Backup p) None) paths.
Proof.
  revert w. induction paths as [| p paths IH]; intros w; simpl.
  - rewrite app_nil_r. reflexivity.
  - rewrite IH. simpl. rewrite <- app_assoc. reflexivity.
Qed.

Lemma snapshot_world_backups (paths : list string) (w : World) :
  backups (snapshot_world paths w) = backups w ++ paths.
Proof.
  revert w. induction paths as [| p paths IH]; intros w; simpl.
  - rewrite app_nil_r. reflexivity.
  - rewrite IH. simpl. rewrite <- app_assoc. reflexivity.
Qed.

Lemma snapshot_world_files (paths : list string) (w : World) :
  supervisor_config_exists (snapshot_world paths w) = supervisor_config_exists w
  /\ config_dir (snapshot_world paths w) = config_dir w.
Proof.
  revert w. induction paths as [| p paths IH]; intros w.
  - split; reflexivity.
  - change (snapshot_world (p :: paths) w)
      with (snapshot_world paths (effect (Backup p) (record (ECall (Backup p) None) w))).
    destruct (IH (effect (Backup p) (record (ECall (Backup p) None) w))) as [A B].
    rewrite A, B. split; reflexivity.
Qed.

Section Snapshots.

Hypothesis backup_returns : forall p w', fault rt (Backup p) w' = None.

Lemma backup_loop_run (files : list (string * bool)) (w : World) :
  for_each files (fun entry =>
    let '(file_path_abs, is_file) := entry in
    if negb is_file then pass
    else if endswith file_path_abs ".fm.supervisor.conf"
         then call rt (Backup file_path_abs) else pass) w
  = (Ok tt, snapshot_world (generated_siblings files) w).
Proof.
  revert w. induction files as [| [file_path_abs is_file] files IH]; intros w.
  - reflexivity.
  - simpl for_each. unfold generated_siblings. simpl filter. destruct is_file; simpl negb.
    + destruct (endswith file_path_abs ".fm.supervisor.conf") eqn:S; simpl andb.
      * rewrite bind_call_ok by apply backup_returns. rewrite IH. reflexivity.
      * rewrite bind_pass. rewrite IH. reflexivity.
    + rewrite bind_pass. rewrite IH. reflexivity.
Qed.

Lemma backup_workers_supervisor_conf_run (w : World) :
  let snapshot :=
    supervisor_config_path self
    :: (if supervisor_config_exists w then generated_siblings (config_dir w) else []) in
  backup_workers_supervisor_conf self rt w
  = (Ok snapshot, snapshot_world snapshot (set_backups [] w)).
Proof.
  unfold backup_workers_supervisor_conf.
  mrun_by ltac:(apply backup_returns). fields.
  destruct (supervisor_config_exists w).
  - mrun_by ltac:(apply backup_returns). fields.
    erewrite bind_Ok by apply backup_loop_run.
    rewrite gets_apply. simpl snapshot_world.
    rewrite snapshot_world_backups. reflexivity.
  - mrun_by ltac:(apply backup_returns). reflexivity.
Qed.

End Snapshots.

(** C6, as the code has it.  When the snapshot calls return normally, the
    regeneration first issues the snapshot of the supervisor configuration,
    whether or not it exists, and then, provided it exists, of every regular
    file of the configuration directory whose path ends in
    ".fm.supervisor.conf"; these snapshots make up the backup set.  Only
    then do the regeneration commands run.  Nothing is ever restored, and
    when a command raises [DockerException] the call raises the
    worker-supervisor-configuration error of this bench. *)
Theorem regenerate_workers_supervisor_conf_snapshots_first (w : World) :
  (forall p w', fault rt (Backup p) w' = None) ->
  let snapshot :=
    supervisor_config_path self
    :: (if supervisor_config_exists w then generated_siblings (config_dir w) else []) in
  exists commands,
    events_of (regenerate_workers_supervisor_conf self rt) w
    = change_head "Regenerating supervisor.conf."
      :: map (fun p => ECall (Backup p) None) snapshot ++ commands
    /\ count is_backup commands = 0
    /\ count is_exec commands >= 1
    /\ count is_restore (events_of (regenerate_workers_supervisor_conf self rt) w) = 0
    /\ backups (snd (regenerate_workers_supervisor_conf self rt w)) = snapshot
    /\ (forall a, In (ECall a (Some DockerException)) commands ->
         fst (regenerate_workers_supervisor_conf self rt w)
         = Raise (BenchWorkersSupervisorConfigurtionGenerateError (name self))).
Proof.
  intros NB snapshot.
  destruct (emits_log w regenerate_workers_supervisor_conf_emits) as [_ F].
  pose proof (@forallb_count_zero regeneration_event is_restore _
                regeneration_event_restores_nothing F) as NR.
  assert (E : exists R W commands,
             regenerate_workers_supervisor_conf self rt w = (R, W)
             /\ log W = log w ++ change_head "Regenerating supervisor.conf."
                        :: map (fun p => ECall (Backup p) None) snapshot ++ commands
             /\ count is_backup commands = 0
             /\ count is_exec commands >= 1
             /\ backups W = snapshot
             /\ (forall a, In (ECall a (Some DockerException)) commands ->
                  R = Raise (BenchWorkersSupervisorConfigurtionGenerateError (name self)))).
  { unfold regenerate_workers_supervisor_conf. rewrite bind_emit.
    erewrite bind_Ok by (apply backup_workers_supervisor_conf_run; exact NB).
    fields. fold snapshot. unfold try_except.
    repeat first [ mstep | mcall ].
    all: try (destruct (is_DockerException e) eqn:D).
    all: do 3 eexists; split; [reflexivity |].
    all: split; [logs; rewrite snapshot_world_log; logs; reflexivity |].
    all: split; [reflexivity |].
    all: split; [unfold count; simpl; lia |].
    all: split; [fields; rewrite snapshot_world_backups; reflexivity |].
    all: intros a H; simpl in H.
    all: repeat (destruct H as [H | H]; [try discriminate H |]); try contradiction H.
    all: try reflexivity.
    all: injection H as _ He; rewrite He in D; discriminate D. }
  destruct E as (R & W & commands & E & L & B & X & S & D).
  exists commands.
  split; [eapply events_of_intro; [exact E | exact L] |].
  split; [exact B |]. split; [exact X |]. split; [exact NR |].
  rewrite E. split; [exact S | exact D].
Qed.



(** ** Readiness *)

Lemma failed_attempts_counts (command : string) (interval : Z) (errors : list Exn) :
  count is_exec (failed_attempts command interval errors) = List.length errors
  /\ count is_sleep (failed_attempts command interval errors) = List.length errors
  /\ List.length (failed_attempts command interval errors) = 2 * List.length errors.
Proof.
  unfold count. induction errors as [| e errors (IH1 & IH2 & IH3)]; simpl.
  - repeat split.
  - rewrite IH1, IH2, IH3. repeat split; lia.
Qed.

Lemma frappe_logs_loop_returns (pre : World -> Prop) (output : list (string * string)) :
  (forall e w, pre w -> pre (record e w)) ->
  returns pre (frappe_logs_loop output).
Proof.
  intros P. induction output as [| [source line] output IH].
  - apply returns_pass.
  - cbn [frappe_logs_loop].
    repeat match goal with
           | |- returns _ (if ?b then _ else _) => destruct b
           | |- returns _ (bind (emit _) _) =>
               apply returns_bind; [apply returns_emit; apply P | intros _]
           end; try exact IH; apply returns_pass.
Qed.

(** take a computation apart down to its primitives; [tac] shows that a
    call returns *)
Ltac returns_parts_by tac :=
  repeat first
    [ apply returns_bind; [| intros ? ]
    | apply returns_ret
    | apply returns_pass
    | apply returns_gets
    | apply returns_emit; intros ? H; exact H
    | apply returns_call; [intros ?; tac | intros ? H; exact H]
    | apply returns_call_with; [intros ?; tac | intros ? H; exact H]
    | apply returns_modify; [intros ?; reflexivity | intros ? H; exact H]
    | apply returns_try_except
    | apply returns_for_each; intros ?
    | apply frappe_logs_loop_returns; intros ? ? H; exact H
    | match goal with
      | |- returns _ (if ?b then _ else _) => destruct b
      | |- returns _ (match ?x with _ => _ end) => destruct x
      | |- returns _ (let '(_, _) := ?x in _) => destruct x
      end ].

Lemma returns_emits (pre : World -> Prop) (p : Event -> bool) {A : Type} (m : M A)
    (w : World) :
  returns pre m -> emits p m -> pre w ->
  exists a w' evs, m w = (Ok a, w') /\ log w' = log w ++ evs /\ forallb p evs = true.
Proof.
  intros R E H. destruct (R w H) as (a & w' & evs & Eq & L & _).
  destruct (E w) as (evs' & L' & F). rewrite Eq in L'. simpl in L'.
  rewrite L in L'. apply app_inv_head in L'. subst evs'.
  exists a, w', evs. repeat split; assumption.
Qed.

Section ProbeExhausted.

(** every command run the way the probe runs it raises an exception, and
    every other call returns *)
Hypothesis probes_raise :
  forall a w', is_plain_exec a = true ->
    exists e, fault rt a w' = Some e /\ is_Exception rt e = true.
Hypothesis others_return :
  forall a w', is_plain_exec a = false -> fault rt a w' = None.

Lemma probe_once_fails (command : string) (interval : Z) (w : World) :
  exists e,
    probe_once rt command interval w
    = (Ok false,
       record (ECall (Sleep interval) None)
         (record (ECall (ComposeExec "frappe" command None None false) (Some e)) w)).
Proof.
  destruct (probes_raise (ComposeExec "frappe" command None None false) w eq_refl)
    as (e & F & X).
  exists e. unfold probe_once, try_except, call_with.
  erewrite bind_Raise; [| rewrite call_raise with (e := e) by exact F; reflexivity].
  rewrite X. rewrite bind_call_ok by (apply others_return; reflexivity). reflexivity.
Qed.

Lemma probe_loop_exhausts (rounds : nat) (command : string) (interval : Z) (w : World) :
  exists errors w',
    List.length errors = rounds
    /\ probe_loop rt rounds command interval w = (Ok false, w')
    /\ log w' = log w ++ failed_attempts command interval errors
    /\ state_of w' = state_of w.
Proof.
  revert w. induction rounds as [| rounds IH]; intros w.
  - exists [], w. simpl. rewrite app_nil_r. repeat split.
  - destruct (probe_once_fails command interval w) as (e & E1).
    destruct (IH (record (ECall (Sleep interval) None)
                    (record (ECall (ComposeExec "frappe" command None None false) (Some e)) w)))
      as (errors & w' & N & E2 & L & S).
    exists (e :: errors), w'. split; [simpl; rewrite N; reflexivity |].
    split; [simpl probe_loop; erewrite bind_Ok by exact E1; exact E2 |].
    split; [rewrite L; logs; reflexivity | rewrite S; reflexivity].
Qed.

Ltac returns_parts := returns_parts_by ltac:(apply others_return; reflexivity).

Lemma generate_compose_returns (inputs : ComposeInputs) :
  returns (fun _ => True) (generate_compose self rt inputs).
Proof. unfold generate_compose. returns_parts. Qed.

Lemma create_compose_dirs_returns : returns (fun _ => True) (create_compose_dirs self rt).
Proof. unfold create_compose_dirs. returns_parts. Qed.

Lemma frappe_logs_till_start_returns : returns (fun _ => True) (frappe_logs_till_start self rt).
Proof. unfold frappe_logs_till_start. returns_parts. Qed.

Lemma sync_workers_compose_returns (force_recreate : bool) :
  returns (fun _ => True) (sync_workers_compose self rt force_recreate).
Proof.
  unfold sync_workers_compose, regenerate_workers_supervisor_conf,
    backup_workers_supervisor_conf.
  returns_parts.
Qed.

Lemma is_bench_created_false (retry interval : Z) (w : World) :
  exists command errors w',
    check_command self retry w = (Ok command, w)
    /\ is_bench_created self rt retry interval w = (Ok false, w')
    /\ List.length errors = Z.to_nat retry
    /\ log w' = log w ++ failed_attempts command interval errors
    /\ state_of w' = state_of w.
Proof.
  assert (C : exists command, check_command self retry w = (Ok command, w)).
  { unfold check_command. rewrite bind_gets. eexists. reflexivity. }
  destruct C as (command & C).
  destruct (probe_loop_exhausts (Z.to_nat retry) command interval w)
    as (errors & w' & N & E & L & S).
  exists command, errors, w'. split; [exact C |].
  split; [unfold is_bench_created; erewrite bind_Ok by exact C; exact E |].
  repeat split; assumption.
Qed.

(** C5. Let every command run the way the probe runs it raise an exception
    and every other call return.  Then [is_bench_created] with the budget
    [retry] makes exactly [retry] attempts, each followed by one delay of
    [interval], changes nothing else and returns [False].  And the creation
    of a bench that is not a template raises "Bench site is inactive or
    unresponsive." right after the 60 failed attempts of its status check:
    nothing of the rest of the pipeline runs, and [create] goes on with its
    exception handler. *)
Theorem is_bench_created_exhausts (retry interval : Z) (w : World) :
  (exists command errors w',
     is_bench_created self rt retry interval w = (Ok false, w')
     /\ List.length errors = Z.to_nat retry
     /\ events_of (is_bench_created self rt retry interval) w
        = failed_attempts command interval errors
     /\ count is_exec (events_of (is_bench_created self rt retry interval) w) = Z.to_nat retry
     /\ count is_sleep (events_of (is_bench_created self rt retry interval) w) = Z.to_nat retry
     /\ List.length (events_of (is_bench_created self rt retry interval) w)
        = 2 * Z.to_nat retry
     /\ state_of w' = state_of w)
  /\ (exists command errors before w',
       create_until_checked self rt false w
       = (Raise (Exception "Bench site is inactive or unresponsive."), w')
       /\ bind (create_until_checked self rt false) (fun _ => create_after_checked self rt) w
          = (Raise (Exception "Bench site is inactive or unresponsive."), w')
       /\ create self rt false w
          = create_failed self rt (Exception "Bench site is inactive or unresponsive.") w'
       /\ log w' = log w ++ before ++ failed_attempts command 1 errors
       /\ List.length errors = 60).
Proof.
  split.
  - destruct (is_bench_created_false retry interval w)
      as (command & errors & w' & _ & E & N & L & S).
    assert (V : events_of (is_bench_created self rt retry interval) w
                = failed_attempts command interval errors)
      by (eapply events_of_intro; [exact E | exact L]).
    destruct (failed_attempts_counts command interval errors) as (C1 & C2 & C3).
    exists command, errors, w'. rewrite V, C1, C2, C3, N. repeat split; assumption.
  - assert (R : raises_after (Exception "Bench site is inactive or unresponsive.")
                  (fun evs => exists command errors,
                     evs = failed_attempts command 1 errors /\ List.length errors = 60)
                  (create_until_checked self rt false) w).
    { unfold create_until_checked.
      repeat lazymatch goal with
             | |- raises_after _ _ (bind (is_bench_created _ _ _ _) _) _ => fail
             | |- raises_after _ _ (bind _ _) _ =>
                 apply raises_after_bind;
                 [ first [ apply generate_compose_returns
                         | apply create_compose_dirs_returns
                         | apply frappe_logs_till_start_returns
                         | apply sync_workers_compose_returns
                         | returns_parts ]
                 | intros ? ? ]
             end.
      match goal with |- raises_after _ _ _ ?w1 =>
        destruct (is_bench_created_false 60 1 w1)
          as (command & errors & w' & _ & E & N & L & _);
        exists w', [], (failed_attempts command 1 errors)
      end.
      split; [erewrite bind_Ok by exact E; reflexivity |].
      split; [exact L |]. exists command, errors. split; [reflexivity | exact N]. }
    destruct R as (w' & before & evs & E & L & command & errors & -> & N).
    exists command, errors, before, w'.
    split; [exact E |].
    split; [erewrite bind_Raise by exact E; reflexivity |].
    split; [| split; assumption].
    unfold create. erewrite try_except_caught;
      [reflexivity | erewrite bind_Raise by exact E; reflexivity | reflexivity].
Qed.

End ProbeExhausted.

(** ** Secrets *)

Lemma after_rewrite_event_stops_nothing (e : Event) :
  after_rewrite_event e = true -> is_stop e = false.
Proof.
  unfold after_rewrite_event. destruct (is_stop e); [discriminate | reflexivity].
Qed.

Lemma after_rewrite_event_writes_nothing (e : Event) :
  after_rewrite_event e = true -> is_descriptor_write e = false.
Proof.
  unfold after_rewrite_event.
  destruct (is_descriptor_write e); [rewrite andb_false_r; discriminate | reflexivity].
Qed.

Lemma frappe_logs_till_start_emits_after_rewrite :
  emits after_rewrite_event (frappe_logs_till_start self rt).
Proof. unfold frappe_logs_till_start. emits_parts. Qed.

Lemma sync_workers_compose_emits_after_rewrite (force_recreate : bool) :
  emits after_rewrite_event (sync_workers_compose self rt force_recreate).
Proof.
  unfold sync_workers_compose, regenerate_workers_supervisor_conf,
    backup_workers_supervisor_conf.
  emits_parts.
Qed.

Lemma start_emits_after_rewrite (force : bool) :
  emits after_rewrite_event (start self rt force).
Proof.
  unfold start, sync_bench_common_site_config, common_bench_config_set, exists_.
  repeat first
    [ apply frappe_logs_till_start_emits_after_rewrite
    | apply sync_workers_compose_emits_after_rewrite
    | apply emits_bind; [| intros ? ]
    | apply emits_pass
    | apply emits_raise
    | apply emits_gets
    | apply emits_emit; reflexivity
    | apply emits_call; intros ?; reflexivity
    | match goal with |- emits _ (if ?b then _ else _) => destruct b end ].
Qed.

(** X25. Whatever the runtime does: when the primary group is running as
    the purge begins, either the descriptor is never written, or the write comes
    after the stop of the frappe service has returned, and after the stop of
    the worker group when its descriptor exists, and no stop and no other
    write follows it. *)
Lemma remove_attached_secrets_writes_only_after_stop (w : World) :
  pg_get Primary (compose_running w) = true ->
  count is_descriptor_write (events_of (remove_attached_secrets self rt) w) = 0
  \/ exists o rest,
       events_of (remove_attached_secrets self rt) w
       = change_head "Removing bench attached secrets"
         :: ECall (StopService Primary (Some ["frappe"])) None
         :: (if pg_get Workers (compose_file_exists w)
             then [ECall (StopService Workers None) None] else [])
         ++ [ECall (RemoveSecretsFromContainer "frappe") None;
             ECall RemoveRootSecretsCompose None;
             ECall WriteToFile o] ++ rest
       /\ count is_stop rest = 0
       /\ count is_descriptor_write rest = 0.
Proof.
  intros R. simpl in R.
  unfold events_of.
  destruct (pg_get Workers (compose_file_exists w)) eqn:Wk; simpl in Wk.
  all: unfold remove_attached_secrets, running, exists_.
  all: repeat first [ mstep | progress fields | rewrite R | rewrite Wk | mcall ].
  all: try (left; simpl snd; logs; rewrite skipn_length_app; reflexivity).
  all: right.
  all: try (exists (Some e), []; simpl snd; logs; rewrite skipn_length_app;
            repeat split; reflexivity).
  all: match goal with |- context [snd (?m ?w1)] =>
         let Rest := fresh "Rest" in
         assert (Rest : emits after_rewrite_event m)
           by (repeat first
                 [ apply start_emits_after_rewrite
                 | apply frappe_logs_till_start_emits_after_rewrite
                 | apply emits_bind; [| intros ? ]
                 | apply emits_emit; reflexivity ]);
         destruct (Rest w1) as (evs & L & G)
       end.
  all: rewrite L; exists None, evs; logs; rewrite skipn_length_app.
  all: split; [reflexivity |].
  all: split; [apply forallb_count_zero with (p := after_rewrite_event);
               [exact after_rewrite_event_stops_nothing | exact G]
              | apply forallb_count_zero with (p := after_rewrite_event);
               [exact after_rewrite_event_writes_nothing | exact G]].
Qed.

Section Bounce.

Hypothesis all_return : forall a w', fault rt a w' = None.

Lemma frappe_logs_till_start_returns_always (pre : World -> Prop) :
  (forall e w, pre w -> pre (record e w)) ->
  returns pre (frappe_logs_till_start self rt).
Proof.
  intros P. unfold frappe_logs_till_start.
  apply returns_bind; [apply returns_call_with; [intros ?; apply all_return | intros ? H; apply P, H] |].
  intros output. destruct (quiet self).
  - apply returns_call; [intros ?; apply all_return | intros ? H; apply P, H].
  - apply frappe_logs_loop_returns. exact P.
Qed.

Lemma sync_workers_compose_returns_always (force_recreate : bool) :
  returns (fun _ => True) (sync_workers_compose self rt force_recreate).
Proof.
  unfold sync_workers_compose, regenerate_workers_supervisor_conf,
    backup_workers_supervisor_conf.
  returns_parts_by ltac:(apply all_return).
Qed.

Lemma extend_log (l prefix : list Event) (w1 : World) {A : Type} (m : M A)
    (p : Event -> bool) :
  log w1 = l ++ prefix ->
  (exists a w' evs, m w1 = (Ok a, w') /\ log w' = log w1 ++ evs /\ forallb p evs = true) ->
  exists a w' evs, m w1 = (Ok a, w') /\ log w' = l ++ prefix ++ evs /\ forallb p evs = true.
Proof.
  intros L (a & w' & evs & E & L' & F). exists a, w', evs.
  rewrite L', L, <- app_assoc. repeat split; assumption.
Qed.

(** C9. When no call raises and common_site_config.json is in place: if
    the primary group is running when the purge begins, the frappe service
    of the primary group is stopped, then the worker group when its
    descriptor exists, and only then are the secrets removed and the
    descriptor written; what follows restarts the primary group, and the
    worker group when its descriptor exists, and contains no further stop
    and no further write of the descriptor.  If the primary group is not
    running, the purge is the removal of the secrets and the write, with no
    stop and no start. *)
Theorem remove_attached_secrets_bounces (w : World) :
  common_site_config_exists w = true ->
  let workers := pg_get Workers (compose_file_exists w) in
  let purge := [ECall (RemoveSecretsFromContainer "frappe") None;
                ECall RemoveRootSecretsCompose None;
                ECall WriteToFile None] in
  fst (remove_attached_secrets self rt w) = Ok tt
  /\ if pg_get Primary (compose_running w) then
       exists restart,
         events_of (remove_attached_secrets self rt) w
         = change_head "Removing bench attached secrets"
           :: ECall (StopService Primary (Some ["frappe"])) None
           :: (if workers then [ECall (StopService Workers None) None] else [])
           ++ purge ++ restart
         /\ In (ECall (StartService Primary (Some false)) None) restart
         /\ (if workers
             then In (ECall (StartService Workers (Some false)) None) restart
             else True)
         /\ count is_stop restart = 0
         /\ count is_descriptor_write restart = 0
     else
       events_of (remove_attached_secrets self rt) w
       = change_head "Removing bench attached secrets"
         :: purge ++ [print "Removed bench attached secrets."].
Proof.
  intros C workers purge. subst workers purge.
  destruct (pg_get Primary (compose_running w)) eqn:R.
  - destruct (pg_get Workers (compose_file_exists w)) eqn:Wk,
             (pg_get AdminTools (compose_file_exists w)) eqn:Ad.
    all: simpl in R, Wk, Ad.
    all: evar (explicit : list Event).
    all: assert (E : exists a w' evs,
                   remove_attached_secrets self rt w = (Ok a, w')
                   /\ log w' = log w ++ explicit ++ evs
                   /\ forallb after_rewrite_event evs = true)
      by (unfold remove_attached_secrets, start,
              sync_bench_common_site_config, common_bench_config_set, running, exists_;
            repeat first [ mstep | rewrite bind_call_ok by apply all_return
                         | progress fields | rewrite R | rewrite Wk | rewrite Ad | rewrite C
                         | progress simpl negb
                         | progress cbn [of_primary of_workers of_admin_tools] ];
            apply extend_log; [logs; subst explicit; reflexivity |];
            apply returns_emits with (pre := fun _ => True); [| | exact I];
            [ repeat first
                [ apply frappe_logs_till_start_returns_always; intros ? ? H; exact H
                | apply sync_workers_compose_returns_always
                | apply returns_bind; [| intros ? ]
                | apply returns_emit; intros ? H; exact H ]
            | repeat first
                [ apply frappe_logs_till_start_emits_after_rewrite
                | apply sync_workers_compose_emits_after_rewrite
                | apply emits_bind; [| intros ? ]
                | apply emits_emit; reflexivity ] ]).
    all: destruct E as ([] & w' & evs & E & L & F); subst explicit.
    all: (split; [rewrite E; reflexivity |]).
    all: eexists; split;
      [eapply events_of_intro; [exact E | rewrite L; simpl app; reflexivity] |].
    all: simpl.
    all: pose proof (@forallb_count_zero after_rewrite_event is_stop _
                       after_rewrite_event_stops_nothing F) as Z1.
    all: pose proof (@forallb_count_zero after_rewrite_event is_descriptor_write _
                       after_rewrite_event_writes_nothing F) as Z2.
    all: unfold count in *; simpl; repeat split; try assumption; tauto.
  - assert (E : remove_attached_secrets self rt w
                = (Ok tt,
                   record (print "Removed bench attached secrets.")
                     (effect WriteToFile
                        (record (ECall WriteToFile None)
                           (effect RemoveRootSecretsCompose
                              (record (ECall RemoveRootSecretsCompose None)
                                 (effect (RemoveSecretsFromContainer "frappe")
                                    (record (ECall (RemoveSecretsFromContainer "frappe") None)
                                       (record (change_head "Removing bench attached secrets")
                                          w))))))))).
    { simpl in R. unfold remove_attached_secrets, running.
      repeat first [ mstep | rewrite bind_call_ok by apply all_return
                   | progress fields | rewrite R ].
      reflexivity. }
    split; [rewrite E; reflexivity |].
    eapply events_of_intro; [exact E |]. logs. reflexivity.
Qed.

End Bounce.

(** X28. If the stop of the frappe service raises, the purge ends there:
    the descriptor is not touched. *)
Lemma remove_attached_secrets_stop_raises (w : World) (e : Exn) :
  pg_get Primary (compose_running w) = true ->
  fault rt (StopService Primary (Some ["frappe"]))
    (record (change_head "Removing bench attached secrets") w) = Some e ->
  remove_attached_secrets self rt w
  = (Raise e,
     record (ECall (StopService Primary (Some ["frappe"])) (Some e))
       (record (change_head "Removing bench attached secrets") w)).
Proof.
  intros R F. simpl in R. unfold remove_attached_secrets, running.
  repeat first [ mstep | progress fields | rewrite R ].
  erewrite bind_call_raise by exact F. reflexivity.
Qed.

(** * More properties *)

Lemma emits_weaken (p q : Event -> bool) {A : Type} (m : M A) :
  (forall e, p e = true -> q e = true) -> emits p m -> emits q m.
Proof.
  intros H E w. destruct (E w) as (evs & L & F). exists evs. split; [exact L |].
  rewrite forallb_forall in *. intros e I. apply H, F, I.
Qed.

(** ** Start *)

Lemma start_unconfigured (force : bool) (w : World) :
  common_site_config_exists w = false ->
  start self rt force w
  = (Raise (BenchException (name self) "common_site_config.json not found."), w).
Proof.
  intros C. unfold start, sync_bench_common_site_config, common_bench_config_set.
  repeat mstep. rewrite C. reflexivity.
Qed.

(** X1. Without common_site_config.json [start] raises the bench exception
    that says so before it does anything: no call is made, no group is
    started and the log is as it was. *)
Theorem start_without_common_site_config (force : bool) (w : World) :
  common_site_config_exists w = false ->
  start self rt force w
  = (Raise (BenchException (name self) "common_site_config.json not found."), w)
  /\ events_of (start self rt force) w = [].
Proof.
  intros C. pose proof (start_unconfigured force w C) as E.
  split; [exact E | eapply events_of_unchanged; exact E].
Qed.

(** X2. Whatever the runtime does, [start] starts the worker group and the
    admin-tools group only after common_site_config.json has been written
    and the start of the primary group has returned: either no such start is
    in the log, or the log begins with the write and the returned start of
    the primary group, made with the given flag. *)
Theorem start_primary_first (force : bool) (w : World) :
  count is_side_start (events_of (start self rt force) w) = 0
  \/ exists rest,
       events_of (start self rt force) w
       = [ECall (WriteCommonSiteConfig
                   (merged_common_site_config (common_site_config_json rt w)
                      (common_site_config_data self (db_host self) (db_port self)))) None;
          change_head "Starting bench services";
          ECall (StartService Primary (Some force)) None;
          print "Started bench services."] ++ rest.
Proof.
  destruct (common_site_config_exists w) eqn:C.
  2: { left. erewrite events_of_unchanged by (apply start_unconfigured; exact C).
       reflexivity. }
  unfold events_of, start, sync_bench_common_site_config, common_bench_config_set,
    common_site_config_data.
  repeat mstep. rewrite C. repeat first [ mstep | progress simpl negb ].
  mcall; [left; simpl snd; logs; rewrite skipn_length_app; reflexivity |].
  repeat mstep.
  mcall; [left; simpl snd; logs; rewrite skipn_length_app; reflexivity |].
  right. rewrite bind_emit.
  match goal with |- context [snd (?m ?w1)] =>
    assert (Rest : emits after_rewrite_event m)
      by (unfold exists_;
          repeat first
            [ apply frappe_logs_till_start_emits_after_rewrite
            | apply sync_workers_compose_emits_after_rewrite
            | apply emits_bind; [| intros ? ]
            | apply emits_pass
            | apply emits_gets
            | apply emits_emit; reflexivity
            | apply emits_call; intros ?; reflexivity
            | match goal with |- emits _ (if ?b then _ else _) => destruct b end ]);
    destruct (Rest w1) as (evs & L & _)
  end.
  rewrite L. exists evs. logs. rewrite skipn_length_app. reflexivity.
Qed.

(** ** Waiting for the frappe log *)


(** ** Database *)

(** X5. Whatever the runtime does: when the connection information of the
    bench has no "name", [remove_database_and_user] returns after its
    heading without a call; when it has a "name" but no "user", it raises
    [KeyError] for "user" before anything is removed. *)
Theorem remove_database_and_user_missing_keys (w : World) :
  match dict_get "name" (bench_db_info w), dict_get "user" (bench_db_info w) with
  | None, _ =>
      remove_database_and_user rt w
      = (Ok tt, record (change_head "Removing bench db and db users") w)
  | Some _, None =>
      remove_database_and_user rt w
      = (Raise (KeyError "user"), record (change_head "Removing bench db and db users") w)
  | Some _, Some _ => True
  end.
Proof.
  unfold remove_database_and_user, dict_has, dict_index.
  rewrite bind_gets, bind_emit.
  destruct (dict_get "name" (bench_db_info w)) as [n |] eqn:N.
  - destruct (dict_get "user" (bench_db_info w)) as [u |] eqn:U; [exact I |].
    repeat mstep. reflexivity.
  - reflexivity.
Qed.

(** X4. When the removal calls return and the connection information has
    "name" and "user": the database is removed exactly when it exists and
    the user, on all hosts, exactly when it exists, with a warning for each
    that is absent; afterwards neither exists, and a second run removes
    nothing and only warns. *)
Theorem remove_database_and_user_by_existence (w : World) (db_name db_user : string) :
  (forall n w', fault rt (RemoveDb n) w' = None) ->
  (forall u w', fault rt (RemoveUser u true) w' = None) ->
  dict_get "name" (bench_db_info w) = Some db_name ->
  dict_get "user" (bench_db_info w) = Some db_user ->
  exists w',
    remove_database_and_user rt w = (Ok tt, w')
    /\ events_of (remove_database_and_user rt) w
       = change_head "Removing bench db and db users"
         :: database_events db_name db_user (db_exists w) (db_user_exists w)
    /\ db_exists w' = false
    /\ db_user_exists w' = false
    /\ events_of (remove_database_and_user rt) w'
       = change_head "Removing bench db and db users"
         :: database_events db_name db_user false false
    /\ count is_removal (events_of (remove_database_and_user rt) w') = 0.
Proof.
  intros ND NU N U.
  assert (Run : forall v, dict_get "name" (bench_db_info v) = Some db_name ->
                  dict_get "user" (bench_db_info v) = Some db_user ->
                  exists v',
                    remove_database_and_user rt v = (Ok tt, v')
                    /\ log v' = log v ++ change_head "Removing bench db and db users"
                                 :: database_events db_name db_user (db_exists v)
                                      (db_user_exists v)
                    /\ db_exists v' = false /\ db_user_exists v' = false
                    /\ bench_db_info v' = bench_db_info v).
  { intros v Nv Uv. unfold remove_database_and_user, dict_has, dict_index, database_events.
    rewrite bind_gets, bind_emit. rewrite Nv, Uv.
    destruct (db_exists v) eqn:D, (db_user_exists v) eqn:X.
    all: repeat first [ mstep | rewrite bind_call_ok by apply ND
                      | rewrite bind_call_ok by apply NU
                      | progress fields | rewrite D | rewrite X | progress cbn [negb] ].
    all: eexists; split; [reflexivity |].
    all: split; [logs; reflexivity |].
    all: fields; repeat split; assumption. }
  destruct (Run w N U) as (w' & E & L & D & X & B).
  rewrite <- B in N, U.
  destruct (Run w' N U) as (w'' & E' & L' & _).
  rewrite D, X in L'.
  assert (V' : events_of (remove_database_and_user rt) w'
               = change_head "Removing bench db and db users"
                 :: database_events db_name db_user false false)
    by (eapply events_of_intro; [exact E' | exact L']).
  exists w'. split; [exact E |].
  split; [eapply events_of_intro; [exact E | exact L] |].
  split; [exact D |]. split; [exact X |]. split; [exact V' |].
  rewrite V'. reflexivity.
Qed.

(** ** Removal *)

(** X6. A certificate that cannot be removed does not stop the removal of
    a bench: when the prompt returns an answer other than "no" and removing
    the certificate raises an exception that derives from [Exception], the
    exception becomes a warning and the removal goes on with the database,
    the containers and the directory. *)
Theorem remove_bench_goes_on_without_certificate (default_choice : bool) (w : World)
    (e : Exn) :
  let ask := PromptAsk (thinking_face ++ " Do you want to remove [bold][green]'" ++ name self
                        ++ "'[/bold][/green]")%string
               ["yes"; "no"] (if default_choice then Some "no" else None) in
  let w1 := record (rich_start "Removing bench") (record (ECall ask None) w) in
  fault rt ask w = None ->
  String.eqb (prompt_answer rt w) "no" = false ->
  fault rt RemoveCertificate w1 = Some e ->
  is_Exception rt e = true ->
  remove_bench self rt default_choice w
  = bind (remove_database_and_user rt)
      (fun _ => bind (remove_containers_and_dirs self rt) (fun _ => ret true))
      (record (warning (str_exn rt e)) (record (ECall RemoveCertificate (Some e)) w1)).
Proof.
  intros ask w1 F A C X.
  unfold remove_bench, call_with. fold ask.
  unfold bind at 1. rewrite call_ok by exact F. rewrite A.
  rewrite bind_emit. fold w1.
  unfold bind at 1, try_except, remove_certificate.
  erewrite bind_call_raise by exact C. rewrite X. reflexivity.
Qed.

(** X8. When creating the bench directory raises an exception that derives
    from [Exception] and the directory does not exist, [create] reports the
    error and returns normally: nothing else is called and no removal is
    offered. *)
Theorem create_fails_before_directory (is_template_bench : bool) (w : World) (e : Exn) :
  path_exists w = false ->
  fault rt (Mkdir (path self)) (record (change_head "Creating Bench Directory") w) = Some e ->
  is_Exception rt e = true ->
  fst (create self rt is_template_bench w) = Ok tt
  /\ events_of (create self rt is_template_bench) w
     = [change_head "Creating Bench Directory";
        ECall (Mkdir (path self)) (Some e);
        rich_stop;
        error ("[red][bold]Error Occured : " ++ str_exn rt e ++ "[/bold][/red]")%string;
        logger_error (name self ++ ": NOT WORKING" ++ nl ++ " Exception: "
                      ++ format_exception rt e)%string;
        error ("There has been some error creating/starting the bench." ++ nl
               ++ ":mag: Please check the logs at " ++ log_path self)%string].
Proof.
  intros P F X.
  assert (B : bind (create_until_checked self rt is_template_bench)
                (fun _ => create_after_checked self rt) w
              = (Raise e, record (ECall (Mkdir (path self)) (Some e))
                            (record (change_head "Creating Bench Directory") w))).
  { unfold create_until_checked. repeat mstep.
    erewrite bind_call_raise by exact F. reflexivity. }
  evar (W : World).
  assert (E : create self rt is_template_bench w = (Ok tt, W)).
  { unfold create. erewrite try_except_caught; [| exact B | exact X].
    unfold create_failed. repeat first [ mstep | progress fields | rewrite P ].
    subst W. reflexivity. }
  split; [rewrite E; reflexivity |].
  eapply events_of_intro; [exact E |]. subst W. logs. reflexivity.
Qed.

(** X9. After a failed creation that left the bench directory behind, the
    removal is offered without a default choice; when the answer is "no"
    the bench information is shown and the bench is left as it is. *)
Theorem create_failed_declined (w : World) (e : Exn) (db_name db_password : string) :
  let ask := PromptAsk (thinking_face ++ " Do you want to remove [bold][green]'" ++ name self
                        ++ "'[/bold][/green]")%string ["yes"; "no"] None in
  let reported :=
    [rich_stop;
     error ("[red][bold]Error Occured : " ++ str_exn rt e ++ "[/bold][/red]")%string;
     logger_error (name self ++ ": NOT WORKING" ++ nl ++ " Exception: "
                   ++ format_exception rt e)%string;
     error ("There has been some error creating/starting the bench." ++ nl
            ++ ":mag: Please check the logs at " ++ log_path self)%string] in
  path_exists w = true ->
  (forall w', fault rt ask w' = None) ->
  (forall w', prompt_answer rt w' = "no") ->
  (forall w', fault rt InfoTable w' = None) ->
  dict_get "name" (bench_db_info w) = Some db_name ->
  dict_get "password" (bench_db_info w) = Some db_password ->
  fst (create_failed self rt e w) = Ok tt
  /\ events_of (create_failed self rt e) w
     = reported ++ [ECall ask None; change_head "Getting bench info"; ECall InfoTable None]
  /\ state_of (snd (create_failed self rt e w)) = state_of w.
Proof.
  intros ask reported P FA A FI N PW. subst reported.
  evar (W : World).
  assert (E : create_failed self rt e w = (Ok tt, W)).
  { unfold create_failed. repeat first [ mstep | progress fields | rewrite P ].
    unfold remove_bench, call_with. fold ask.
    rewrite bind_bind. unfold bind at 1. rewrite call_ok by apply FA. rewrite A.
    unfold info, dict_index.
    repeat first [ mstep | progress cbn [negb] | progress simpl String.eqb
                 | progress fields | rewrite N | rewrite PW ].
    rewrite call_ok by apply FI. subst W. reflexivity. }
  split; [rewrite E; reflexivity |].
  split; [eapply events_of_intro; [exact E |]; subst W; logs; reflexivity |].
  rewrite E. subst W. reflexivity.
Qed.

Lemma remove_database_and_user_run (v : World) (db_name db_user : string) :
  (forall n w', fault rt (RemoveDb n) w' = None) ->
  (forall u w', fault rt (RemoveUser u true) w' = None) ->
  dict_get "name" (bench_db_info v) = Some db_name ->
  dict_get "user" (bench_db_info v) = Some db_user ->
  exists v',
    remove_database_and_user rt v = (Ok tt, v')
    /\ log v' = log v ++ change_head "Removing bench db and db users"
                 :: database_events db_name db_user (db_exists v) (db_user_exists v)
    /\ db_exists v' = false /\ db_user_exists v' = false
    /\ state_of (set_db_exists (db_exists v) (set_db_user_exists (db_user_exists v) v'))
       = state_of v.
Proof.
  intros ND NU Nv Uv.
  unfold remove_database_and_user, dict_has, dict_index, database_events.
  rewrite bind_gets, bind_emit. rewrite Nv, Uv.
  destruct (db_exists v) eqn:D, (db_user_exists v) eqn:X.
  all: repeat first [ mstep | rewrite bind_call_ok by apply ND
                    | rewrite bind_call_ok by apply NU
                    | progress fields | rewrite D | rewrite X | progress cbn [negb] ].
  all: eexists; split; [reflexivity |].
  all: split; [logs; reflexivity |].
  all: split; [fields; first [reflexivity | assumption] |].
  all: split; [fields; first [reflexivity | assumption] |].
  all: clear Nv Uv; destruct v; simpl in D, X; subst; reflexivity.
Qed.

Lemma remove_containers_run (v : World) :
  (forall g w', fault rt (DownService g true true) w' = None) ->
  exists v',
    remove_containers rt v = (Ok tt, v')
    /\ log v' = log v
         ++ teardown_events (pg_get Primary (compose_file_exists v)) Primary
              "Removing bench containers." "Removed bench containers."
              "Bench compose file not found. Skipping containers removal."
         ++ teardown_events (pg_get Workers (compose_file_exists v)) Workers
              "Removing bench workers containers." "Removed bench workers containers."
              "Bench workers compose file not found. Skipping containers removal."
         ++ teardown_events (pg_get AdminTools (compose_file_exists v)) AdminTools
              "Removing bench admin tools containers." "Removed bench admin tools containers."
              "Bench admin tools compose file not found. Skipping containers removal."
    /\ (forall g, pg_get g (compose_file_exists v) = true ->
          pg_get g (compose_running v') = false)
    /\ state_of (set_compose_running (compose_running v) v') = state_of v.
Proof.
  intros ND. unfold remove_containers, exists_, teardown_events.
  destruct (pg_get Primary (compose_file_exists v)) eqn:P,
           (pg_get Workers (compose_file_exists v)) eqn:Wk,
           (pg_get AdminTools (compose_file_exists v)) eqn:Ad.
  all: simpl in P, Wk, Ad.
  all: repeat first [ mstep | rewrite bind_call_ok by apply ND
                    | progress simpl (compose_file_exists _)
                    | progress simpl (pg_get _ _)
                    | rewrite P | rewrite Wk | rewrite Ad ].
  all: eexists; split; [reflexivity |].
  all: split; [logs; reflexivity |].
  all: split; [intros g G; destruct g; simpl in *; congruence |].
  all: reflexivity.
Qed.

Lemma remove_dirs_run (v : World) :
  (forall w', fault rt (Rmtree (path self)) w' = None) ->
  remove_dirs self rt v
  = (Ok tt,
     record (print "Removed all bench files and directories.")
       (effect (Rmtree (path self))
          (record (ECall (Rmtree (path self)) None)
             (record (change_head "Removing all bench files and directories.") v)))).
Proof.
  intros NR. unfold remove_dirs. rewrite bind_emit.
  erewrite bind_Ok by (apply try_except_Ok; apply call_ok; apply NR).
  reflexivity.
Qed.

(** X7. A confirmed removal with calls that return, for a bench whose
    connection information has "name" and "user": the certificate is
    removed and the configuration saved first, then database and user, then
    the containers of each group whose descriptor exists, then the
    directory.  [remove_bench] returns [True]; afterwards there is no
    certificate, no database, no user and no directory, the stored SSL
    descriptor is none for this bench, and no group with a descriptor is
    running. *)
Theorem remove_bench_confirmed (default_choice : bool) (w : World)
    (db_name db_user : string) :
  let ask := PromptAsk (thinking_face ++ " Do you want to remove [bold][green]'" ++ name self
                        ++ "'[/bold][/green]")%string
               ["yes"; "no"] (if default_choice then Some "no" else None) in
  let present g := pg_get g (compose_file_exists w) in
  (forall a w', fault rt a w' = None) ->
  String.eqb (prompt_answer rt w) "no" = false ->
  dict_get "name" (bench_db_info w) = Some db_name ->
  dict_get "user" (bench_db_info w) = Some db_user ->
  exists w',
    remove_bench self rt default_choice w = (Ok true, w')
    /\ events_of (remove_bench self rt default_choice) w
       = [ECall ask None;
          rich_start "Removing bench";
          ECall RemoveCertificate None;
          change_head "Saving bench config changes";
          ECall ExportToToml None;
          print "Saved bench config.";
          change_head "Removing bench db and db users"]
         ++ database_events db_name db_user (db_exists w) (db_user_exists w)
         ++ teardown_events (present Primary) Primary
              "Removing bench containers." "Removed bench containers."
              "Bench compose file not found. Skipping containers removal."
         ++ teardown_events (present Workers) Workers
              "Removing bench workers containers." "Removed bench workers containers."
              "Bench workers compose file not found. Skipping containers removal."
         ++ teardown_events (present AdminTools) AdminTools
              "Removing bench admin tools containers." "Removed bench admin tools containers."
              "Bench admin tools compose file not found. Skipping containers removal."
         ++ [change_head "Removing all bench files and directories.";
             ECall (Rmtree (path self)) None;
             print "Removed all bench files and directories."]
    /\ certificate_issued w' = false
    /\ ssl (bench_config w') = mkSSLCertificate (name self) SUPPORTED_SSL_TYPES.none
    /\ db_exists w' = false
    /\ db_user_exists w' = false
    /\ path_exists w' = false
    /\ (forall g, present g = true -> pg_get g (compose_running w') = false).
Proof.
  intros ask present NF A N U. subst present.
  set (w0 := record (print "Saved bench config.")
               (effect ExportToToml
                  (record (ECall ExportToToml None)
                     (record (change_head "Saving bench config changes")
                        (set_bench_config
                           (with_ssl (mkSSLCertificate (name self) SUPPORTED_SSL_TYPES.none)
                              (bench_config w))
                           (effect RemoveCertificate
                              (record (ECall RemoveCertificate None)
                                 (record (rich_start "Removing bench")
                                    (record (ECall ask None) w))))))))).
  assert (E0 : remove_bench self rt default_choice w
               = bind (remove_database_and_user rt)
                   (fun _ => bind (remove_containers_and_dirs self rt) (fun _ => ret true)) w0).
  { unfold remove_bench, call_with. fold ask.
    unfold bind at 1. rewrite call_ok by apply NF. rewrite A.
    rewrite bind_emit.
    erewrite bind_Ok;
      [reflexivity
      | apply try_except_Ok; unfold remove_certificate, save_bench_config;
        mrun NF; reflexivity]. }
  destruct (remove_database_and_user_run w0 (fun n w' => NF _ w') (fun u w' => NF _ w') N U)
    as (v1 & E1 & L1 & D1 & X1 & Fr1).
  destruct (remove_containers_run v1 (fun g w' => NF _ w')) as (v2 & E2 & L2 & R2 & Fr2).
  pose proof (remove_dirs_run v2 (fun w' => NF _ w')) as E3.
  assert (C1 : compose_file_exists v1 = compose_file_exists w)
    by (apply (f_equal compose_file_exists) in Fr1; exact Fr1).
  eexists. split.
  { rewrite E0. erewrite bind_Ok by exact E1.
    unfold remove_containers_and_dirs. rewrite bind_bind.
    erewrite bind_Ok by exact E2. erewrite bind_Ok by exact E3. reflexivity. }
  split.
  { eapply events_of_intro.
    - rewrite E0. erewrite bind_Ok by exact E1.
      unfold remove_containers_and_dirs. rewrite bind_bind.
      erewrite bind_Ok by exact E2. erewrite bind_Ok by exact E3. reflexivity.
    - logs. rewrite L2, L1, C1. subst w0. logs. reflexivity. }
  split; [apply (f_equal certificate_issued) in Fr2; apply (f_equal certificate_issued) in Fr1;
          simpl in Fr1, Fr2 |- *; rewrite Fr2, Fr1; reflexivity |].
  split; [apply (f_equal bench_config) in Fr2; apply (f_equal bench_config) in Fr1;
          simpl in Fr1, Fr2 |- *; rewrite Fr2, Fr1; reflexivity |].
  split; [apply (f_equal db_exists) in Fr2; simpl in Fr2 |- *; rewrite Fr2; exact D1 |].
  split; [apply (f_equal db_user_exists) in Fr2; simpl in Fr2 |- *; rewrite Fr2; exact X1 |].
  split; [reflexivity |].
  intros g G. rewrite <- C1 in G. simpl. apply R2. exact G.
Qed.

(** ** Creation *)

Lemma probe_loop_emits (p : Event -> bool) (rounds : nat) (command : string) (interval : Z) :
  (forall a o, is_exec (ECall a o) = true -> p (ECall a o) = true) ->
  (forall a o, is_sleep (ECall a o) = true -> p (ECall a o) = true) ->
  emits p (probe_loop rt rounds command interval).
Proof.
  intros X S. induction rounds as [| rounds IH]; simpl.
  - apply emits_ret.
  - apply emits_bind.
    + unfold probe_once. apply emits_try_except.
      * apply emits_bind; [| intros ?; apply emits_ret].
        apply emits_call_with. intros o. apply X. reflexivity.
      * intros e. apply emits_bind; [| intros ?; apply emits_ret].
        apply emits_call. intros o. apply S. reflexivity.
    + intros found. destruct found; [apply emits_ret | exact IH].
Qed.

(** X10. Whatever the runtime does and whether or not the bench is a
    template, the part of [create] that ends with the status check never
    sets, issues or removes a certificate, never generates, enables or
    disables the admin tools, never saves the configuration, never shows
    the information table and never prompts. *)
Theorem create_until_checked_keeps_to_the_bench (is_template_bench : bool) (w : World) :
  forallb before_check_event (events_of (create_until_checked self rt is_template_bench) w)
  = true.
Proof.
  apply emits_log.
  unfold create_until_checked, generate_compose, create_compose_dirs,
    remove_attached_secrets, richprint_exit, start, sync_bench_common_site_config,
    common_bench_config_set, frappe_logs_till_start, sync_workers_compose,
    regenerate_workers_supervisor_conf, backup_workers_supervisor_conf,
    is_bench_created, check_command, running, exists_.
  repeat first
    [ apply probe_loop_emits; intros [] ? H; first [reflexivity | discriminate H]
    | apply emits_bind; [| intros ? ]
    | apply emits_ret
    | apply emits_pass
    | apply emits_raise
    | apply emits_gets
    | apply emits_emit; reflexivity
    | apply emits_call; intros ?; reflexivity
    | apply emits_call_with; intros ?; reflexivity
    | apply emits_modify; intros ?; reflexivity
    | apply emits_try_except; [| intros ? ]
    | apply emits_for_each; intros ?
    | apply frappe_logs_loop_emits; intros ?; reflexivity
    | match goal with
      | |- emits _ (if ?b then _ else _) => destruct b
      | |- emits _ (match ?x with _ => _ end) => destruct x
      | |- emits _ (let '(_, _) := ?x in _) => destruct x
      end ].
Qed.

(** ** The compose descriptor *)

Lemma orderly_ret (p : Event -> bool) {A : Type} (a : A) : orderly p (ret a).
Proof.
  intros w. exists []. simpl. rewrite app_nil_r. repeat split.
Qed.

Lemma orderly_call (p : Event -> bool) (a : Action) :
  (forall o, p (ECall a o) = true) -> orderly p (call rt a).
Proof.
  intros H w. exists [ECall a (fault rt a w)]. rewrite log_call. simpl. rewrite H.
  repeat split. intros u. unfold call. destruct (fault rt a w); [discriminate | reflexivity].
Qed.

Lemma orderly_bind (p : Event -> bool) {A B : Type} (m : M A) (k : A -> M B) :
  orderly p m -> (forall a, orderly p (k a)) -> orderly p (bind m k).
Proof.
  intros Hm Hk w. destruct (Hm w) as (e1 & L1 & F1 & R1). unfold bind.
  destruct (m w) as [[a | e] w1]; simpl in L1, R1.
  - destruct (Hk a w1) as (e2 & L2 & F2 & R2). exists (e1 ++ e2).
    rewrite L2, L1, app_assoc, forallb_app, F1, F2. repeat split.
    intros b Hb. rewrite forallb_app, (R1 a eq_refl), (R2 b Hb). reflexivity.
  - exists e1. repeat split; [exact L1 | exact F1 | discriminate].
Qed.

Lemma orderly_for_each (p : Event -> bool) {A : Type} (xs : list A) (body : A -> M unit) :
  (forall x, orderly p (body x)) -> orderly p (for_each xs body).
Proof.
  intros H. induction xs as [| x xs IH]; simpl.
  - apply orderly_ret.
  - apply orderly_bind; [apply H | intros _; exact IH].
Qed.

Lemma writes_last_bind {A B : Type} (m : M A) (k : A -> M B) :
  orderly (fun e => negb (is_descriptor_write e)) m ->
  (forall a, writes_last (k a)) ->
  writes_last (bind m k).
Proof.
  intros Hm Hk w. destruct (Hm w) as (e1 & L1 & F1 & R1).
  assert (Z1 : count is_descriptor_write e1 = 0).
  { apply forallb_count_zero with (p := fun e => negb (is_descriptor_write e)); [| exact F1].
    intros e. destruct (is_descriptor_write e); [discriminate | reflexivity]. }
  unfold bind. destruct (m w) as [[a | e] w1]; simpl in L1, R1.
  - destruct (Hk a w1) as (before & tail & L2 & Z2 & T).
    exists (e1 ++ before), tail.
    split; [rewrite L2, L1, <- !app_assoc; reflexivity |].
    split; [unfold count in *; rewrite filter_app, length_app, Z1, Z2; reflexivity |].
    destruct T as [T | (o & T & R)]; [left; exact T | right].
    exists o. split; [exact T |]. rewrite forallb_app, (R1 a eq_refl), R. reflexivity.
  - exists e1, []. rewrite app_nil_r. split; [exact L1 |]. split; [exact Z1 | left; reflexivity].
Qed.

(** X11. Whatever the runtime does, [generate_compose] writes the primary
    descriptor at most once and as the last thing it does, and only when
    every call that sets a part of it has returned. *)
Theorem generate_compose_writes_last (inputs : ComposeInputs) :
  writes_last (generate_compose self rt inputs).
Proof.
  unfold generate_compose.
  repeat (apply writes_last_bind;
          [ repeat first
              [ apply orderly_for_each; intros [? [? ?]]
              | apply orderly_call; intros ?; reflexivity
              | apply orderly_ret
              | match goal with
                | |- orderly _ (if ?b then _ else _) => destruct b
                | |- orderly _ (match ?x with _ => _ end) => destruct x
                end ]
          | intros _ ]).
  intros w. exists [], [ECall WriteToFile (fault rt WriteToFile w)].
  rewrite log_call. repeat split. right. exists (fault rt WriteToFile w). repeat split.
Qed.

(** ** Worker configuration, the other way *)

(** X12. The rollback is not carried on after a failure: when the restore
    of one backup raises, the restores before it having returned,
    [backup_restore_workers_supervisor] ends with that exception, and the
    backups that come after it in the list are not restored. *)
Theorem backup_restore_stops_at_first_failure (before rest : list string) (failed : string)
    (e : Exn) (w : World) :
  (forall p w', In p before -> fault rt (RestoreBackup p true) w' = None) ->
  (forall w', fault rt (RestoreBackup failed true) w' = Some e) ->
  fst (backup_restore_workers_supervisor rt (before ++ failed :: rest) w) = Raise e
  /\ events_of (backup_restore_workers_supervisor rt (before ++ failed :: rest)) w
     = print "Rolling back to previous workers configuration."
       :: map (fun p => ECall (RestoreBackup p true) None) before
       ++ [ECall (RestoreBackup failed true) (Some e)].
Proof.
  intros NR F.
  assert (Loop : forall l w0,
            (forall p w', In p l -> fault rt (RestoreBackup p true) w' = None) ->
            exists w',
              for_each (l ++ failed :: rest) (fun backup => call rt (RestoreBackup backup true)) w0
              = (Raise e, w')
              /\ log w' = log w0 ++ map (fun p => ECall (RestoreBackup p true) None) l
                          ++ [ECall (RestoreBackup failed true) (Some e)]).
  { induction l as [| p l IH]; intros w0 N.
    - eexists. split.
      + simpl. erewrite bind_call_raise by apply F. reflexivity.
      + logs. reflexivity.
    - destruct (IH (effect (RestoreBackup p true) (record (ECall (RestoreBackup p true) None) w0)))
        as (w' & E & L); [intros q w' I; apply N; right; exact I |].
      exists w'. split.
      + simpl. rewrite bind_call_ok by (apply N; left; reflexivity). exact E.
      + rewrite L. logs. reflexivity. }
  destruct (Loop before (record (print "Rolling back to previous workers configuration.") w) NR)
    as (w' & E & L).
  assert (R : backup_restore_workers_supervisor rt (before ++ failed :: rest) w = (Raise e, w')).
  { unfold backup_restore_workers_supervisor. rewrite bind_emit. exact E. }
  split; [rewrite R; reflexivity |].
  eapply events_of_intro; [exact R |]. rewrite L. logs. reflexivity.
Qed.

(** X13. When the regeneration returns and the comparison reports a
    change, [sync_workers_compose] generates the worker descriptor and then
    starts the worker group with the given flag, after which the worker
    descriptor exists and the worker group is up; when the generation
    raises, the exception goes up and the group is not started. *)
Theorem sync_workers_compose_changed (force_recreate : bool) (w w1 : World) (r : bool) :
  regenerate_workers_supervisor_conf self rt w = (Ok r, w1) ->
  is_expected_worker_same_as_template rt w1 = false ->
  match fault rt WorkersGenerateCompose w1 with
  | Some e =>
      sync_workers_compose self rt force_recreate w
      = (Raise e, record (ECall WorkersGenerateCompose (Some e)) w1)
  | None =>
      (forall w', fault rt (StartService Workers (Some force_recreate)) w' = None) ->
      exists w',
        sync_workers_compose self rt force_recreate w = (Ok tt, w')
        /\ log w' = log w1 ++ [ECall WorkersGenerateCompose None;
                               ECall (StartService Workers (Some force_recreate)) None]
        /\ pg_get Workers (compose_file_exists w') = true
        /\ pg_get Workers (compose_running w') = true
  end.
Proof.
  intros E S. unfold sync_workers_compose.
  erewrite bind_Ok by exact E. rewrite bind_gets, S.
  destruct (fault rt WorkersGenerateCompose w1) as [e |] eqn:F.
  - erewrite bind_call_raise by exact F. reflexivity.
  - intros NS. rewrite bind_call_ok by exact F. rewrite call_ok by apply NS.
    eexists. split; [reflexivity |].
    split; [logs; reflexivity |]. split; reflexivity.
Qed.

(** ** Readiness, the other outcomes *)

(** X14. When the first attempt of the probe returns and one of its
    output lines contains "HTTP/1.1 200 OK", [is_bench_created] returns
    [True] after that one attempt, whatever the budget of at least one: no
    delay and no second attempt. *)
Theorem is_bench_created_first_answer (retry interval : Z) (w : World) (command : string) :
  (1 <= retry)%Z ->
  check_command self retry w = (Ok command, w) ->
  fault rt (ComposeExec "frappe" command None None false) w = None ->
  existsb (contains "HTTP/1.1 200 OK") (exec_stdout rt command w) = true ->
  is_bench_created self rt retry interval w
  = (Ok true, record (ECall (ComposeExec "frappe" command None None false) None) w)
  /\ events_of (is_bench_created self rt retry interval) w
     = [ECall (ComposeExec "frappe" command None None false) None].
Proof.
  intros R C F H.
  assert (E : is_bench_created self rt retry interval w
              = (Ok true, record (ECall (ComposeExec "frappe" command None None false) None) w)).
  { unfold is_bench_created. erewrite bind_Ok by exact C.
    destruct (Z.to_nat retry) as [| rounds] eqn:N; [lia |].
    simpl probe_loop. unfold probe_once, try_except, call_with.
    unfold bind. rewrite call_ok by exact F. rewrite H. reflexivity. }
  split; [exact E |]. eapply events_of_intro; [exact E | reflexivity].
Qed.

Lemma probe_loop_unanswered (rounds : nat) (command : string) (interval : Z) (w : World) :
  (forall w', fault rt (ComposeExec "frappe" command None None false) w' = None) ->
  (forall w', existsb (contains "HTTP/1.1 200 OK") (exec_stdout rt command w') = false) ->
  exists w',
    probe_loop rt rounds command interval w = (Ok false, w')
    /\ log w' = log w ++ repeat (ECall (ComposeExec "frappe" command None None false) None) rounds
    /\ state_of w' = state_of w.
Proof.
  intros F H. revert w. induction rounds as [| rounds IH]; intros w.
  - exists w. simpl. rewrite app_nil_r. repeat split.
  - destruct (IH (record (ECall (ComposeExec "frappe" command None None false) None) w))
      as (w' & E & L & S).
    exists w'. split.
    + simpl probe_loop. unfold probe_once, try_except, call_with.
      unfold bind at 1. unfold bind at 1. rewrite call_ok by apply F. rewrite H.
      exact E.
    + split; [rewrite L; logs; reflexivity | rewrite S; reflexivity].
Qed.

(** X15. When every attempt of the probe returns but no output line
    contains "HTTP/1.1 200 OK", [is_bench_created] makes all its attempts
    one right after the other, without a single delay, and returns
    [False]. *)
Theorem is_bench_created_unanswered (retry interval : Z) (w : World) (command : string) :
  check_command self retry w = (Ok command, w) ->
  (forall w', fault rt (ComposeExec "frappe" command None None false) w' = None) ->
  (forall w', existsb (contains "HTTP/1.1 200 OK") (exec_stdout rt command w') = false) ->
  fst (is_bench_created self rt retry interval w) = Ok false
  /\ events_of (is_bench_created self rt retry interval) w
     = repeat (ECall (ComposeExec "frappe" command None None false) None) (Z.to_nat retry)
  /\ count is_sleep (events_of (is_bench_created self rt retry interval) w) = 0.
Proof.
  intros C F H.
  destruct (probe_loop_unanswered (Z.to_nat retry) command interval w F H) as (w' & E & L & _).
  assert (E' : is_bench_created self rt retry interval w = (Ok false, w'))
    by (unfold is_bench_created; erewrite bind_Ok by exact C; exact E).
  assert (V : events_of (is_bench_created self rt retry interval) w
              = repeat (ECall (ComposeExec "frappe" command None None false) None)
                  (Z.to_nat retry))
    by (eapply events_of_intro; [exact E' | exact L]).
  split; [rewrite E'; reflexivity |]. split; [exact V |].
  rewrite V. unfold count. clear. induction (Z.to_nat retry) as [| n IH]; [reflexivity | exact IH].
Qed.

(** ** Stop *)

(** X18. When the stop calls return, [stop] stops the primary group
    without looking for its descriptor, then the worker group and the
    admin-tools group, each exactly when its descriptor exists; the stop of
    the workers is announced and reported in the words of a start. *)
Theorem stop_by_descriptor (w : World) :
  (forall g w', fault rt (StopService g None) w' = None) ->
  fst (stop rt w) = Ok tt
  /\ events_of (stop rt) w
     = [change_head "Stopping bench services";
        ECall (StopService Primary None) None;
        print "Stopped bench services."]
       ++ stop_events (pg_get Workers (compose_file_exists w)) Workers
            "Starting bench workers services" "Started bench workers services"
       ++ stop_events (pg_get AdminTools (compose_file_exists w)) AdminTools
            "Stopped bench admin tools services" "Stopped bench admin tools services.".
Proof.
  intros NS.
  assert (E : exists w', stop rt w = (Ok tt, w')
              /\ log w' = log w ++
                  [change_head "Stopping bench services";
                   ECall (StopService Primary None) None;
                   print "Stopped bench services."]
                  ++ stop_events (pg_get Workers (compose_file_exists w)) Workers
                       "Starting bench workers services" "Started bench workers services"
                  ++ stop_events (pg_get AdminTools (compose_file_exists w)) AdminTools
                       "Stopped bench admin tools services"
                       "Stopped bench admin tools services.").
  { unfold stop, exists_, stop_events.
    destruct (pg_get Workers (compose_file_exists w)) eqn:Wk,
             (pg_get AdminTools (compose_file_exists w)) eqn:Ad.
    all: simpl in Wk, Ad.
    all: repeat first [ mstep | rewrite bind_call_ok by apply NS | rewrite call_ok by apply NS
                      | progress simpl (compose_file_exists _)
                      | progress simpl (pg_get _ _)
                      | rewrite Wk | rewrite Ad ].
    all: eexists; split; [reflexivity | logs; reflexivity]. }
  destruct E as (w' & E & L).
  split; [rewrite E; reflexivity | eapply events_of_intro; [exact E | exact L]].
Qed.

(** ** The directory, other failures *)

(** X19. Only [PermissionError] sets off the recovery: when the delete of
    the bench directory raises anything else, that exception goes up as it
    is, nothing more is called and nothing is reported as removed. *)
Theorem remove_dirs_other_errors_go_up (w : World) (e : Exn) :
  let w0 := record (change_head "Removing all bench files and directories.") w in
  fault rt (Rmtree (path self)) w0 = Some e ->
  is_PermissionError e = false ->
  remove_dirs self rt w = (Raise e, record (ECall (Rmtree (path self)) (Some e)) w0)
  /\ events_of (remove_dirs self rt) w
     = [change_head "Removing all bench files and directories.";
        ECall (Rmtree (path self)) (Some e)].
Proof.
  intros w0 F P.
  assert (E : remove_dirs self rt w
              = (Raise e, record (ECall (Rmtree (path self)) (Some e)) w0)).
  { unfold remove_dirs. rewrite bind_emit. fold w0.
    erewrite bind_Raise; [reflexivity |].
    eapply try_except_passed; [apply call_raise; exact F | exact P]. }
  split; [exact E |]. eapply events_of_intro; [exact E |]. subst w0. logs. reflexivity.
Qed.

(** ** Which files are generated worker files *)

Lemma string_length_append (p q : string) :
  String.length (p ++ q)%string = String.length p + String.length q.
Proof. induction p as [| c p IH]; simpl; [reflexivity | rewrite IH; reflexivity]. Qed.

Lemma substring_whole (s : string) : substring 0 (String.length s) s = s.
Proof. induction s as [| c s IH]; simpl; [reflexivity | rewrite IH; reflexivity]. Qed.

Lemma substring_after (p q : string) :
  substring (String.length p) (String.length q) (p ++ q)%string = q.
Proof. induction p as [| c p IH]; simpl; [apply substring_whole | exact IH]. Qed.

Lemma substring_split (s : string) (m : nat) :
  m <= String.length s ->
  s = (substring 0 m s ++ substring m (String.length s - m) s)%string.
Proof.
  revert m. induction s as [| c s IH]; intros m H.
  - destruct m; [reflexivity | simpl in H; lia].
  - destruct m as [| m].
    + simpl. rewrite substring_whole. reflexivity.
    + simpl in H. simpl. rewrite <- IH by lia. reflexivity.
Qed.

Lemma endswith_iff (s suffix : string) :
  endswith s suffix = true <-> exists p, s = (p ++ suffix)%string.
Proof.
  unfold endswith. split.
  - intros H. apply andb_prop in H. destruct H as [K E].
    apply Nat.leb_le in K. apply String.eqb_eq in E.
    exists (substring 0 (String.length s - String.length suffix) s).
    assert (Sp := @substring_split s (String.length s - String.length suffix)
                    (Nat.le_sub_l _ _)).
    replace (String.length s - (String.length s - String.length suffix))
      with (String.length suffix) in Sp by lia.
    rewrite E in Sp. exact Sp.
  - intros (p & ->). rewrite string_length_append.
    replace (String.length p + String.length suffix - String.length suffix)
      with (String.length p) by lia.
    rewrite substring_after, String.eqb_refl, andb_true_r.
    apply Nat.leb_le. lia.
Qed.

Lemma generated_siblings_iff (files : list (string * bool)) (p : string) :
  In p (generated_siblings files)
  <-> In (p, true) files /\ exists q, p = (q ++ ".fm.supervisor.conf")%string.
Proof.
  unfold generated_siblings. rewrite in_map_iff. split.
  - intros ([p' f] & <- & I). apply filter_In in I. destruct I as [I C].
    simpl in C. apply andb_prop in C. destruct C as [F S]. simpl in F. subst f.
    split; [exact I | apply endswith_iff; exact S].
  - intros (I & S). exists (p, true). split; [reflexivity |].
    apply filter_In. split; [exact I |]. simpl. apply endswith_iff. exact S.
Qed.

(** X16. When the snapshot calls return, [backup_workers_supervisor_conf]
    snapshots supervisor.conf and, when supervisor.conf exists, the regular
    files of the configuration directory whose absolute path is some text
    followed by ".fm.supervisor.conf", and nothing else: a directory of
    such a name is passed over, and so is every such file when
    supervisor.conf is missing. *)
Theorem backup_workers_supervisor_conf_snapshots (w : World) (p : string) :
  (forall q w', fault rt (Backup q) w' = None) ->
  In (ECall (Backup p) None) (events_of (backup_workers_supervisor_conf self rt) w)
  <-> p = supervisor_config_path self
      \/ (supervisor_config_exists w = true
          /\ In (p, true) (config_dir w)
          /\ exists q, p = (q ++ ".fm.supervisor.conf")%string).
Proof.
  intros NB.
  pose proof (backup_workers_supervisor_conf_run NB w) as E.
  assert (V : events_of (backup_workers_supervisor_conf self rt) w
              = map (fun q => ECall (Backup q) None)
                  (supervisor_config_path self
                   :: (if supervisor_config_exists w
                       then generated_siblings (config_dir w) else []))).
  { eapply events_of_intro; [exact E |]. rewrite snapshot_world_log. reflexivity. }
  rewrite V, in_map_iff. split.
  - intros (q & Q & I). injection Q as ->. destruct I as [I | I]; [left; symmetry; exact I |].
    right. destruct (supervisor_config_exists w); [| contradiction I].
    split; [reflexivity |]. apply generated_siblings_iff. exact I.
  - intros [-> | (X & I)].
    + exists (supervisor_config_path self). split; [reflexivity | left; reflexivity].
    + exists p. split; [reflexivity |]. right. rewrite X.
      apply generated_siblings_iff. exact I.
Qed.

(** ** Merging into common_site_config.json *)





(** ** Information *)

(** X20. Whatever the runtime does, [info] looks up "name" and then
    "password" in the connection information before it shows anything: when
    one is missing it raises [KeyError] for that key right after its
    heading, and only with both does it go on to the table. *)
Theorem info_needs_connection_keys (w : World) :
  info rt w
  = match dict_get "name" (bench_db_info w), dict_get "password" (bench_db_info w) with
    | None, _ => (Raise (KeyError "name"), record (change_head "Getting bench info") w)
    | Some _, None => (Raise (KeyError "password"), record (change_head "Getting bench info") w)
    | Some _, Some _ => call rt InfoTable (record (change_head "Getting bench info") w)
    end.
Proof.
  unfold info, dict_index. rewrite bind_emit, bind_gets. fields.
  destruct (dict_get "name" (bench_db_info w)) as [n |]; [| reflexivity].
  destruct (dict_get "password" (bench_db_info w)) as [pw |]; reflexivity.
Qed.

(** ** Directories *)

(** X21. When its calls return, [create_compose_dirs] copies the workspace
    out of the frappe image, makes the configuration directories and copies
    the nginx configuration out of the nginx image only when the conf
    directory is not there at that moment; an existing one is left alone.
    It returns [True]. *)
Theorem create_compose_dirs_keeps_existing_conf (w : World) :
  (forall a w', fault rt a w' = None) ->
  let nginx_dir := ((path self ++ "/configs") ++ "/nginx")%string in
  let copy_workspace :=
    HostRunCp (frappe_image_yml self) "/workspace" (path self ++ "/workspace")%string in
  let w1 :=
    effect (Mkdir nginx_dir)
      (record (ECall (Mkdir nginx_dir) None)
         (effect (Mkdir (path self ++ "/configs")%string)
            (record (ECall (Mkdir (path self ++ "/configs")%string) None)
               (effect copy_workspace
                  (record (ECall copy_workspace None)
                     (record (change_head "Creating required directories") w)))))) in
  let conf_there := exists_at rt (nginx_dir ++ "/" ++ "conf")%string w1 in
  fst (create_compose_dirs self rt w) = Ok true
  /\ events_of (create_compose_dirs self rt) w
     = [change_head "Creating required directories";
        ECall copy_workspace None;
        ECall (Mkdir (path self ++ "/configs")%string) None;
        ECall (Mkdir nginx_dir) None]
       ++ (if conf_there then []
           else [ECall (HostRunCp (nginx_image_yml self) "/etc/nginx"
                          (nginx_dir ++ "/" ++ "conf")%string) None])
       ++ [ECall (Mkdir (nginx_dir ++ "/" ++ "logs")%string) None;
           ECall (Mkdir (nginx_dir ++ "/" ++ "cache")%string) None;
           ECall (Mkdir (nginx_dir ++ "/" ++ "run")%string) None;
           ECall (Mkdir (nginx_dir ++ "/" ++ "html")%string) None;
           print "Created all required directories."].
Proof.
  intros NF nginx_dir copy_workspace w1 conf_there.
  assert (E : exists w',
             create_compose_dirs self rt w = (Ok true, w')
             /\ log w' = log w ++
                 [change_head "Creating required directories";
                  ECall copy_workspace None;
                  ECall (Mkdir (path self ++ "/configs")%string) None;
                  ECall (Mkdir nginx_dir) None]
                 ++ (if conf_there then []
                     else [ECall (HostRunCp (nginx_image_yml self) "/etc/nginx"
                                    (nginx_dir ++ "/" ++ "conf")%string) None])
                 ++ [ECall (Mkdir (nginx_dir ++ "/" ++ "logs")%string) None;
                     ECall (Mkdir (nginx_dir ++ "/" ++ "cache")%string) None;
                     ECall (Mkdir (nginx_dir ++ "/" ++ "run")%string) None;
                     ECall (Mkdir (nginx_dir ++ "/" ++ "html")%string) None;
                     print "Created all required directories."]).
  { unfold create_compose_dirs. cbn [for_each].
    repeat first [ mstep | rewrite bind_call_ok by apply NF ].
    fold copy_workspace. fold nginx_dir. fold w1. fold conf_there.
    destruct conf_there.
    all: repeat first [ mstep | rewrite bind_call_ok by apply NF | progress cbn [negb] ].
    all: eexists; split; [reflexivity | subst w1 nginx_dir copy_workspace; logs; reflexivity]. }
  destruct E as (w' & E & L).
  split; [rewrite E; reflexivity | eapply events_of_intro; [exact E | exact L]].
Qed.

(** ** Regeneration, other failures *)

(** X22. Only the exception of the container runtime is turned into the
    worker-configuration error: when the snapshots return and the first
    regeneration command raises anything else, that exception goes up as it
    is and no rollback is announced. *)
Theorem regenerate_other_errors_go_up (w : World) (e : Exn) :
  (forall p w', fault rt (Backup p) w' = None) ->
  let snapshot :=
    supervisor_config_path self
    :: (if supervisor_config_exists w then generated_siblings (config_dir w) else []) in
  let w1 := snapshot_world snapshot
              (set_backups [] (record (change_head "Regenerating supervisor.conf.") w)) in
  let first_command :=
    ComposeExec "frappe" bench_setup_supervisor_command
      (Some "frappe") (Some "/workspace/frappe-bench") true in
  fault rt first_command w1 = Some e ->
  is_DockerException e = false ->
  regenerate_workers_supervisor_conf self rt w
  = (Raise e, record (ECall first_command (Some e)) w1).
Proof.
  intros NB snapshot w1 first_command F D.
  unfold regenerate_workers_supervisor_conf. rewrite bind_emit.
  erewrite bind_Ok by (apply backup_workers_supervisor_conf_run; exact NB).
  fields. fold snapshot. fold w1.
  eapply try_except_passed; [| exact D].
  fold first_command. erewrite bind_call_raise by exact F. reflexivity.
Qed.

(** ** Admin tools switched off *)

Lemma bench_config_effect (a : Action) (w : World) : bench_config (effect a w) = bench_config w.
Proof.
  destruct a; simpl; try reflexivity.
  destruct (ssl_type (manager_certificate w)); reflexivity.
Qed.

Lemma bench_config_flag_effect (a : Action) (w : World) :
  admin_tools (bench_config (effect a w)) = admin_tools (bench_config w).
Proof. rewrite bench_config_effect. reflexivity. Qed.

Lemma keeps_ret {B : Type} (f : World -> B) {A : Type} (a : A) : keeps f (ret a).
Proof. intros w. reflexivity. Qed.

Lemma keeps_raise {B : Type} (f : World -> B) {A : Type} (e : Exn) : keeps f (@raise A e).
Proof. intros w. reflexivity. Qed.

Lemma keeps_gets {B : Type} (f : World -> B) {A : Type} (g : World -> A) : keeps f (gets g).
Proof. intros w. reflexivity. Qed.

Lemma keeps_modify {B : Type} (f : World -> B) (g : World -> World) :
  (forall w, f (g w) = f w) -> keeps f (modify g).
Proof. intros H w. apply H. Qed.

Lemma keeps_bind {B : Type} (f : World -> B) {A C : Type} (m : M A) (k : A -> M C) :
  keeps f m -> (forall a, keeps f (k a)) -> keeps f (bind m k).
Proof.
  intros Hm Hk w. specialize (Hm w). unfold bind.
  destruct (m w) as [[a | e] w1]; simpl in Hm |- *; [| exact Hm].
  rewrite (Hk a w1). exact Hm.
Qed.

Lemma keeps_try_except {B : Type} (f : World -> B) {A : Type} (body : M A)
    (catches : Exn -> bool) (handler : Exn -> M A) :
  keeps f body -> (forall e, keeps f (handler e)) -> keeps f (try_except body catches handler).
Proof.
  intros Hb Hh w. specialize (Hb w). unfold try_except.
  destruct (body w) as [[a | e] w1]; simpl in Hb |- *; [exact Hb |].
  destruct (catches e); [rewrite (Hh e w1); exact Hb | exact Hb].
Qed.

Lemma keeps_for_each {B : Type} (f : World -> B) {A : Type} (xs : list A)
    (body : A -> M unit) :
  (forall x, keeps f (body x)) -> keeps f (for_each xs body).
Proof.
  intros H. induction xs as [| x xs IH]; simpl.
  - apply keeps_ret.
  - apply keeps_bind; [apply H | intros _; exact IH].
Qed.

Lemma keeps_emit {B : Type} (f : World -> B) (e : Event) :
  (forall w, f (record e w) = f w) -> keeps f (emit e).
Proof. intros H w. apply H. Qed.

Lemma keeps_call {B : Type} (f : World -> B) (a : Action) :
  (forall e w, f (record e w) = f w) -> (forall w, f (effect a w) = f w) ->
  keeps f (call rt a).
Proof.
  intros R E w. unfold call. destruct (fault rt a w); simpl.
  - apply R.
  - rewrite E. apply R.
Qed.

Lemma keeps_call_with {B : Type} (f : World -> B) {A : Type} (a : Action)
    (answer : World -> A) :
  (forall e w, f (record e w) = f w) -> (forall w, f (effect a w) = f w) ->
  keeps f (call_with rt a answer).
Proof.
  intros R E w. pose proof (keeps_call f a R E w) as H. unfold call_with.
  destruct (call rt a w) as [[u | e] w1]; exact H.
Qed.

Lemma keeps_frappe_logs_loop {B : Type} (f : World -> B) (output : list (string * string)) :
  (forall e w, f (record e w) = f w) -> keeps f (frappe_logs_loop output).
Proof.
  intros R. induction output as [| [source line] output IH].
  - apply keeps_ret.
  - cbn [frappe_logs_loop].
    repeat match goal with
           | |- keeps _ (if ?b then _ else _) => destruct b
           | |- keeps _ (bind (emit _) _) =>
               apply keeps_bind; [apply keeps_emit; apply R | intros _]
           end; try exact IH; apply keeps_ret.
Qed.

(** take a computation apart down to its primitives *)
Ltac keeps_parts :=
  repeat first
    [ apply keeps_bind; [| intros ? ]
    | apply keeps_ret
    | apply keeps_raise
    | apply keeps_gets
    | apply keeps_emit; intros ?; reflexivity
    | apply keeps_call; [intros ? ?; reflexivity | intros ?; apply bench_config_flag_effect]
    | apply keeps_call_with; [intros ? ?; reflexivity | intros ?; apply bench_config_flag_effect]
    | apply keeps_modify; intros ?; reflexivity
    | apply keeps_try_except; [| intros ? ]
    | apply keeps_for_each; intros ?
    | apply keeps_frappe_logs_loop; intros ? ?; reflexivity
    | match goal with
      | |- keeps _ (if ?b then _ else _) => destruct b
      | |- keeps _ (match ?x with _ => _ end) => destruct x
      | |- keeps _ (let '(_, _) := ?x in _) => destruct x
      end ].

Lemma emits_from_emits {B : Type} (f : World -> B) (v : B) (p : Event -> bool)
    {A : Type} (m : M A) :
  emits p m -> emits_from f v p m.
Proof. intros H w _. apply H. Qed.

Lemma emits_from_bind {B : Type} (f : World -> B) (v : B) (p : Event -> bool)
    {A C : Type} (m : M A) (k : A -> M C) :
  emits p m -> keeps f m -> (forall a, emits_from f v p (k a)) ->
  emits_from f v p (bind m k).
Proof.
  intros Hm Km Hk w V. destruct (Hm w) as (e1 & L1 & F1). specialize (Km w).
  unfold bind. destruct (m w) as [[a | e] w1]; simpl in L1, Km.
  - destruct (Hk a w1) as (e2 & L2 & F2); [rewrite Km; exact V |].
    exists (e1 ++ e2). rewrite L2, L1, app_assoc, forallb_app, F1, F2. split; reflexivity.
  - exists e1. split; [exact L1 | exact F1].
Qed.

Lemma emits_from_gets {B : Type} (f : World -> B) (v : B) (p : Event -> bool)
    {C : Type} (k : B -> M C) :
  emits_from f v p (k v) -> emits_from f v p (bind (gets f) k).
Proof.
  intros H w V. unfold bind, gets. rewrite V. apply H. exact V.
Qed.

(** X23. When the configuration has the admin tools switched off, the part
    of [create] that follows the status check neither generates nor
    enables the admin tools and runs no command that restarts the frappe
    server, whatever the runtime does and however that part ends. *)
Theorem create_without_admin_tools (w : World) :
  admin_tools (bench_config w) = false ->
  forallb leaves_admin_tools (events_of (create_after_checked self rt) w) = true.
Proof.
  intros V.
  assert (H : emits_from (fun w => admin_tools (bench_config w)) false leaves_admin_tools
                (create_after_checked self rt)).
  { unfold create_after_checked, remove_attached_secrets, create_certificate,
      save_bench_config, info, dict_index, start, sync_bench_common_site_config,
      common_bench_config_set, frappe_logs_till_start, sync_workers_compose,
      regenerate_workers_supervisor_conf, backup_workers_supervisor_conf,
      running, exists_.
    do 5 (apply emits_from_bind; [emits_parts | keeps_parts | intros _]).
    apply emits_from_gets. cbv beta iota. apply emits_from_emits. emits_parts. }
  destruct (H w V) as (evs & L & F). unfold events_of.
  rewrite L, skipn_length_app. exact F.
Qed.

(** ** Creation on a healthy runtime *)






Section Healthy.

Hypothesis all_calls_return : forall a w', fault rt a w' = None.
Hypothesis probe_answers :
  forall command w',
    existsb (contains "HTTP/1.1 200 OK") (exec_stdout rt command w') = true.

Variable w0 : World.
Variables db_name db_password : string.
Hypothesis has_name : dict_get "name" (bench_db_info w0) = Some db_name.
Hypothesis has_password : dict_get "password" (bench_db_info w0) = Some db_password.














End Healthy.

End BenchProperties.

(** * The properties at work *)

Local Open Scope list_scope.


(** C4 at the shop bench, which holds no certificate: the request for an
    issued certificate goes through and a second one is refused. *)
Lemma update_certificate_table_witness :
  (forall a w', fault calm a w' = None)
  /\ exists w',
       update_certificate shop calm
         (mkSSLCertificate "shop.localhost" SUPPORTED_SSL_TYPES.le) shop_world = (Ok tt, w')
       /\ has_certificate w' = (Ok true, w')
       /\ update_certificate shop calm
            (mkSSLCertificate "shop.localhost" SUPPORTED_SSL_TYPES.le) w'
          = (Raise (BenchSSLCertificateAlreadyIssued "shop.localhost"), w').
Proof.
  split; [intros a w'; reflexivity |].
  destruct (update_certificate_table shop calm
              (mkSSLCertificate "shop.localhost" SUPPORTED_SSL_TYPES.le) shop_world
              (fun a w' => eq_refl))
    as (w' & E & _ & _ & _ & H & A).
  exists w'. split; [exact E |]. split; [exact H |]. apply A. reflexivity.
Defined.

(** C5 at the shop bench when the frappe service never answers: a budget
    of three gives three attempts and three delays. *)
Lemma is_bench_created_exhausts_witness :
  (forall a w', is_plain_exec a = true ->
     exists e, fault unreachable a w' = Some e /\ is_Exception unreachable e = true)
  /\ (forall a w', is_plain_exec a = false -> fault unreachable a w' = None)
  /\ fst (is_bench_created shop unreachable 3 1 shop_world) = Ok false
  /\ count is_exec (events_of (is_bench_created shop unreachable 3 1) shop_world) = 3
  /\ count is_sleep (events_of (is_bench_created shop unreachable 3 1) shop_world) = 3.
Proof.
  assert (P : forall a w', is_plain_exec a = true ->
                exists e, fault unreachable a w' = Some e /\ is_Exception unreachable e = true).
  { intros a w' H. exists DockerException. split; [| reflexivity].
    destruct a; try discriminate H.
    destruct user; [discriminate H |]. destruct workdir; [discriminate H |].
    destruct stream; [discriminate H | reflexivity]. }
  assert (O : forall a w', is_plain_exec a = false -> fault unreachable a w' = None).
  { intros a w' H. destruct a; try reflexivity.
    destruct user; [reflexivity |]. destruct workdir; [reflexivity |].
    destruct stream; [reflexivity | discriminate H]. }
  split; [exact P |]. split; [exact O |].
  destruct (is_bench_created_exhausts shop unreachable P O 3 1 shop_world)
    as ((command & errors & w' & E & _ & _ & C1 & C2 & _) & _).
  rewrite E. split; [reflexivity |]. split; [exact C1 | exact C2].
Defined.

(** C6, the claim as written, at a configuration directory that holds a
    generated worker file while supervisor.conf is missing: the file is a
    regular file, its path ends in the suffix, and no snapshot of it is
    issued. *)
Lemma regenerate_skips_siblings_when_supervisor_conf_is_missing :
  ~ (forall p,
       In (p, true) (config_dir orphaned) ->
       endswith p ".fm.supervisor.conf" = true ->
       exists o,
         In (ECall (Backup p) o)
            (events_of (regenerate_workers_supervisor_conf shop calm) orphaned)).
Proof.
  intros H.
  destruct (H "/benches/shop.localhost/workspace/frappe-bench/config/frappe-bench-frappe-web.workers.fm.supervisor.conf")
    as (o & I); [left; reflexivity | reflexivity |].
  vm_compute in I.
  repeat (destruct I as [I | I]; [discriminate I |]).
  exact I.
Defined.

(** C6 as the code has it, at the shop bench: supervisor.conf exists, so
    the backup set is supervisor.conf and the generated worker file. *)
Lemma regenerate_workers_supervisor_conf_snapshots_first_witness :
  (forall p w', fault calm (Backup p) w' = None)
  /\ backups (snd (regenerate_workers_supervisor_conf shop calm shop_world))
     = ["/benches/shop.localhost/workspace/frappe-bench/config/supervisor.conf";
        "/benches/shop.localhost/workspace/frappe-bench/config/frappe-bench-frappe-web.workers.fm.supervisor.conf"].
Proof.
  split; [intros p w'; reflexivity |].
  destruct (regenerate_workers_supervisor_conf_snapshots_first shop calm shop_world
              (fun p w' => eq_refl))
    as (commands & _ & _ & _ & _ & B & _).
  exact B.
Defined.

(** C7 at the bench with the primary descriptor only: one tear-down call,
    two warnings, and the removal returns normally. *)
Lemma remove_containers_by_descriptor_witness :
  (forall g w', fault calm (DownService g true true) w' = None)
  /\ (forall w', fault calm (Rmtree (path shop)) w' = None)
  /\ fst (remove_containers_and_dirs shop calm primary_only) = Ok tt
  /\ count is_down (events_of (remove_containers calm) primary_only) = 1
  /\ count is_warning (events_of (remove_containers calm) primary_only) = 2.
Proof.
  split; [intros g w'; reflexivity |]. split; [intros w'; reflexivity |].
  destruct (remove_containers_by_descriptor shop calm primary_only
              (fun g w' => eq_refl) (fun w' => eq_refl))
    as (_ & V & _ & D & W & R & _).
  split; [exact R |]. rewrite V. split; [exact D | exact W].
Defined.

(** C9 at the shop bench, whose primary group is running and whose worker
    descriptor exists: both are stopped before the purge. *)
Lemma remove_attached_secrets_bounces_witness :
  (forall a w', fault calm a w' = None)
  /\ common_site_config_exists shop_world = true
  /\ exists restart,
       events_of (remove_attached_secrets shop calm) shop_world
       = [change_head "Removing bench attached secrets";
          ECall (StopService Primary (Some ["frappe"])) None;
          ECall (StopService Workers None) None;
          ECall (RemoveSecretsFromContainer "frappe") None;
          ECall RemoveRootSecretsCompose None;
          ECall WriteToFile None] ++ restart
       /\ In (ECall (StartService Primary (Some false)) None) restart
       /\ In (ECall (StartService Workers (Some false)) None) restart.
Proof.
  split; [intros a w'; reflexivity |]. split; [reflexivity |].
  destruct (remove_attached_secrets_bounces shop calm (fun a w' => eq_refl) shop_world eq_refl)
    as (_ & restart & V & P & W & _).
  exists restart. split; [exact V |]. split; [exact P | exact W].
Defined.

(** C10 at the shop bench with the prompt answered "no". *)
Lemma remove_bench_declined_witness :
  prompt_answer calm shop_world = "no"
  /\ fst (remove_bench shop calm true shop_world) = Ok false
  /\ state_of (snd (remove_bench shop calm true shop_world)) = state_of shop_world.
Proof.
  split; [reflexivity |].
  destruct (remove_bench_declined shop calm true shop_world eq_refl eq_refl) as (E & _ & S).
  rewrite E. split; [reflexivity | rewrite E in S; exact S].
Defined.

(** ** More of the class at the sample benches *)

(** X1 at the shop bench without its common_site_config.json. *)
Lemma start_without_common_site_config_witness :
  common_site_config_exists unconfigured = false
  /\ start shop calm false unconfigured
     = (Raise (BenchException "shop.localhost" "common_site_config.json not found."),
        unconfigured)
  /\ events_of (start shop calm false) unconfigured = [].
Proof.
  split; [reflexivity |].
  exact (@start_without_common_site_config shop calm false unconfigured eq_refl).
Defined.


(** X4 at the shop bench, whose database and database user exist. *)
Lemma remove_database_and_user_by_existence_witness :
  dict_get "name" (bench_db_info shop_world) = Some "shop_db"
  /\ dict_get "user" (bench_db_info shop_world) = Some "shop_db"
  /\ events_of (remove_database_and_user calm) shop_world
     = [change_head "Removing bench db and db users";
        ECall (RemoveDb "shop_db") None;
        print "Removed bench db [blue]shop_db[/blue].";
        ECall (RemoveUser "shop_db" true) None;
        print "Removed bench db users [blue]shop_db[/blue]."]
  /\ count is_removal
       (events_of (remove_database_and_user calm)
          (snd (remove_database_and_user calm shop_world))) = 0.
Proof.
  split; [reflexivity |]. split; [reflexivity |].
  destruct (@remove_database_and_user_by_existence calm shop_world "shop_db" "shop_db"
              (fun _ _ => eq_refl) (fun _ _ => eq_refl) eq_refl eq_refl)
    as (w' & E & V & _ & _ & _ & C).
  split; [exact V |]. rewrite E. exact C.
Defined.

(** X6 at the shop bench when the certificate backend fails: the removal
    still goes through, with one warning. *)
Lemma remove_bench_goes_on_without_certificate_witness :
  String.eqb (prompt_answer without_backend shop_world) "no" = false
  /\ is_Exception without_backend (Exception "no certificate backend") = true
  /\ fst (remove_bench shop without_backend true shop_world) = Ok true
  /\ count is_warning (log (snd (remove_bench shop without_backend true shop_world))) = 1
  /\ path_exists (snd (remove_bench shop without_backend true shop_world)) = false.
Proof.
  split; [reflexivity |]. split; [reflexivity |].
  rewrite (@remove_bench_goes_on_without_certificate shop without_backend true shop_world
             (Exception "no certificate backend") eq_refl eq_refl eq_refl eq_refl).
  split; [reflexivity |]. split; reflexivity.
Defined.

(** X7 at the shop bench with the prompt answered "yes". *)
Lemma remove_bench_confirmed_witness :
  (forall a w', fault agreeing a w' = None)
  /\ String.eqb (prompt_answer agreeing shop_world) "no" = false
  /\ exists w',
       remove_bench shop agreeing true shop_world = (Ok true, w')
       /\ certificate_issued w' = false
       /\ db_exists w' = false
       /\ path_exists w' = false
       /\ pg_get Primary (compose_running w') = false.
Proof.
  split; [intros a w'; reflexivity |]. split; [reflexivity |].
  destruct (@remove_bench_confirmed shop agreeing true shop_world "shop_db" "shop_db"
              (fun _ _ => eq_refl) eq_refl eq_refl eq_refl)
    as (w' & E & _ & C & _ & D & _ & P & R).
  exists w'. split; [exact E |]. split; [exact C |]. split; [exact D |].
  split; [exact P |]. apply R. reflexivity.
Defined.

(** X8 where nothing of the bench exists and no directory can be made:
    [create] reports the error and returns, and the directory is still
    missing. *)
Lemma create_fails_before_directory_witness :
  path_exists blank = false
  /\ is_Exception read_only (OSError "Read-only file system") = true
  /\ fst (create shop read_only false blank) = Ok tt
  /\ List.length (events_of (create shop read_only false) blank) = 6.
Proof.
  split; [reflexivity |]. split; [reflexivity |].
  destruct (@create_fails_before_directory shop read_only false blank
              (OSError "Read-only file system") eq_refl eq_refl eq_refl)
    as (R & V).
  split; [exact R |]. rewrite V. reflexivity.
Defined.

(** X9 at the shop bench with the prompt answered "no". *)
Lemma create_failed_declined_witness :
  path_exists shop_world = true
  /\ (forall w', prompt_answer calm w' = "no")
  /\ fst (create_failed shop calm (Exception "Bench site is inactive or unresponsive.")
            shop_world) = Ok tt
  /\ state_of (snd (create_failed shop calm
                      (Exception "Bench site is inactive or unresponsive.") shop_world))
     = state_of shop_world.
Proof.
  split; [reflexivity |]. split; [intros w'; reflexivity |].
  destruct (@create_failed_declined shop calm shop_world
              (Exception "Bench site is inactive or unresponsive.") "shop_db" "secret"
              eq_refl (fun _ => eq_refl) (fun _ => eq_refl) (fun _ => eq_refl)
              eq_refl eq_refl)
    as (R & _ & S).
  split; [exact R | exact S].
Defined.

(** X12 with three backups when the second cannot be restored: the third
    is left as it is. *)
Lemma backup_restore_stops_at_first_failure_witness :
  (forall w', fault unrestorable
                (RestoreBackup "/benches/shop.localhost/workspace/frappe-bench/config/frappe-bench-frappe-web.workers.fm.supervisor.conf" true) w'
              = Some (OSError "No space left on device"))
  /\ events_of
       (backup_restore_workers_supervisor unrestorable
          ["/benches/shop.localhost/workspace/frappe-bench/config/supervisor.conf";
           "/benches/shop.localhost/workspace/frappe-bench/config/frappe-bench-frappe-web.workers.fm.supervisor.conf";
           "/benches/shop.localhost/workspace/frappe-bench/config/frappe-bench-frappe-schedule.workers.fm.supervisor.conf"])
       shop_world
     = [print "Rolling back to previous workers configuration.";
        ECall (RestoreBackup "/benches/shop.localhost/workspace/frappe-bench/config/supervisor.conf" true) None;
        ECall (RestoreBackup "/benches/shop.localhost/workspace/frappe-bench/config/frappe-bench-frappe-web.workers.fm.supervisor.conf" true)
          (Some (OSError "No space left on device"))].
Proof.
  split; [intros w'; reflexivity |].
  assert (N : forall p w',
            In p ["/benches/shop.localhost/workspace/frappe-bench/config/supervisor.conf"] ->
            fault unrestorable (RestoreBackup p true) w' = None).
  { intros p w' [<- | []]. reflexivity. }
  destruct (@backup_restore_stops_at_first_failure unrestorable
              ["/benches/shop.localhost/workspace/frappe-bench/config/supervisor.conf"]
              ["/benches/shop.localhost/workspace/frappe-bench/config/frappe-bench-frappe-schedule.workers.fm.supervisor.conf"]
              "/benches/shop.localhost/workspace/frappe-bench/config/frappe-bench-frappe-web.workers.fm.supervisor.conf"
              (OSError "No space left on device") shop_world N (fun _ => eq_refl))
    as (_ & V).
  exact V.
Defined.

(** X13 at the shop bench on its first synchronisation, which finds the
    workers changed. *)
Lemma sync_workers_compose_changed_witness :
  is_expected_worker_same_as_template settling
    (snd (regenerate_workers_supervisor_conf shop settling shop_world)) = false
  /\ exists w',
       sync_workers_compose shop settling true shop_world = (Ok tt, w')
       /\ pg_get Workers (compose_file_exists w') = true
       /\ pg_get Workers (compose_running w') = true.
Proof.
  split; [reflexivity |].
  pose proof (@sync_workers_compose_changed shop settling true shop_world
                (snd (regenerate_workers_supervisor_conf shop settling shop_world)) true
                eq_refl eq_refl) as H.
  destruct (H (fun _ => eq_refl)) as (w' & E & _ & F & R).
  exists w'. split; [exact E |]. split; [exact F | exact R].
Defined.

(** X14 at the shop bench when the frappe service answers at once. *)
Lemma is_bench_created_first_answer_witness :
  check_command shop 3 shop_world
  = (Ok "curl -I --max-time 3 --connect-timeout 3  http://localhost", shop_world)
  /\ fst (is_bench_created shop calm 3 1 shop_world) = Ok true
  /\ count is_exec (events_of (is_bench_created shop calm 3 1) shop_world) = 1.
Proof.
  split; [reflexivity |].
  assert (B : (1 <= 3)%Z) by lia.
  destruct (@is_bench_created_first_answer shop calm 3 1 shop_world
              "curl -I --max-time 3 --connect-timeout 3  http://localhost"
              B eq_refl eq_refl eq_refl)
    as (E & V).
  rewrite E, V. split; reflexivity.
Defined.

(** X15 at the shop bench when every attempt returns without an answer:
    three attempts, no delay. *)
Lemma is_bench_created_unanswered_witness :
  (forall w', existsb (contains "HTTP/1.1 200 OK")
                (exec_stdout silent "curl -I --max-time 3 --connect-timeout 3  http://localhost" w')
              = false)
  /\ fst (is_bench_created shop silent 3 1 shop_world) = Ok false
  /\ count is_exec (events_of (is_bench_created shop silent 3 1) shop_world) = 3
  /\ count is_sleep (events_of (is_bench_created shop silent 3 1) shop_world) = 0.
Proof.
  split; [intros w'; reflexivity |].
  destruct (@is_bench_created_unanswered shop silent 3 1 shop_world
              "curl -I --max-time 3 --connect-timeout 3  http://localhost"
              eq_refl (fun _ => eq_refl) (fun _ => eq_refl))
    as (R & V & S).
  split; [exact R |]. split; [rewrite V; reflexivity | exact S].
Defined.

(** X18 at the shop bench, whose three descriptors exist. *)
Lemma stop_by_descriptor_witness :
  (forall g w', fault calm (StopService g None) w' = None)
  /\ events_of (stop calm) shop_world
     = [change_head "Stopping bench services";
        ECall (StopService Primary None) None;
        print "Stopped bench services.";
        change_head "Starting bench workers services";
        ECall (StopService Workers None) None;
        print "Started bench workers services";
        change_head "Stopped bench admin tools services";
        ECall (StopService AdminTools None) None;
        print "Stopped bench admin tools services."].
Proof.
  split; [intros g w'; reflexivity |].
  destruct (@stop_by_descriptor calm shop_world (fun _ _ => eq_refl)) as (_ & V).
  exact V.
Defined.

(** X19 at the shop bench when the delete fails for another reason than
    permissions: the error goes up and the directory is still there. *)
Lemma remove_dirs_other_errors_go_up_witness :
  is_PermissionError (OSError "Device or resource busy") = false
  /\ fst (remove_dirs shop busy shop_world) = Raise (OSError "Device or resource busy")
  /\ path_exists (snd (remove_dirs shop busy shop_world)) = true.
Proof.
  split; [reflexivity |].
  destruct (@remove_dirs_other_errors_go_up shop busy shop_world
              (OSError "Device or resource busy") eq_refl eq_refl)
    as (E & _).
  rewrite E. split; reflexivity.
Defined.

(** X21 where nothing of the bench exists: the nginx configuration is
    copied out of the image once. *)
Lemma create_compose_dirs_keeps_existing_conf_witness :
  (forall a w', fault calm a w' = None)
  /\ fst (create_compose_dirs shop calm blank) = Ok true
  /\ events_of (create_compose_dirs shop calm) blank
     = [change_head "Creating required directories";
        ECall (HostRunCp "frappe-manager-frappe:v0.13.0" "/workspace"
                 "/benches/shop.localhost/workspace") None;
        ECall (Mkdir "/benches/shop.localhost/configs") None;
        ECall (Mkdir "/benches/shop.localhost/configs/nginx") None;
        ECall (HostRunCp "frappe-manager-nginx:v0.13.0" "/etc/nginx"
                 "/benches/shop.localhost/configs/nginx/conf") None;
        ECall (Mkdir "/benches/shop.localhost/configs/nginx/logs") None;
        ECall (Mkdir "/benches/shop.localhost/configs/nginx/cache") None;
        ECall (Mkdir "/benches/shop.localhost/configs/nginx/run") None;
        ECall (Mkdir "/benches/shop.localhost/configs/nginx/html") None;
        print "Created all required directories."].
Proof.
  split; [intros a w'; reflexivity |].
  pose proof (@create_compose_dirs_keeps_existing_conf shop calm blank (fun _ _ => eq_refl))
    as H.
  cbv zeta in H. destruct H as (R & V).
  split; [exact R | exact V].
Defined.

(** X22 at the shop bench when the first regeneration command is
    interrupted from the keyboard. *)
Lemma regenerate_other_errors_go_up_witness :
  is_DockerException KeyboardInterrupt = false
  /\ fst (regenerate_workers_supervisor_conf shop interrupted shop_world)
     = Raise KeyboardInterrupt
  /\ count is_restore
       (log (snd (regenerate_workers_supervisor_conf shop interrupted shop_world))) = 0.
Proof.
  split; [reflexivity |].
  rewrite (@regenerate_other_errors_go_up shop interrupted shop_world KeyboardInterrupt
             (fun _ _ => eq_refl) eq_refl eq_refl).
  split; reflexivity.
Defined.

(** X23 at the shop bench, whose configuration has the admin tools
    switched off. *)
Lemma create_without_admin_tools_witness :
  admin_tools (bench_config shop_world) = false
  /\ forallb leaves_admin_tools (events_of (create_after_checked shop calm) shop_world) = true.
Proof.
  split; [reflexivity |].
  exact (@create_without_admin_tools shop calm shop_world eq_refl).
Defined.

(** X24 at the shop bench when every delete is refused: the recovery runs
    once, its delete is refused too, and the removal ends in the
    directory-removal error. *)
Lemma remove_dirs_recovers_once_witness :
  dict_get "frappe" (all_images shop_world) = Some ("frappe-manager-frappe", "v0.13.0")
  /\ fst (remove_dirs shop locked shop_world)
     = Raise (BenchRemoveDirectoryError "shop.localhost" "/benches/shop.localhost")
  /\ log (snd (remove_dirs shop locked shop_world))
     = [change_head "Removing all bench files and directories.";
        ECall (Rmtree "/benches/shop.localhost") (Some PermissionError);
        ECall (DockerRun "frappe-manager-frappe:v0.13.0" "/bin/sh"
                 "-c 'chown -R frappe:frappe .'"
                 "/benches/shop.localhost/workspace:/workspace" false) None;
        ECall (Rmtree "/benches/shop.localhost") (Some PermissionError)].
Proof.
  split; [reflexivity |].
  pose proof (@remove_dirs_recovers_once shop locked shop_world
                "frappe-manager-frappe" "v0.13.0" eq_refl eq_refl) as H.
  rewrite (H eq_refl). split; reflexivity.
Defined.

(** X25 at the shop bench, whose primary group is running. *)
Lemma remove_attached_secrets_writes_only_after_stop_witness :
  pg_get Primary (compose_running shop_world) = true
  /\ exists o rest,
       events_of (remove_attached_secrets shop calm) shop_world
       = [change_head "Removing bench attached secrets";
          ECall (StopService Primary (Some ["frappe"])) None;
          ECall (StopService Workers None) None;
          ECall (RemoveSecretsFromContainer "frappe") None;
          ECall RemoveRootSecretsCompose None;
          ECall WriteToFile o] ++ rest
       /\ count is_stop rest = 0
       /\ count is_descriptor_write rest = 0.
Proof.
  split; [reflexivity |].
  destruct (@remove_attached_secrets_writes_only_after_stop shop calm shop_world eq_refl)
    as [Z | (o & rest & V & S & D)]; [vm_compute in Z; discriminate Z |].
  exists o, rest. split; [exact V |]. split; [exact S | exact D].
Defined.

(** X26 at the bench with the primary descriptor only. *)
Lemma remove_containers_only_present_witness :
  In (ECall (DownService Primary true true) None)
     (events_of (remove_containers calm) primary_only)
  /\ pg_get Primary (compose_file_exists primary_only) = true.
Proof.
  assert (I : In (ECall (DownService Primary true true) None)
                (events_of (remove_containers calm) primary_only))
    by (vm_compute; right; left; reflexivity).
  split; [exact I |].
  exact (@remove_containers_only_present calm primary_only Primary true true None I).
Defined.

(** X27 at the shop bench with the admin tools switched on and down. *)
Lemma ensure_admin_tools_enables_witness :
  pg_get AdminTools (compose_file_exists admin_tools_wanted) = true
  /\ admin_tools (bench_config admin_tools_wanted) = true
  /\ pg_get AdminTools (compose_running admin_tools_wanted) = false
  /\ pg_get Primary (compose_running admin_tools_wanted) = true
  /\ events_of (ensure_admin_tools_running_if_available calm) admin_tools_wanted
     = [ECall (AdminToolsEnable None) None].
Proof.
  repeat (split; [reflexivity |]).
  exact (@ensure_admin_tools_enables calm admin_tools_wanted eq_refl eq_refl eq_refl eq_refl).
Defined.

(** X28 at the shop bench when no group can be stopped. *)
Lemma remove_attached_secrets_stop_raises_witness :
  pg_get Primary (compose_running shop_world) = true
  /\ fst (remove_attached_secrets shop stuck shop_world) = Raise DockerException
  /\ count is_descriptor_write (log (snd (remove_attached_secrets shop stuck shop_world))) = 0.
Proof.
  split; [reflexivity |].
  rewrite (@remove_attached_secrets_stop_raises shop stuck shop_world DockerException
             eq_refl eq_refl).
  split; reflexivity.
Defined.


(** X16 at the shop bench: the generated worker file is snapshotted. *)
Lemma backup_workers_supervisor_conf_snapshots_witness :
  (forall q w', fault calm (Backup q) w' = None)
  /\ In (ECall (Backup "/benches/shop.localhost/workspace/frappe-bench/config/frappe-bench-frappe-web.workers.fm.supervisor.conf") None)
       (events_of (backup_workers_supervisor_conf shop calm) shop_world).
Proof.
  split; [intros q w'; reflexivity |].
  apply (@backup_workers_supervisor_conf_snapshots shop calm shop_world
           "/benches/shop.localhost/workspace/frappe-bench/config/frappe-bench-frappe-web.workers.fm.supervisor.conf"
           (fun _ _ => eq_refl)).
  right. split; [reflexivity |]. split; [right; left; reflexivity |].
  exists "/benches/shop.localhost/workspace/frappe-bench/config/frappe-bench-frappe-web.workers".
  reflexivity.
Defined.

